(** * libxlsxwriter: the chart model of [src/chart.c] and the worksheet
      cell store declared in [worksheet.h]

    A shallow embedding of the chart object of libxlsxwriter, of the
    functions that build it ([lxw_chart_new], [chart_add_series],
    [lxw_chart_add_data_cache]) and of the serializer
    ([lxw_chart_assemble_xml_file] and the [_chart_write_*] functions it
    calls), followed by the properties of the specification that are about
    them.

    Conventions of the embedding.
    - C integers are [Z]; where the source computes in a fixed width the
      wrap-around is written out with [uint8], [uint16], [uint32].
    - [char] buffers and [char *] strings are [string]; a pointer that can be
      [NULL] is an [option].
    - A STAILQ is a [list], head first; [STAILQ_INSERT_TAIL] appends.
    - The serializer mutates the chart it writes and appends to [self->file]
      through the tag writer of [xmlwriter.h]. It is embedded in a monad [M]
      that threads the chart, collects in order what is handed to the tag
      writer and to [stderr], and has a failure for the dereference of a
      [NULL] list head.
    - [calloc] and [lxw_strdup] can fail: the constructors take the outcomes
      of the allocation requests as an oracle. *)

From Stdlib Require Import ZArith List String Ascii Bool Lia.
From Stdlib Require Import Sorting.Sorted.
From Stdlib Require Import Floats.SpecFloat.
Import ListNotations.

#[local] Open Scope string_scope.
#[local] Open Scope list_scope.
#[local] Open Scope Z_scope.

(** ** Fixed-width integers *)

Definition uint8 (x : Z) : Z := x mod 2 ^ 8.
Definition uint16 (x : Z) : Z := x mod 2 ^ 16.
Definition uint32 (x : Z) : Z := x mod 2 ^ 32.

(** ** What [chart.h] and [common.h] declare

    Neither header is part of the sources at hand. The chart type constants
    are the labels of the [switch] in [_chart_write_chart_type]; a C [switch]
    does not compile with two equal labels, which is the only fact the
    embedding relies on. *)

Class chart_h : Type := {
  LXW_CHART_AREA : Z;
  LXW_CHART_AREA_STACKED : Z;
  LXW_CHART_AREA_STACKED_PERCENT : Z;
  LXW_CHART_BAR : Z;
  LXW_CHART_BAR_STACKED : Z;
  LXW_CHART_BAR_STACKED_PERCENT : Z;
  LXW_CHART_COLUMN : Z;
  LXW_CHART_COLUMN_STACKED : Z;
  LXW_CHART_COLUMN_STACKED_PERCENT : Z;
  LXW_CHART_LINE : Z;
  LXW_CHART_SUBTYPE_STACKED : Z;
  LXW_SCHEMA_DRAWING : string;
  LXW_SCHEMA_OFFICEDOC : string;
  chart_types_distinct :
    NoDup [LXW_CHART_AREA; LXW_CHART_AREA_STACKED;
           LXW_CHART_AREA_STACKED_PERCENT;
           LXW_CHART_BAR; LXW_CHART_BAR_STACKED;
           LXW_CHART_BAR_STACKED_PERCENT;
           LXW_CHART_COLUMN; LXW_CHART_COLUMN_STACKED;
           LXW_CHART_COLUMN_STACKED_PERCENT;
           LXW_CHART_LINE]
}.

(** ** The data model *)

(** [struct lxw_series_data_point]: one cached number, a C [double]. *)
Record lxw_series_data_point : Type := { number : spec_float }.

(** [lxw_series_range]. [formula] and [sheetname] are [char *] and
    [data_cache] is a pointer to a list head: all three are [NULL] after
    [calloc]. *)
Record lxw_series_range : Type := {
  formula : option string;
  sheetname : option string;
  ignore_cache : bool;
  num_data_points : Z;
  data_cache : option (list lxw_series_data_point)
}.

(** [lxw_chart_series]: a series in the list owns its two ranges
    ([chart_add_series] links it only after both are allocated). *)
Record lxw_chart_series : Type := {
  categories : lxw_series_range;
  values : lxw_series_range
}.

Record lxw_axis : Type := { default_num_format : string }.

(** [lxw_chart], with the fields [chart.c] reads or writes. [self->file] is
    not a field here: what is written to it is the output of [M]. The
    flags only ever receive [LXW_TRUE] and are only tested for truth. *)

Record lxw_chart : Type := {
  type : Z;
  subtype : Z;
  series_index : Z;
  x_axis : lxw_axis;
  y_axis : lxw_axis;
  id : Z;
  axis_id_1 : Z;
  axis_id_2 : Z;
  cat_has_num_fmt : bool;
  has_markers : bool;
  has_overlap : bool;
  series_overlap_1 : Z;
  grouping : string;
  cross_between : string;
  cat_axis_position : string;
  val_axis_position : string;
  series_list : list lxw_chart_series
}.

(** Field assignments [self->f = v]. *)

Definition set_subtype (v : Z) (c : lxw_chart) : lxw_chart :=
  {| type := type c; subtype := v; series_index := series_index c;
     x_axis := x_axis c; y_axis := y_axis c; id := id c;
     axis_id_1 := axis_id_1 c; axis_id_2 := axis_id_2 c;
     cat_has_num_fmt := cat_has_num_fmt c; has_markers := has_markers c;
     has_overlap := has_overlap c; series_overlap_1 := series_overlap_1 c;
     grouping := grouping c; cross_between := cross_between c;
     cat_axis_position := cat_axis_position c;
     val_axis_position := val_axis_position c;
     series_list := series_list c |}.

Definition set_series_index (v : Z) (c : lxw_chart) : lxw_chart :=
  {| type := type c; subtype := subtype c; series_index := v;
     x_axis := x_axis c; y_axis := y_axis c; id := id c;
     axis_id_1 := axis_id_1 c; axis_id_2 := axis_id_2 c;
     cat_has_num_fmt := cat_has_num_fmt c; has_markers := has_markers c;
     has_overlap := has_overlap c; series_overlap_1 := series_overlap_1 c;
     grouping := grouping c; cross_between := cross_between c;
     cat_axis_position := cat_axis_position c;
     val_axis_position := val_axis_position c;
     series_list := series_list c |}.

Definition set_y_axis (v : lxw_axis) (c : lxw_chart) : lxw_chart :=
  {| type := type c; subtype := subtype c; series_index := series_index c;
     x_axis := x_axis c; y_axis := v; id := id c; axis_id_1 := axis_id_1 c;
     axis_id_2 := axis_id_2 c; cat_has_num_fmt := cat_has_num_fmt c;
     has_markers := has_markers c; has_overlap := has_overlap c;
     series_overlap_1 := series_overlap_1 c; grouping := grouping c;
     cross_between := cross_between c;
     cat_axis_position := cat_axis_position c;
     val_axis_position := val_axis_position c;
     series_list := series_list c |}.

Definition set_id (v : Z) (c : lxw_chart) : lxw_chart :=
  {| type := type c; subtype := subtype c; series_index := series_index c;
     x_axis := x_axis c; y_axis := y_axis c; id := v;
     axis_id_1 := axis_id_1 c; axis_id_2 := axis_id_2 c;
     cat_has_num_fmt := cat_has_num_fmt c; has_markers := has_markers c;
     has_overlap := has_overlap c; series_overlap_1 := series_overlap_1 c;
     grouping := grouping c; cross_between := cross_between c;
     cat_axis_position := cat_axis_position c;
     val_axis_position := val_axis_position c;
     series_list := series_list c |}.

Definition set_axis_id_1 (v : Z) (c : lxw_chart) : lxw_chart :=
  {| type := type c; subtype := subtype c; series_index := series_index c;
     x_axis := x_axis c; y_axis := y_axis c; id := id c; axis_id_1 := v;
     axis_id_2 := axis_id_2 c; cat_has_num_fmt := cat_has_num_fmt c;
     has_markers := has_markers c; has_overlap := has_overlap c;
     series_overlap_1 := series_overlap_1 c; grouping := grouping c;
     cross_between := cross_between c;
     cat_axis_position := cat_axis_position c;
     val_axis_position := val_axis_position c;
     series_list := series_list c |}.

Definition set_axis_id_2 (v : Z) (c : lxw_chart) : lxw_chart :=
  {| type := type c; subtype := subtype c; series_index := series_index c;
     x_axis := x_axis c; y_axis := y_axis c; id := id c;
     axis_id_1 := axis_id_1 c; axis_id_2 := v;
     cat_has_num_fmt := cat_has_num_fmt c; has_markers := has_markers c;
     has_overlap := has_overlap c; series_overlap_1 := series_overlap_1 c;
     grouping := grouping c; cross_between := cross_between c;
     cat_axis_position := cat_axis_position c;
     val_axis_position := val_axis_position c;
     series_list := series_list c |}.

Definition set_cat_has_num_fmt (v : bool) (c : lxw_chart) : lxw_chart :=
  {| type := type c; subtype := subtype c; series_index := series_index c;
     x_axis := x_axis c; y_axis := y_axis c; id := id c;
     axis_id_1 := axis_id_1 c; axis_id_2 := axis_id_2 c;
     cat_has_num_fmt := v; has_markers := has_markers c;
     has_overlap := has_overlap c; series_overlap_1 := series_overlap_1 c;
     grouping := grouping c; cross_between := cross_between c;
     cat_axis_position := cat_axis_position c;
     val_axis_position := val_axis_position c;
     series_list := series_list c |}.

Definition set_has_markers (v : bool) (c : lxw_chart) : lxw_chart :=
  {| type := type c; subtype := subtype c; series_index := series_index c;
     x_axis := x_axis c; y_axis := y_axis c; id := id c;
     axis_id_1 := axis_id_1 c; axis_id_2 := axis_id_2 c;
     cat_has_num_fmt := cat_has_num_fmt c; has_markers := v;
     has_overlap := has_overlap c; series_overlap_1 := series_overlap_1 c;
     grouping := grouping c; cross_between := cross_between c;
     cat_axis_position := cat_axis_position c;
     val_axis_position := val_axis_position c;
     series_list := series_list c |}.

Definition set_has_overlap (v : bool) (c : lxw_chart) : lxw_chart :=
  {| type := type c; subtype := subtype c; series_index := series_index c;
     x_axis := x_axis c; y_axis := y_axis c; id := id c;
     axis_id_1 := axis_id_1 c; axis_id_2 := axis_id_2 c;
     cat_has_num_fmt := cat_has_num_fmt c; has_markers := has_markers c;
     has_overlap := v; series_overlap_1 := series_overlap_1 c;
     grouping := grouping c; cross_between := cross_between c;
     cat_axis_position := cat_axis_position c;
     val_axis_position := val_axis_position c;
     series_list := series_list c |}.

Definition set_grouping (v : string) (c : lxw_chart) : lxw_chart :=
  {| type := type c; subtype := subtype c; series_index := series_index c;
     x_axis := x_axis c; y_axis := y_axis c; id := id c;
     axis_id_1 := axis_id_1 c; axis_id_2 := axis_id_2 c;
     cat_has_num_fmt := cat_has_num_fmt c; has_markers := has_markers c;
     has_overlap := has_overlap c; series_overlap_1 := series_overlap_1 c;
     grouping := v; cross_between := cross_between c;
     cat_axis_position := cat_axis_position c;
     val_axis_position := val_axis_position c;
     series_list := series_list c |}.

Definition set_cross_between (v : string) (c : lxw_chart) : lxw_chart :=
  {| type := type c; subtype := subtype c; series_index := series_index c;
     x_axis := x_axis c; y_axis := y_axis c; id := id c;
     axis_id_1 := axis_id_1 c; axis_id_2 := axis_id_2 c;
     cat_has_num_fmt := cat_has_num_fmt c; has_markers := has_markers c;
     has_overlap := has_overlap c; series_overlap_1 := series_overlap_1 c;
     grouping := grouping c; cross_between := v;
     cat_axis_position := cat_axis_position c;
     val_axis_position := val_axis_position c;
     series_list := series_list c |}.

Definition set_cat_axis_position (v : string) (c : lxw_chart) : lxw_chart :=
  {| type := type c; subtype := subtype c; series_index := series_index c;
     x_axis := x_axis c; y_axis := y_axis c; id := id c;
     axis_id_1 := axis_id_1 c; axis_id_2 := axis_id_2 c;
     cat_has_num_fmt := cat_has_num_fmt c; has_markers := has_markers c;
     has_overlap := has_overlap c; series_overlap_1 := series_overlap_1 c;
     grouping := grouping c; cross_between := cross_between c;
     cat_axis_position := v; val_axis_position := val_axis_position c;
     series_list := series_list c |}.

Definition set_val_axis_position (v : string) (c : lxw_chart) : lxw_chart :=
  {| type := type c; subtype := subtype c; series_index := series_index c;
     x_axis := x_axis c; y_axis := y_axis c; id := id c;
     axis_id_1 := axis_id_1 c; axis_id_2 := axis_id_2 c;
     cat_has_num_fmt := cat_has_num_fmt c; has_markers := has_markers c;
     has_overlap := has_overlap c; series_overlap_1 := series_overlap_1 c;
     grouping := grouping c; cross_between := cross_between c;
     cat_axis_position := cat_axis_position c; val_axis_position := v;
     series_list := series_list c |}.

Definition set_series_list (v : list lxw_chart_series) (c : lxw_chart) : lxw_chart :=
  {| type := type c; subtype := subtype c; series_index := series_index c;
     x_axis := x_axis c; y_axis := y_axis c; id := id c;
     axis_id_1 := axis_id_1 c; axis_id_2 := axis_id_2 c;
     cat_has_num_fmt := cat_has_num_fmt c; has_markers := has_markers c;
     has_overlap := has_overlap c; series_overlap_1 := series_overlap_1 c;
     grouping := grouping c; cross_between := cross_between c;
     cat_axis_position := cat_axis_position c;
     val_axis_position := val_axis_position c; series_list := v |}.

(** ** What the serializer hands to its collaborators

    The tag writer ([lxw_xml_start_tag] and the like, [xmlwriter.h]) and
    [LXW_WARN_FORMAT] are outside [chart.c]. A run is described by the calls
    it makes to them, in order, with their arguments. A [NULL] attribute
    list is the empty list. *)

Inductive xml_attr_value : Type :=
| AttrStr (s : string)  (* LXW_PUSH_ATTRIBUTES_STR *)
| AttrInt (n : Z).      (* LXW_PUSH_ATTRIBUTES_INT *)

Definition xml_attribute : Type := (string * xml_attr_value)%type.

Inductive xml_data : Type :=
| DataStr (s : option string)  (* a [char *], possibly [NULL] *)
| DataG16 (d : spec_float).    (* the buffer [lxw_snprintf] fills with "%.16g" *)

Inductive output : Type :=
| XmlDeclaration
| StartTag (tag : string) (attributes : list xml_attribute)
| EndTag (tag : string)
| EmptyTag (tag : string) (attributes : list xml_attribute)
| DataElement (tag : string) (data : xml_data) (attributes : list xml_attribute)
| Warn (format : string) (arg : Z).

(** ** The serializer monad *)

Definition M (A : Type) : Type :=
  lxw_chart -> option (A * lxw_chart * list output).

Definition ret {A : Type} (a : A) : M A := fun c => Some (a, c, []).

Definition bind {A B : Type} (m : M A) (f : A -> M B) : M B :=
  fun c =>
    match m c with
    | None => None
    | Some (a, c1, o1) =>
        match f a c1 with
        | None => None
        | Some (b, c2, o2) => Some (b, c2, o1 ++ o2)
        end
    end.

Notation "x <- c1 ;; c2" := (bind c1 (fun x => c2))
  (at level 61, c1 at next level, right associativity).
Notation "c1 ;; c2" := (bind c1 (fun _ => c2))
  (at level 61, right associativity).

(** Read [self]. *)
Definition self : M lxw_chart := fun c => Some (c, c, []).
(** Write a field of [self]. *)
Definition assign (f : lxw_chart -> lxw_chart) : M unit :=
  fun c => Some (tt, f c, []).
Definition emit (e : output) : M unit := fun c => Some (tt, c, [e]).
(** Reading through a [NULL] pointer: the run has no defined result. *)
Definition null_dereference {A : Type} : M A := fun _ => None.

(** [STAILQ_FOREACH] with a body that does not touch the list. *)
Fixpoint STAILQ_FOREACH {A : Type} (l : list A) (body : A -> M unit) : M unit :=
  match l with
  | [] => ret tt
  | x :: l' => body x ;; STAILQ_FOREACH l' body
  end.

Definition lxw_xml_declaration : M unit := emit XmlDeclaration.
Definition lxw_xml_start_tag (tag : string) (a : list xml_attribute) : M unit :=
  emit (StartTag tag a).
Definition lxw_xml_end_tag (tag : string) : M unit := emit (EndTag tag).
Definition lxw_xml_empty_tag (tag : string) (a : list xml_attribute) : M unit :=
  emit (EmptyTag tag a).
Definition lxw_xml_data_element (tag : string) (data : xml_data)
    (a : list xml_attribute) : M unit :=
  emit (DataElement tag data a).
Definition LXW_WARN_FORMAT (message : string) (var : Z) : M unit :=
  emit (Warn message var).

(** ** Allocation *)

(** The outcomes of the allocation requests to come, first request first;
    when the list is used up every further request succeeds. *)
Definition alloc_oracle : Type := list bool.

Definition alloc (o : alloc_oracle) : bool * alloc_oracle :=
  match o with
  | [] => (true, [])
  | ok :: o' => (ok, o')
  end.

Definition lxw_strdup (s : string) (o : alloc_oracle)
  : option string * alloc_oracle :=
  let (ok, o') := alloc o in
  ((if ok then Some s else None), o').

Section Chart.

Context `{chart_h}.

(** ** Private functions *)

(** [lxw_chart_new]: [None] is the [NULL] of the [mem_error] exit. *)
Definition lxw_chart_new (type_ : Z) (o : alloc_oracle)
  : option lxw_chart * alloc_oracle :=
  let (chart_ok, o1) := alloc o in
  if negb chart_ok then (None, o1) else
  let (list_ok, o2) := alloc o1 in
  if negb list_ok then (None, o2) else
  (Some {| type := type_;
           subtype := 0;
           series_index := 0;
           x_axis := {| default_num_format := "General" |};
           y_axis := {| default_num_format := "General" |};
           id := 0;
           axis_id_1 := 0;
           axis_id_2 := 0;
           cat_has_num_fmt := false;
           has_markers := false;
           has_overlap := false;
           series_overlap_1 := 100;
           grouping := "clustered";
           cross_between := "between";
           cat_axis_position := "b";
           val_axis_position := "l";
           series_list := [] |}, o2).

(** [_chart_add_axis_ids]: [chart_id] and [axis_count] are [uint32_t]. *)
Definition _chart_add_axis_ids : M unit :=
  c <- self ;;
  let chart_id := uint32 (50010000 + id c) in
  let axis_count := 1 in
  assign (set_axis_id_1 (uint32 (chart_id + axis_count))) ;;
  c <- self ;;
  assign (set_axis_id_2 (uint32 (axis_id_1 c + 1))).

(** ** XML functions *)

Definition _chart_xml_declaration : M unit := lxw_xml_declaration.

Definition _chart_write_chart_space : M unit :=
  let xmlns_c := String.append LXW_SCHEMA_DRAWING "/chart" in
  let xmlns_a := String.append LXW_SCHEMA_DRAWING "/main" in
  let xmlns_r := String.append LXW_SCHEMA_OFFICEDOC "/relationships" in
  lxw_xml_start_tag "c:chartSpace"
    [("xmlns:c", AttrStr xmlns_c); ("xmlns:a", AttrStr xmlns_a);
     ("xmlns:r", AttrStr xmlns_r)].

Definition _chart_write_lang : M unit :=
  lxw_xml_empty_tag "c:lang" [("val", AttrStr "en-US")].

Definition _chart_write_layout : M unit :=
  lxw_xml_empty_tag "c:layout" [].

Definition _chart_write_grouping (grouping_ : string) : M unit :=
  lxw_xml_empty_tag "c:grouping" [("val", AttrStr grouping_)].

Definition _chart_write_idx (index : Z) : M unit :=
  lxw_xml_empty_tag "c:idx" [("val", AttrInt index)].

Definition _chart_write_order (index : Z) : M unit :=
  lxw_xml_empty_tag "c:order" [("val", AttrInt index)].

Definition _chart_write_axis_id (axis_id : Z) : M unit :=
  lxw_xml_empty_tag "c:axId" [("val", AttrInt axis_id)].

(** [_chart_write_axis_ids]: the ids are allocated when [axis_id_1] is 0. *)
Definition _chart_write_axis_ids : M unit :=
  c <- self ;;
  (if axis_id_1 c =? 0 then _chart_add_axis_ids else ret tt) ;;
  c <- self ;;
  _chart_write_axis_id (axis_id_1 c) ;;
  _chart_write_axis_id (axis_id_2 c).

Definition _chart_write_pt_count (num_data_points_ : Z) : M unit :=
  lxw_xml_empty_tag "c:ptCount" [("val", AttrInt num_data_points_)].

Definition _chart_write_v (number_ : spec_float) : M unit :=
  lxw_xml_data_element "c:v" (DataG16 number_) [].

Definition _chart_write_pt (index : Z) (number_ : spec_float) : M unit :=
  lxw_xml_start_tag "c:pt" [("idx", AttrInt index)] ;;
  _chart_write_v number_ ;;
  lxw_xml_end_tag "c:pt".

Definition _chart_write_format_code : M unit :=
  lxw_xml_data_element "c:formatCode" (DataStr (Some "General")) [].

(** The loop of [_chart_write_num_cache]; [index] is its [uint16_t] counter. *)
Fixpoint _chart_write_num_cache_loop (points : list lxw_series_data_point)
    (index : Z) : M unit :=
  match points with
  | [] => ret tt
  | data_point :: rest =>
      _chart_write_pt index (number data_point) ;;
      _chart_write_num_cache_loop rest (uint16 (index + 1))
  end.

Definition _chart_write_num_cache (range : lxw_series_range) : M unit :=
  lxw_xml_start_tag "c:numCache" [] ;;
  _chart_write_format_code ;;
  _chart_write_pt_count (num_data_points range) ;;
  match data_cache range with
  | None => null_dereference
  | Some points => _chart_write_num_cache_loop points 0
  end ;;
  lxw_xml_end_tag "c:numCache".

Definition _chart_write_data_cache (range : lxw_series_range) : M unit :=
  _chart_write_num_cache range.

Definition _chart_write_f (formula_ : option string) : M unit :=
  lxw_xml_data_element "c:f" (DataStr formula_) [].

(** [_chart_write_num_ref]: [STAILQ_EMPTY] reads through [range->data_cache]. *)
Definition _chart_write_num_ref (range : lxw_series_range) : M unit :=
  lxw_xml_start_tag "c:numRef" [] ;;
  _chart_write_f (formula range) ;;
  match data_cache range with
  | None => null_dereference
  | Some [] => ret tt
  | Some (_ :: _) => _chart_write_data_cache range
  end ;;
  lxw_xml_end_tag "c:numRef".

Definition _chart_write_symbol : M unit :=
  lxw_xml_empty_tag "c:symbol" [("val", AttrStr "none")].

Definition _chart_write_marker : M unit :=
  c <- self ;;
  if negb (has_markers c) then ret tt else
  lxw_xml_start_tag "c:marker" [] ;;
  _chart_write_symbol ;;
  lxw_xml_end_tag "c:marker".

Definition _chart_write_marker_value : M unit :=
  lxw_xml_empty_tag "c:marker" [("val", AttrStr "1")].

Definition _chart_write_cat (series : lxw_chart_series) : M unit :=
  match formula (categories series) with
  | None => ret tt
  | Some _ =>
      assign (set_cat_has_num_fmt true) ;;
      lxw_xml_start_tag "c:cat" [] ;;
      _chart_write_num_ref (categories series) ;;
      lxw_xml_end_tag "c:cat"
  end.

Definition _chart_write_val (series : lxw_chart_series) : M unit :=
  lxw_xml_start_tag "c:val" [] ;;
  _chart_write_num_ref (values series) ;;
  lxw_xml_end_tag "c:val".

(** [_chart_write_ser]: [uint16_t index = self->series_index++]. *)
Definition _chart_write_ser (series : lxw_chart_series) : M unit :=
  c <- self ;;
  let index := uint16 (series_index c) in
  assign (set_series_index (uint16 (series_index c + 1))) ;;
  lxw_xml_start_tag "c:ser" [] ;;
  _chart_write_idx index ;;
  _chart_write_order index ;;
  _chart_write_marker ;;
  _chart_write_cat series ;;
  _chart_write_val series ;;
  lxw_xml_end_tag "c:ser".

Definition _chart_write_orientation : M unit :=
  lxw_xml_empty_tag "c:orientation" [("val", AttrStr "minMax")].

Definition _chart_write_scaling : M unit :=
  lxw_xml_start_tag "c:scaling" [] ;;
  _chart_write_orientation ;;
  lxw_xml_end_tag "c:scaling".

Definition _chart_write_axis_pos (position : string) : M unit :=
  lxw_xml_empty_tag "c:axPos" [("val", AttrStr position)].

Definition _chart_write_tick_lbl_pos : M unit :=
  lxw_xml_empty_tag "c:tickLblPos" [("val", AttrStr "nextTo")].

Definition _chart_write_cross_axis (axis_id : Z) : M unit :=
  lxw_xml_empty_tag "c:crossAx" [("val", AttrInt axis_id)].

Definition _chart_write_crosses : M unit :=
  lxw_xml_empty_tag "c:crosses" [("val", AttrStr "autoZero")].

Definition _chart_write_auto : M unit :=
  lxw_xml_empty_tag "c:auto" [("val", AttrStr "1")].

Definition _chart_write_lbl_algn : M unit :=
  lxw_xml_empty_tag "c:lblAlgn" [("val", AttrStr "ctr")].

Definition _chart_write_lbl_offset : M unit :=
  lxw_xml_empty_tag "c:lblOffset" [("val", AttrStr "100")].

Definition _chart_write_major_gridlines : M unit :=
  lxw_xml_empty_tag "c:majorGridlines" [].

Definition _chart_write_number_format (axis : lxw_axis) : M unit :=
  lxw_xml_empty_tag "c:numFmt"
    [("formatCode", AttrStr (default_num_format axis));
     ("sourceLinked", AttrStr "1")].

Definition _chart_write_cross_between : M unit :=
  c <- self ;;
  lxw_xml_empty_tag "c:crossBetween" [("val", AttrStr (cross_between c))].

Definition _chart_write_legend_pos : M unit :=
  lxw_xml_empty_tag "c:legendPos" [("val", AttrStr "r")].

Definition _chart_write_legend : M unit :=
  lxw_xml_start_tag "c:legend" [] ;;
  _chart_write_legend_pos ;;
  _chart_write_layout ;;
  lxw_xml_end_tag "c:legend".

Definition _chart_write_plot_vis_only : M unit :=
  lxw_xml_empty_tag "c:plotVisOnly" [("val", AttrStr "1")].

Definition _chart_write_header_footer : M unit :=
  lxw_xml_empty_tag "c:headerFooter" [].

Definition _chart_write_page_margins : M unit :=
  lxw_xml_empty_tag "c:pageMargins"
    [("b", AttrStr "0.75"); ("l", AttrStr "0.7"); ("r", AttrStr "0.7");
     ("t", AttrStr "0.75"); ("header", AttrStr "0.3");
     ("footer", AttrStr "0.3")].

Definition _chart_write_page_setup : M unit :=
  lxw_xml_empty_tag "c:pageSetup" [].

Definition _chart_write_print_settings : M unit :=
  lxw_xml_start_tag "c:printSettings" [] ;;
  _chart_write_header_footer ;;
  _chart_write_page_margins ;;
  _chart_write_page_setup ;;
  lxw_xml_end_tag "c:printSettings".

Definition _chart_write_overlap (overlap : Z) : M unit :=
  lxw_xml_empty_tag "c:overlap" [("val", AttrInt overlap)].

Definition _chart_write_cat_axis : M unit :=
  c <- self ;;
  let position := cat_axis_position c in
  lxw_xml_start_tag "c:catAx" [] ;;
  _chart_write_axis_id (axis_id_1 c) ;;
  _chart_write_scaling ;;
  _chart_write_axis_pos position ;;
  (if cat_has_num_fmt c then _chart_write_number_format (x_axis c)
   else ret tt) ;;
  _chart_write_tick_lbl_pos ;;
  _chart_write_cross_axis (axis_id_2 c) ;;
  _chart_write_crosses ;;
  _chart_write_auto ;;
  _chart_write_lbl_algn ;;
  _chart_write_lbl_offset ;;
  lxw_xml_end_tag "c:catAx".

Definition _chart_write_val_axis : M unit :=
  c <- self ;;
  let position := val_axis_position c in
  lxw_xml_start_tag "c:valAx" [] ;;
  _chart_write_axis_id (axis_id_2 c) ;;
  _chart_write_scaling ;;
  _chart_write_axis_pos position ;;
  _chart_write_major_gridlines ;;
  _chart_write_number_format (y_axis c) ;;
  _chart_write_tick_lbl_pos ;;
  _chart_write_cross_axis (axis_id_1 c) ;;
  _chart_write_crosses ;;
  _chart_write_cross_between ;;
  lxw_xml_end_tag "c:valAx".

(** *** Bar chart functions *)

Definition _chart_write_bar_dir (type_ : string) : M unit :=
  lxw_xml_empty_tag "c:barDir" [("val", AttrStr type_)].

(** The series loop shared by the four chart writers. *)
Definition _chart_write_series_list : M unit :=
  c <- self ;;
  STAILQ_FOREACH (series_list c) _chart_write_ser.

(** The [if (self->has_overlap)] block of the area, bar and column writers. *)
Definition _chart_write_overlap_if_set : M unit :=
  c <- self ;;
  if has_overlap c then _chart_write_overlap (series_overlap_1 c) else ret tt.

Definition _chart_write_area_chart (type_ : Z) : M unit :=
  assign (set_grouping "standard") ;;
  assign (set_cross_between "midCat") ;;
  (if type_ =? LXW_CHART_AREA_STACKED then
     assign (set_grouping "stacked") ;;
     assign (set_subtype LXW_CHART_SUBTYPE_STACKED)
   else ret tt) ;;
  (if type_ =? LXW_CHART_AREA_STACKED_PERCENT then
     assign (set_grouping "percentStacked") ;;
     assign (set_y_axis {| default_num_format := "0%" |}) ;;
     assign (set_subtype LXW_CHART_SUBTYPE_STACKED)
   else ret tt) ;;
  lxw_xml_start_tag "c:areaChart" [] ;;
  c <- self ;;
  _chart_write_grouping (grouping c) ;;
  _chart_write_series_list ;;
  _chart_write_overlap_if_set ;;
  _chart_write_axis_ids ;;
  lxw_xml_end_tag "c:areaChart".

Definition _chart_write_bar_chart (type_ : Z) : M unit :=
  (if type_ =? LXW_CHART_BAR_STACKED then
     assign (set_grouping "stacked") ;;
     assign (set_has_overlap true) ;;
     assign (set_subtype LXW_CHART_SUBTYPE_STACKED)
   else ret tt) ;;
  (if type_ =? LXW_CHART_BAR_STACKED_PERCENT then
     assign (set_grouping "percentStacked") ;;
     assign (set_y_axis {| default_num_format := "0%" |}) ;;
     assign (set_has_overlap true) ;;
     assign (set_subtype LXW_CHART_SUBTYPE_STACKED)
   else ret tt) ;;
  assign (set_cat_axis_position "l") ;;
  assign (set_val_axis_position "b") ;;
  lxw_xml_start_tag "c:barChart" [] ;;
  _chart_write_bar_dir "bar" ;;
  c <- self ;;
  _chart_write_grouping (grouping c) ;;
  _chart_write_series_list ;;
  _chart_write_overlap_if_set ;;
  _chart_write_axis_ids ;;
  lxw_xml_end_tag "c:barChart".

Definition _chart_write_column_chart (type_ : Z) : M unit :=
  (if type_ =? LXW_CHART_COLUMN_STACKED then
     assign (set_grouping "stacked") ;;
     assign (set_has_overlap true) ;;
     assign (set_subtype LXW_CHART_SUBTYPE_STACKED)
   else ret tt) ;;
  (if type_ =? LXW_CHART_COLUMN_STACKED_PERCENT then
     assign (set_grouping "percentStacked") ;;
     assign (set_y_axis {| default_num_format := "0%" |}) ;;
     assign (set_has_overlap true) ;;
     assign (set_subtype LXW_CHART_SUBTYPE_STACKED)
   else ret tt) ;;
  lxw_xml_start_tag "c:barChart" [] ;;
  _chart_write_bar_dir "col" ;;
  c <- self ;;
  _chart_write_grouping (grouping c) ;;
  _chart_write_series_list ;;
  _chart_write_overlap_if_set ;;
  _chart_write_axis_ids ;;
  lxw_xml_end_tag "c:barChart".

Definition _chart_write_line_chart : M unit :=
  assign (set_has_markers true) ;;
  assign (set_grouping "standard") ;;
  lxw_xml_start_tag "c:lineChart" [] ;;
  c <- self ;;
  _chart_write_grouping (grouping c) ;;
  _chart_write_series_list ;;
  _chart_write_marker_value ;;
  _chart_write_axis_ids ;;
  lxw_xml_end_tag "c:lineChart".

(** The case labels of [_chart_write_chart_type], by chart family. *)
Definition is_area (t : Z) : bool :=
  (t =? LXW_CHART_AREA) || (t =? LXW_CHART_AREA_STACKED)
  || (t =? LXW_CHART_AREA_STACKED_PERCENT).
Definition is_bar (t : Z) : bool :=
  (t =? LXW_CHART_BAR) || (t =? LXW_CHART_BAR_STACKED)
  || (t =? LXW_CHART_BAR_STACKED_PERCENT).
Definition is_column (t : Z) : bool :=
  (t =? LXW_CHART_COLUMN) || (t =? LXW_CHART_COLUMN_STACKED)
  || (t =? LXW_CHART_COLUMN_STACKED_PERCENT).
Definition is_line (t : Z) : bool := t =? LXW_CHART_LINE.

(** [_chart_write_chart_type]: the labels of a [switch] are distinct, so the
    order of the tests below is immaterial. *)
Definition _chart_write_chart_type (type_ : Z) : M unit :=
  if is_area type_ then _chart_write_area_chart type_
  else if is_bar type_ then _chart_write_bar_chart type_
  else if is_column type_ then _chart_write_column_chart type_
  else if is_line type_ then _chart_write_line_chart
  else LXW_WARN_FORMAT "workbook_add_chart(): unhandled chart type '%d'" type_.

(** [_chart_write_plot_area] opens [c:plotArea]; [_chart_write_chart] closes
    it after the two axes. *)
Definition _chart_write_plot_area : M unit :=
  lxw_xml_start_tag "c:plotArea" [] ;;
  _chart_write_layout ;;
  c <- self ;;
  _chart_write_chart_type (type c).

Definition _chart_write_chart : M unit :=
  lxw_xml_start_tag "c:chart" [] ;;
  _chart_write_plot_area ;;
  _chart_write_cat_axis ;;
  _chart_write_val_axis ;;
  lxw_xml_end_tag "c:plotArea" ;;
  _chart_write_legend ;;
  _chart_write_plot_vis_only ;;
  lxw_xml_end_tag "c:chart".

Definition lxw_chart_assemble_xml_file : M unit :=
  _chart_xml_declaration ;;
  _chart_write_chart_space ;;
  _chart_write_lang ;;
  _chart_write_chart ;;
  _chart_write_print_settings ;;
  lxw_xml_end_tag "c:chartSpace".

(** ** Public functions *)

(** [uint8_t] to [double]: every value of [uint8_t] is a [double]. *)
Definition double_of_uint8 (b : Z) : spec_float :=
  binary_normalize 53 1024 b 0 false.

(** The loop of [lxw_chart_add_data_cache], for [i] in [from], [from + 1],
    ..., [from + n - 1]. A failed [calloc] is written through at once;
    so is a [NULL] list head, and [data] is read where the index points:
    [None] stands for each of these. *)
Fixpoint lxw_chart_add_data_cache_loop (data : list Z) (cols col : Z)
    (n : nat) (i : Z) (cache : list lxw_series_data_point)
    (o : alloc_oracle)
  : option (list lxw_series_data_point) * alloc_oracle :=
  match n with
  | O => (Some cache, o)
  | S n' =>
      let (ok, o') := alloc o in
      if negb ok then (None, o') else
      if (i * cols + col <? 0) then (None, o') else
      match nth_error data (Z.to_nat (i * cols + col)) with
      | None => (None, o')
      | Some byte =>
          lxw_chart_add_data_cache_loop data cols col n' (i + 1)
            (cache ++ [{| number := double_of_uint8 byte |}]) o'
      end
  end.

(** [lxw_chart_add_data_cache]: the range is updated in place; the result
    is the range afterwards (the function itself returns 0). *)
Definition lxw_chart_add_data_cache (range : lxw_series_range)
    (data : list Z) (rows cols col : Z) (o : alloc_oracle)
  : option lxw_series_range * alloc_oracle :=
  match data_cache range with
  | None =>
      if rows =? 0 then
        (Some {| formula := formula range; sheetname := sheetname range;
                 ignore_cache := true; num_data_points := rows;
                 data_cache := None |}, o)
      else (None, o)
  | Some cache =>
      match lxw_chart_add_data_cache_loop data cols col (Z.to_nat rows) 0 cache o with
      | (None, o') => (None, o')
      | (Some cache', o') =>
          (Some {| formula := formula range; sheetname := sheetname range;
                   ignore_cache := true; num_data_points := rows;
                   data_cache := Some cache' |}, o')
      end
  end.

(** [lxw_chart_init_data_cache]: the result of [calloc] is stored before it
    is tested; the return value is 0, or -1 when the allocation failed. *)
Definition lxw_chart_init_data_cache (range : lxw_series_range)
    (o : alloc_oracle) : Z * lxw_series_range * alloc_oracle :=
  let (ok, o') := alloc o in
  let range' :=
    {| formula := formula range; sheetname := sheetname range;
       ignore_cache := ignore_cache range;
       num_data_points := num_data_points range;
       data_cache := if ok then Some [] else None |} in
  ((if ok then 0 else -1), range', o').

(** The two branches on [categories[0] == '='] and [values[0] == '='];
    a [NULL] argument leaves the formula [NULL]. *)
Definition chart_add_series_formula (reference : option string)
    (o : alloc_oracle) : option string * alloc_oracle :=
  match reference with
  | None => (None, o)
  | Some EmptyString => lxw_strdup EmptyString o
  | Some (String first rest) =>
      if Ascii.eqb first "="%char then lxw_strdup rest o
      else lxw_strdup (String first rest) o
  end.

(** [lxw_chart_free_range]: a [NULL] range is left alone; for any other
    the loop test [STAILQ_EMPTY] reads through [range->data_cache], and
    [None] stands for that read through [NULL]. The points, the list head,
    the strings and the range itself are then freed: nothing of the model
    is left to change. *)
Definition lxw_chart_free_range (range : option lxw_series_range)
  : option unit :=
  match range with
  | None => Some tt
  | Some r =>
      match data_cache r with
      | None => None
      | Some _ => Some tt
      end
  end.

(** [lxw_chart_series_free], for a series given by its two range pointers;
    [None] for the series is the [NULL] pointer. *)
Definition lxw_chart_series_free
    (series : option (option lxw_series_range * option lxw_series_range))
  : option unit :=
  match series with
  | None => Some tt
  | Some (categories_, values_) =>
      match lxw_chart_free_range categories_ with
      | None => None
      | Some _ => lxw_chart_free_range values_
      end
  end.

(** A range as [calloc] returns it. *)
Definition zeroed_range : lxw_series_range :=
  {| formula := None; sheetname := None; ignore_cache := false;
     num_data_points := 0; data_cache := None |}.

(** The [mem_error] exit of [chart_add_series]: the series is freed and
    [NULL] returned, the chart left as it is. *)
Definition chart_add_series_mem_error
    (series : option (option lxw_series_range * option lxw_series_range))
    (c : lxw_chart) (o : alloc_oracle)
  : option (option lxw_chart_series * lxw_chart * alloc_oracle) :=
  match lxw_chart_series_free series with
  | None => None
  | Some _ => Some (None, c, o)
  end.

(** [chart_add_series]: the result is the new series, which is also the
    last element of the list, or the [NULL] of [mem_error]; the outer
    [None] is a run with no defined result. When the third [calloc] fails
    the series freed at [mem_error] has a zeroed categories range, whose
    [data_cache] is [NULL]. The results of [lxw_strdup] and
    [lxw_chart_init_data_cache] are not tested. *)
Definition chart_add_series (c : lxw_chart)
    (categories_ values_ : option string) (o : alloc_oracle)
  : option (option lxw_chart_series * lxw_chart * alloc_oracle) :=
  let (series_ok, o1) := alloc o in
  if negb series_ok then chart_add_series_mem_error None c o1 else
  let (categories_ok, o2) := alloc o1 in
  if negb categories_ok then
    chart_add_series_mem_error (Some (None, None)) c o2 else
  let (values_ok, o3) := alloc o2 in
  if negb values_ok then
    chart_add_series_mem_error (Some (Some zeroed_range, None)) c o3 else
  let (categories_formula, o4) := chart_add_series_formula categories_ o3 in
  let (values_formula, o5) := chart_add_series_formula values_ o4 in
  let '(_, categories_range, o6) :=
    lxw_chart_init_data_cache
      {| formula := categories_formula; sheetname := None;
         ignore_cache := false; num_data_points := 0;
         data_cache := None |} o5 in
  let '(_, values_range, o7) :=
    lxw_chart_init_data_cache
      {| formula := values_formula; sheetname := None;
         ignore_cache := false; num_data_points := 0;
         data_cache := None |} o6 in
  let series :=
    {| categories := categories_range; values := values_range |} in
  Some (Some series, set_series_list (series_list c ++ [series]) c, o7).
(** ** When a run of the serializer is defined

    The serializer reads through [range->data_cache] of the values of every
    series, and of the categories of every series that has a categories
    formula. *)

Definition series_defined (s : lxw_chart_series) : bool :=
  match data_cache (values s) with
  | None => false
  | Some _ =>
      match formula (categories s) with
      | None => true
      | Some _ =>
          match data_cache (categories s) with
          | None => false
          | Some _ => true
          end
      end
  end.

Definition chart_defined (c : lxw_chart) : Prop :=
  forallb series_defined (series_list c) = true.

(** ** The output of a run, element by element *)

Definition val_int (n : Z) : list xml_attribute := [("val", AttrInt n)].
Definition val_str (s : string) : list xml_attribute := [("val", AttrStr s)].

Fixpoint points_out (points : list lxw_series_data_point) (index : Z)
  : list output :=
  match points with
  | [] => []
  | p :: rest =>
      StartTag "c:pt" [("idx", AttrInt index)]
      :: DataElement "c:v" (DataG16 (number p)) []
      :: EndTag "c:pt"
      :: points_out rest (uint16 (index + 1))
  end.

Definition num_cache_out (r : lxw_series_range) : list output :=
  match data_cache r with
  | Some (p :: rest) =>
      StartTag "c:numCache" []
      :: DataElement "c:formatCode" (DataStr (Some "General")) []
      :: EmptyTag "c:ptCount" (val_int (num_data_points r))
      :: points_out (p :: rest) 0 ++ [EndTag "c:numCache"]
  | _ => []
  end.

Definition num_ref_out (r : lxw_series_range) : list output :=
  StartTag "c:numRef" []
  :: DataElement "c:f" (DataStr (formula r)) []
  :: num_cache_out r ++ [EndTag "c:numRef"].

Definition marker_out (markers : bool) : list output :=
  if markers then
    [StartTag "c:marker" []; EmptyTag "c:symbol" (val_str "none");
     EndTag "c:marker"]
  else [].

Definition cat_out (s : lxw_chart_series) : list output :=
  match formula (categories s) with
  | None => []
  | Some _ =>
      StartTag "c:cat" [] :: num_ref_out (categories s) ++ [EndTag "c:cat"]
  end.

Definition ser_out (markers : bool) (index : Z) (s : lxw_chart_series)
  : list output :=
  StartTag "c:ser" []
  :: EmptyTag "c:idx" (val_int index)
  :: EmptyTag "c:order" (val_int index)
  :: marker_out markers ++ cat_out s
     ++ StartTag "c:val" [] :: num_ref_out (values s)
     ++ [EndTag "c:val"; EndTag "c:ser"].

(** The series of a list, the first one emitted when the counter is [k]. *)
Fixpoint sers_out (markers : bool) (k : Z) (l : list lxw_chart_series)
  : list output :=
  match l with
  | [] => []
  | s :: l' => ser_out markers (uint16 k) s ++ sers_out markers (k + 1) l'
  end.

Definition has_categories (s : lxw_chart_series) : bool :=
  match formula (categories s) with
  | None => false
  | Some _ => true
  end.

(** The chart after the series loop over [l]. *)
Definition series_after (l : list lxw_chart_series) (c : lxw_chart) : lxw_chart :=
  match l with
  | [] => c
  | _ :: _ =>
      set_cat_has_num_fmt (cat_has_num_fmt c || existsb has_categories l)
        (set_series_index
           (uint16 (series_index c + Z.of_nat (List.length l))) c)
  end.

(** The chart after [_chart_write_axis_ids]. *)
Definition axis_ids_after (c : lxw_chart) : lxw_chart :=
  if axis_id_1 c =? 0 then
    set_axis_id_2 (uint32 (uint32 (uint32 (50010000 + id c) + 1) + 1))
      (set_axis_id_1 (uint32 (uint32 (50010000 + id c) + 1)) c)
  else c.

Definition axis_ids_out (c : lxw_chart) : list output :=
  [EmptyTag "c:axId" (val_int (axis_id_1 c));
   EmptyTag "c:axId" (val_int (axis_id_2 c))].

Definition overlap_out (c : lxw_chart) : list output :=
  if has_overlap c then [EmptyTag "c:overlap" (val_int (series_overlap_1 c))]
  else [].


(** The overrides each chart writer applies before it writes. *)

Definition area_overrides (t : Z) (c : lxw_chart) : lxw_chart :=
  let c1 := set_cross_between "midCat" (set_grouping "standard" c) in
  let c2 :=
    if t =? LXW_CHART_AREA_STACKED then
      set_subtype LXW_CHART_SUBTYPE_STACKED (set_grouping "stacked" c1)
    else c1 in
  if t =? LXW_CHART_AREA_STACKED_PERCENT then
    set_subtype LXW_CHART_SUBTYPE_STACKED
      (set_y_axis {| default_num_format := "0%" |}
         (set_grouping "percentStacked" c2))
  else c2.

Definition bar_overrides (t : Z) (c : lxw_chart) : lxw_chart :=
  let c1 :=
    if t =? LXW_CHART_BAR_STACKED then
      set_subtype LXW_CHART_SUBTYPE_STACKED
        (set_has_overlap true (set_grouping "stacked" c))
    else c in
  let c2 :=
    if t =? LXW_CHART_BAR_STACKED_PERCENT then
      set_subtype LXW_CHART_SUBTYPE_STACKED
        (set_has_overlap true
           (set_y_axis {| default_num_format := "0%" |}
              (set_grouping "percentStacked" c1)))
    else c1 in
  set_val_axis_position "b" (set_cat_axis_position "l" c2).

Definition column_overrides (t : Z) (c : lxw_chart) : lxw_chart :=
  let c1 :=
    if t =? LXW_CHART_COLUMN_STACKED then
      set_subtype LXW_CHART_SUBTYPE_STACKED
        (set_has_overlap true (set_grouping "stacked" c))
    else c in
  if t =? LXW_CHART_COLUMN_STACKED_PERCENT then
    set_subtype LXW_CHART_SUBTYPE_STACKED
      (set_has_overlap true
         (set_y_axis {| default_num_format := "0%" |}
            (set_grouping "percentStacked" c1)))
  else c1.

Definition line_overrides (c : lxw_chart) : lxw_chart :=
  set_grouping "standard" (set_has_markers true c).

(** A type with a case of its own in [_chart_write_chart_type]. *)
Definition recognized (t : Z) : bool :=
  is_area t || is_bar t || is_column t || is_line t.

Definition overrides (c : lxw_chart) : lxw_chart :=
  let t := type c in
  if is_area t then area_overrides t c
  else if is_bar t then bar_overrides t c
  else if is_column t then column_overrides t c
  else if is_line t then line_overrides c
  else c.

(** The chart after the series loop and the axis ids, from the chart [c1]
    the overrides leave. *)
Definition written (c1 : lxw_chart) : lxw_chart :=
  axis_ids_after (series_after (series_list c1) c1).

(** The chart after [_chart_write_chart_type (type c)], hence after the
    whole of [lxw_chart_assemble_xml_file]. *)
Definition chart_after (c : lxw_chart) : lxw_chart :=
  if recognized (type c) then written (overrides c) else c.

(** What a chart writer emits between its grouping element and its closing
    tag, with [between] for the element that follows the series. *)
Definition series_and_ids_out (c1 : lxw_chart) (between : list output)
  : list output :=
  sers_out (has_markers c1) (series_index c1) (series_list c1)
  ++ between ++ axis_ids_out (written c1).

Definition chart_type_out (c : lxw_chart) : list output :=
  let t := type c in
  let c1 := overrides c in
  if is_area t then
    StartTag "c:areaChart" []
    :: EmptyTag "c:grouping" (val_str (grouping c1))
    :: series_and_ids_out c1 (overlap_out c1) ++ [EndTag "c:areaChart"]
  else if is_bar t then
    StartTag "c:barChart" []
    :: EmptyTag "c:barDir" (val_str "bar")
    :: EmptyTag "c:grouping" (val_str (grouping c1))
    :: series_and_ids_out c1 (overlap_out c1) ++ [EndTag "c:barChart"]
  else if is_column t then
    StartTag "c:barChart" []
    :: EmptyTag "c:barDir" (val_str "col")
    :: EmptyTag "c:grouping" (val_str (grouping c1))
    :: series_and_ids_out c1 (overlap_out c1) ++ [EndTag "c:barChart"]
  else if is_line t then
    StartTag "c:lineChart" []
    :: EmptyTag "c:grouping" (val_str (grouping c1))
    :: series_and_ids_out c1 [EmptyTag "c:marker" (val_str "1")]
       ++ [EndTag "c:lineChart"]
  else [Warn "workbook_add_chart(): unhandled chart type '%d'" t].

Definition scaling_out : list output :=
  [StartTag "c:scaling" []; EmptyTag "c:orientation" (val_str "minMax");
   EndTag "c:scaling"].

Definition cat_axis_out (c : lxw_chart) : list output :=
  StartTag "c:catAx" []
  :: EmptyTag "c:axId" (val_int (axis_id_1 c))
  :: scaling_out
  ++ EmptyTag "c:axPos" (val_str (cat_axis_position c))
  :: (if cat_has_num_fmt c then
        [EmptyTag "c:numFmt"
           [("formatCode", AttrStr (default_num_format (x_axis c)));
            ("sourceLinked", AttrStr "1")]]
      else [])
  ++ [EmptyTag "c:tickLblPos" (val_str "nextTo");
      EmptyTag "c:crossAx" (val_int (axis_id_2 c));
      EmptyTag "c:crosses" (val_str "autoZero");
      EmptyTag "c:auto" (val_str "1");
      EmptyTag "c:lblAlgn" (val_str "ctr");
      EmptyTag "c:lblOffset" (val_str "100");
      EndTag "c:catAx"].

Definition val_axis_out (c : lxw_chart) : list output :=
  StartTag "c:valAx" []
  :: EmptyTag "c:axId" (val_int (axis_id_2 c))
  :: scaling_out
  ++ [EmptyTag "c:axPos" (val_str (val_axis_position c));
      EmptyTag "c:majorGridlines" [];
      EmptyTag "c:numFmt"
        [("formatCode", AttrStr (default_num_format (y_axis c)));
         ("sourceLinked", AttrStr "1")];
      EmptyTag "c:tickLblPos" (val_str "nextTo");
      EmptyTag "c:crossAx" (val_int (axis_id_1 c));
      EmptyTag "c:crosses" (val_str "autoZero");
      EmptyTag "c:crossBetween" (val_str (cross_between c));
      EndTag "c:valAx"].

Definition prologue_out : list output :=
  [XmlDeclaration;
   StartTag "c:chartSpace"
     [("xmlns:c", AttrStr (String.append LXW_SCHEMA_DRAWING "/chart"));
      ("xmlns:a", AttrStr (String.append LXW_SCHEMA_DRAWING "/main"));
      ("xmlns:r",
       AttrStr (String.append LXW_SCHEMA_OFFICEDOC "/relationships"))];
   EmptyTag "c:lang" (val_str "en-US");
   StartTag "c:chart" [];
   StartTag "c:plotArea" [];
   EmptyTag "c:layout" []].

Definition epilogue_out : list output :=
  [EndTag "c:plotArea";
   StartTag "c:legend" [];
   EmptyTag "c:legendPos" (val_str "r");
   EmptyTag "c:layout" [];
   EndTag "c:legend";
   EmptyTag "c:plotVisOnly" (val_str "1");
   EndTag "c:chart";
   StartTag "c:printSettings" [];
   EmptyTag "c:headerFooter" [];
   EmptyTag "c:pageMargins"
     [("b", AttrStr "0.75"); ("l", AttrStr "0.7"); ("r", AttrStr "0.7");
      ("t", AttrStr "0.75"); ("header", AttrStr "0.3");
      ("footer", AttrStr "0.3")];
   EmptyTag "c:pageSetup" [];
   EndTag "c:printSettings";
   EndTag "c:chartSpace"].

(** Everything [lxw_chart_assemble_xml_file] emits for [c]. *)
Definition assemble_out (c : lxw_chart) : list output :=
  prologue_out ++ chart_type_out c
  ++ cat_axis_out (chart_after c) ++ val_axis_out (chart_after c)
  ++ epilogue_out.

(** ** Reading an output *)

(** The elements named [tag]. *)
Definition has_tag (tag : string) (e : output) : bool :=
  match e with
  | StartTag t _ | EmptyTag t _ | DataElement t _ _ => String.eqb t tag
  | _ => false
  end.

Definition element (tag : string) (e : output) : list output :=
  if has_tag tag e then [e] else [].

Definition count_tag (tag : string) (o : list output) : nat :=
  List.length (flat_map (element tag) o).

(** The integer of [<tag val="..."/>], for every such element, in order. *)
Definition int_val (tag : string) (e : output) : list Z :=
  match e with
  | EmptyTag t [(k, AttrInt n)] =>
      if String.eqb t tag && String.eqb k "val" then [n] else []
  | _ => []
  end.

Definition int_vals (tag : string) (o : list output) : list Z :=
  flat_map (int_val tag) o.

Definition is_warning (e : output) : bool :=
  match e with
  | Warn _ _ => true
  | _ => false
  end.

(** Start and end tags match, innermost first; [stack] holds the open ones. *)
Fixpoint balanced (stack : list string) (o : list output) : bool :=
  match o with
  | [] => match stack with [] => true | _ :: _ => false end
  | StartTag t _ :: o' => balanced (t :: stack) o'
  | EndTag t :: o' =>
      match stack with
      | [] => false
      | open :: stack' => String.eqb t open && balanced stack' o'
      end
  | _ :: o' => balanced stack o'
  end.

(** The data of the elements named [tag], in order. *)
Definition data_val (tag : string) (e : output) : list xml_data :=
  match e with
  | DataElement t d _ => if String.eqb t tag then [d] else []
  | _ => []
  end.

Definition data_vals (tag : string) (o : list output) : list xml_data :=
  flat_map (data_val tag) o.

(** The string of [<tag val="..."/>], for every such element, in order. *)
Definition str_val (tag : string) (e : output) : list string :=
  match e with
  | EmptyTag t [(k, AttrStr s)] =>
      if String.eqb t tag && String.eqb k "val" then [s] else []
  | _ => []
  end.

Definition str_vals (tag : string) (o : list output) : list string :=
  flat_map (str_val tag) o.

(** The [idx] of the [c:pt] elements, in order. *)
Definition pt_idx (e : output) : list Z :=
  match e with
  | StartTag t [(k, AttrInt n)] =>
      if String.eqb t "c:pt" && String.eqb k "idx" then [n] else []
  | _ => []
  end.

(** An output whose start and end tags match among themselves: it can stand
    anywhere in a balanced output. *)
Definition nested (o : list output) : Prop :=
  forall stack rest, balanced stack (o ++ rest) = balanced stack rest.

(** The formulas a series is written with: that of its categories, when
    it has one, then that of its values. *)
Definition series_formulas (s : lxw_chart_series) : list xml_data :=
  match formula (categories s) with
  | Some f => [DataStr (Some f)]
  | None => []
  end ++ [DataStr (formula (values s))].

(** The ranges of a series that are written: its categories, when they
    have a formula, then its values. *)
Definition series_ranges (s : lxw_chart_series) : list lxw_series_range :=
  match formula (categories s) with
  | Some _ => [categories s]
  | None => []
  end ++ [values s].

Definition has_points (r : lxw_series_range) : bool :=
  match data_cache r with
  | Some (_ :: _) => true
  | _ => false
  end.

(** The points of the cache of a range; none for a [NULL] cache. *)
Definition cached_points (r : lxw_series_range)
  : list lxw_series_data_point :=
  match data_cache r with
  | Some points => points
  | None => []
  end.

(** The numbers written for a range, one [c:v] for each cached point. *)
Definition cached_values (r : lxw_series_range) : list xml_data :=
  map (fun p => DataG16 (number p)) (cached_points r).

(** Column [col] of the first [rows] rows of a table of [cols] columns
    kept row by row in [data]; a byte beyond the table reads as 0. *)
Definition column (data : list Z) (rows cols col : Z)
  : list lxw_series_data_point :=
  map (fun i =>
         {| number :=
              double_of_uint8
                (nth (Z.to_nat (Z.of_nat i * cols + col)) data 0) |})
      (seq 0 (Z.to_nat rows)).

(** ** A reference as it is to be stored

    What the specification says of the formula [chart_add_series] keeps for
    a reference: the text after a leading '=', the reference itself when it
    has none. *)
Definition stored_reference (reference : string) (stored : option string)
  : Prop :=
  (forall rest, reference = String "="%char rest -> stored = Some rest)
  /\ ((forall rest, reference <> String "="%char rest) ->
      stored = Some reference).

(** ** The charts a client can build *)

Fixpoint replace_nth {A : Type} (i : nat) (x : A) (l : list A) : list A :=
  match l, i with
  | [], _ => []
  | _ :: l', O => x :: l'
  | y :: l', S i' => y :: replace_nth i' x l'
  end.

(** A chart comes from [lxw_chart_new]; the workbook numbers it (the only
    write to [id], outside [chart.c]); series are added, data caches filled
    through the ranges of a series, and the chart is serialized, in any
    order and any number of times. *)
Inductive reachable : lxw_chart -> Prop :=
| reach_new t o c o' :
    lxw_chart_new t o = (Some c, o') -> reachable c
| reach_id c n :
    reachable c -> reachable (set_id n c)
| reach_add_series c cats vals o r c' o' :
    reachable c ->
    chart_add_series c cats vals o = Some (r, c', o') -> reachable c'
| reach_cache_categories c i s data rows cols col o r o' :
    reachable c ->
    nth_error (series_list c) i = Some s ->
    lxw_chart_add_data_cache (categories s) data rows cols col o
      = (Some r, o') ->
    reachable
      (set_series_list
         (replace_nth i {| categories := r; values := values s |}
            (series_list c)) c)
| reach_cache_values c i s data rows cols col o r o' :
    reachable c ->
    nth_error (series_list c) i = Some s ->
    lxw_chart_add_data_cache (values s) data rows cols col o
      = (Some r, o') ->
    reachable
      (set_series_list
         (replace_nth i {| categories := categories s; values := r |}
            (series_list c)) c)
| reach_assemble c c' out :
    reachable c ->
    lxw_chart_assemble_xml_file c = Some (tt, c', out) -> reachable c'.

(** The charts reached when no allocation of [chart_add_series] fails. *)
Inductive built : lxw_chart -> Prop :=
| built_new t o c o' :
    lxw_chart_new t o = (Some c, o') -> built c
| built_id c n :
    built c -> built (set_id n c)
| built_add_series c cats vals o r c' o' :
    built c ->
    ~ In false (firstn 7 o) ->
    chart_add_series c cats vals o = Some (r, c', o') -> built c'
| built_cache_categories c i s data rows cols col o r o' :
    built c ->
    nth_error (series_list c) i = Some s ->
    lxw_chart_add_data_cache (categories s) data rows cols col o
      = (Some r, o') ->
    built
      (set_series_list
         (replace_nth i {| categories := r; values := values s |}
            (series_list c)) c)
| built_cache_values c i s data rows cols col o r o' :
    built c ->
    nth_error (series_list c) i = Some s ->
    lxw_chart_add_data_cache (values s) data rows cols col o
      = (Some r, o') ->
    built
      (set_series_list
         (replace_nth i {| categories := categories s; values := r |}
            (series_list c)) c)
| built_assemble c c' out :
    built c ->
    lxw_chart_assemble_xml_file c = Some (tt, c', out) -> built c'.

(** The stacked and percent-stacked Bar and Column types. *)
Definition stacked_bar_or_column (t : Z) : bool :=
  (t =? LXW_CHART_BAR_STACKED) || (t =? LXW_CHART_BAR_STACKED_PERCENT)
  || (t =? LXW_CHART_COLUMN_STACKED)
  || (t =? LXW_CHART_COLUMN_STACKED_PERCENT).

(** [n] serializations in a row; the result is the chart after the last
    one and the output of each, first pass first. *)
Fixpoint assemble_times (n : nat) (c : lxw_chart)
  : option (lxw_chart * list (list output)) :=
  match n with
  | O => Some (c, [])
  | S n' =>
      match lxw_chart_assemble_xml_file c with
      | None => None
      | Some (_, c1, out) =>
          match assemble_times n' c1 with
          | None => None
          | Some (c2, outs) => Some (c2, out :: outs)
          end
      end
  end.

End Chart.

(** The constants numbered from 1 in the order of the case labels: the
    header used for the concrete runs below. *)
#[export] Instance chart_h_numbered : chart_h := {|
  LXW_CHART_AREA := 1;
  LXW_CHART_AREA_STACKED := 2;
  LXW_CHART_AREA_STACKED_PERCENT := 3;
  LXW_CHART_BAR := 4;
  LXW_CHART_BAR_STACKED := 5;
  LXW_CHART_BAR_STACKED_PERCENT := 6;
  LXW_CHART_COLUMN := 7;
  LXW_CHART_COLUMN_STACKED := 8;
  LXW_CHART_COLUMN_STACKED_PERCENT := 9;
  LXW_CHART_LINE := 10;
  LXW_CHART_SUBTYPE_STACKED := 1;
  LXW_SCHEMA_DRAWING := "http://schemas.openxmlformats.org/drawingml/2006";
  LXW_SCHEMA_OFFICEDOC :=
    "http://schemas.openxmlformats.org/officeDocument/2006";
  chart_types_distinct :=
    ltac:(repeat constructor; cbn; intuition discriminate)
|}.

(** * The worksheet cell store

    [worksheet.h] is at hand: the error codes, the row and column types and
    the structs of a worksheet, a row and a cell. The functions that write a
    cell are only declared there; their bodies are not among the sources. *)

Module Worksheet.

(** [enum lxw_write_error]. *)
Inductive lxw_write_error : Type :=
| LXW_WRITE_ERROR_NONE
| LXW_RANGE_ERROR
| LXW_STRING_HASH_ERROR
| LXW_STRING_LENGTH_ERROR
| LXW_END.

(** [enum cell_types], each tag with the members of the unions of
    [struct lxw_cell] that it selects. *)
Inductive cell_value : Type :=
| NUMBER_CELL (number : spec_float)
| STRING_CELL (string_id : Z)
| FORMULA_CELL (formula : string) (formula_result : spec_float)
| BLANK_CELL.

(** [lxw_format *]: a handle the store keeps and does not look into. *)
Definition lxw_format : Type := Z.

(** [struct lxw_cell]; the row number a cell repeats is that of its row. *)
Record lxw_cell : Type := {
  col_num : Z;
  value : cell_value;
  format : option lxw_format
}.

(** [struct lxw_row], with its optional height, format and visibility. *)
Record lxw_row : Type := {
  row_num : Z;
  height : option spec_float;
  row_format : option lxw_format;
  hidden : bool;
  cells : list lxw_cell
}.

(** [struct lxw_worksheet], reduced to the table and the dimensions. *)
Record lxw_worksheet : Type := {
  table : list lxw_row;
  dim_rowmin : Z;
  dim_rowmax : Z;
  dim_colmin : Z;
  dim_colmax : Z
}.

(** Modelled from the spec: the limits of the range test of the
    [worksheet_write_*] functions, whose bodies and whose macros are not
    among the sources; the specification gives 1,048,576 rows and 16,384
    columns. *)
Definition LXW_ROW_MAX : Z := 1048576.
Definition LXW_COL_MAX : Z := 16384.

(** Modelled from the spec: the insertion of a cell in the cells of a row
    (the body of the write functions is missing). The cell goes before the
    first cell of a greater column; a cell of the same column keeps its place
    and takes the new value and format. *)
Fixpoint insert_cell (col : Z) (v : cell_value) (f : option lxw_format)
    (l : list lxw_cell) : list lxw_cell :=
  match l with
  | [] => [{| col_num := col; value := v; format := f |}]
  | cell :: rest =>
      if col <? col_num cell then
        {| col_num := col; value := v; format := f |} :: cell :: rest
      else if col =? col_num cell then
        {| col_num := col_num cell; value := v; format := f |} :: rest
      else cell :: insert_cell col v f rest
  end.

(** Modelled from the spec: the insertion in the rows of a worksheet (the
    body of the write functions is missing). A new row goes before the first
    row of a greater number and has no height, format or visibility set; an
    existing row keeps them and receives the cell. *)
Fixpoint insert_row_cell (row col : Z) (v : cell_value)
    (f : option lxw_format) (l : list lxw_row) : list lxw_row :=
  match l with
  | [] =>
      [{| row_num := row; height := None; row_format := None;
          hidden := false; cells := insert_cell col v f [] |}]
  | r :: rest =>
      if row <? row_num r then
        {| row_num := row; height := None; row_format := None;
           hidden := false; cells := insert_cell col v f [] |} :: r :: rest
      else if row =? row_num r then
        {| row_num := row_num r; height := height r;
           row_format := row_format r; hidden := hidden r;
           cells := insert_cell col v f (cells r) |} :: rest
      else r :: insert_row_cell row col v f rest
  end.

(** Modelled from the spec: [write (row, col, value, format)], the common
    part of [worksheet_write_number], [worksheet_write_string],
    [worksheet_write_formula] and [worksheet_write_blank], declared in
    [worksheet.h] and defined in a file that is missing. It fails with
    [LXW_RANGE_ERROR] when [row >= 1,048,576] or [col >= 16,384] and leaves
    the store unchanged; otherwise it inserts or overwrites the cell and
    widens the dimension bounds to include it. *)
Definition write (ws : lxw_worksheet) (row col : Z) (v : cell_value)
    (f : option lxw_format) : lxw_write_error * lxw_worksheet :=
  if (row >=? LXW_ROW_MAX) || (col >=? LXW_COL_MAX) then
    (LXW_RANGE_ERROR, ws)
  else
    (LXW_WRITE_ERROR_NONE,
     {| table := insert_row_cell row col v f (table ws);
        dim_rowmin := Z.min row (dim_rowmin ws);
        dim_rowmax := Z.max row (dim_rowmax ws);
        dim_colmin := Z.min col (dim_colmin ws);
        dim_colmax := Z.max col (dim_colmax ws) |}).

(** Reading a cell back: the first row of that number, the first cell of
    that column in it. *)
Definition lookup_cell (col : Z) (l : list lxw_cell)
  : option (cell_value * option lxw_format) :=
  match find (fun cell => col_num cell =? col) l with
  | Some cell => Some (value cell, format cell)
  | None => None
  end.

Definition lookup_rows (row col : Z) (l : list lxw_row)
  : option (cell_value * option lxw_format) :=
  match find (fun r => row_num r =? row) l with
  | Some r => lookup_cell col (cells r)
  | None => None
  end.

Definition lookup (ws : lxw_worksheet) (row col : Z)
  : option (cell_value * option lxw_format) :=
  lookup_rows row col (table ws).

Definition cell_count (ws : lxw_worksheet) : nat :=
  List.length (flat_map cells (table ws)).

(** The order of the store: row numbers strictly increasing, and column
    numbers strictly increasing in every row. *)
Definition sorted_cells (l : list lxw_cell) : Prop :=
  StronglySorted Z.lt (map col_num l).

Definition sorted_rows (l : list lxw_row) : Prop :=
  StronglySorted Z.lt (map row_num l)
  /\ Forall (fun r => sorted_cells (cells r)) l.

Definition sorted (ws : lxw_worksheet) : Prop := sorted_rows (table ws).

(** An empty worksheet, its bounds those of no cell at all. *)
Definition empty_worksheet : lxw_worksheet :=
  {| table := []; dim_rowmin := LXW_ROW_MAX; dim_rowmax := 0;
     dim_colmin := LXW_COL_MAX; dim_colmax := 0 |}.

End Worksheet.

(** * Properties *)

(** Evaluate the field assignments and the reads of their results. *)
Ltac fields :=
  cbv beta iota zeta delta
    [set_subtype set_series_index set_y_axis set_id set_axis_id_1
     set_axis_id_2 set_cat_has_num_fmt set_has_markers set_has_overlap
     set_grouping set_cross_between set_cat_axis_position
     set_val_axis_position set_series_list
     type subtype series_index x_axis y_axis id axis_id_1 axis_id_2
     cat_has_num_fmt has_markers has_overlap series_overlap_1 grouping
     cross_between cat_axis_position val_axis_position series_list
     default_num_format] in *.

(** Evaluate the straight-line part of a run, the chart left as it is. *)
Ltac run_ops :=
  cbv beta iota zeta delta
    [bind self assign ret emit lxw_xml_declaration lxw_xml_start_tag
     lxw_xml_end_tag lxw_xml_empty_tag lxw_xml_data_element LXW_WARN_FORMAT
     _chart_xml_declaration _chart_write_chart_space _chart_write_lang
     _chart_write_layout _chart_write_grouping _chart_write_idx
     _chart_write_order _chart_write_axis_id _chart_write_symbol
     _chart_write_marker_value _chart_write_orientation _chart_write_scaling
     _chart_write_axis_pos _chart_write_tick_lbl_pos _chart_write_cross_axis
     _chart_write_crosses _chart_write_auto _chart_write_lbl_algn
     _chart_write_lbl_offset _chart_write_major_gridlines
     _chart_write_number_format _chart_write_cross_between
     _chart_write_legend_pos _chart_write_legend _chart_write_plot_vis_only
     _chart_write_header_footer _chart_write_page_margins
     _chart_write_page_setup _chart_write_print_settings
     _chart_write_overlap _chart_write_bar_dir val_int val_str negb];
  cbn [app].

(** The same for a chart given field by field. *)
Ltac run := run_ops; fields; run_ops.

Section ChartFacts.

Context `{chart_h}.

#[local] Arguments uint16 : simpl never.
#[local] Arguments uint32 : simpl never.

(** ** Fixed-width arithmetic *)

Lemma uint16_add_l (x y : Z) : uint16 (uint16 x + y) = uint16 (x + y).
Proof. unfold uint16. apply Z.add_mod_idemp_l. lia. Qed.

Lemma uint32_add_l (x y : Z) : uint32 (uint32 x + y) = uint32 (x + y).
Proof. unfold uint32. apply Z.add_mod_idemp_l. lia. Qed.

Lemma uint16_small (x : Z) : 0 <= x < 2 ^ 16 -> uint16 x = x.
Proof. intros Hx. unfold uint16. apply Z.mod_small. exact Hx. Qed.

Lemma uint32_small (x : Z) : 0 <= x < 2 ^ 32 -> uint32 x = x.
Proof. intros Hx. unfold uint32. apply Z.mod_small. exact Hx. Qed.

(** ** Runs of the serializer *)

Lemma points_run points : forall index c,
  _chart_write_num_cache_loop points index c
  = Some (tt, c, points_out points index).
Proof.
  induction points as [|p rest IH]; intros index c.
  - reflexivity.
  - cbn [_chart_write_num_cache_loop points_out].
    unfold bind at 1. cbn. rewrite IH. reflexivity.
Qed.

Lemma num_ref_run r c :
  data_cache r <> None ->
  _chart_write_num_ref r c = Some (tt, c, num_ref_out r).
Proof.
  intros Hr. unfold _chart_write_num_ref, num_ref_out, num_cache_out,
    _chart_write_data_cache, _chart_write_num_cache.
  destruct (data_cache r) as [[|p rest]|] eqn:E; [reflexivity| |congruence].
  unfold bind. cbn -[points_out].
  rewrite points_run. cbn -[points_out].
  rewrite <- !app_assoc. reflexivity.
Qed.

Lemma series_defined_values s :
  series_defined s = true -> data_cache (values s) <> None.
Proof. unfold series_defined. destruct (data_cache (values s)); congruence. Qed.

Lemma series_defined_categories s f :
  series_defined s = true -> formula (categories s) = Some f ->
  data_cache (categories s) <> None.
Proof.
  unfold series_defined. intros Hs Hf. rewrite Hf in Hs.
  destruct (data_cache (values s)); [|discriminate].
  destruct (data_cache (categories s)); congruence.
Qed.

Lemma ser_run s c :
  series_defined s = true ->
  _chart_write_ser s c
  = Some (tt, series_after [s] c,
          ser_out (has_markers c) (uint16 (series_index c)) s).
Proof.
  intros Hs. unfold _chart_write_ser, _chart_write_marker, _chart_write_cat,
    _chart_write_val, ser_out, marker_out, cat_out, series_after.
  cbn [existsb List.length]. unfold has_categories.
  pose proof (series_defined_values s Hs) as Hv.
  destruct (formula (categories s)) as [f|] eqn:Ef.
  - pose proof (series_defined_categories s f Hs Ef) as Hc.
    unfold bind. cbn -[num_ref_out _chart_write_num_ref].
    destruct (has_markers c); cbn -[num_ref_out _chart_write_num_ref];
      rewrite (num_ref_run _ _ Hc); cbn -[num_ref_out _chart_write_num_ref];
      rewrite (num_ref_run _ _ Hv); cbn -[num_ref_out _chart_write_num_ref];
      rewrite ?orb_true_r, <- ?app_assoc; reflexivity.
  - unfold bind. cbn -[num_ref_out _chart_write_num_ref].
    destruct (has_markers c); cbn -[num_ref_out _chart_write_num_ref];
      rewrite (num_ref_run _ _ Hv); cbn -[num_ref_out _chart_write_num_ref];
      rewrite ?orb_false_r, <- ?app_assoc;
      destruct c; reflexivity.
Qed.

Lemma sers_out_uint16 markers l : forall k,
  sers_out markers (uint16 k) l = sers_out markers k l.
Proof.
  induction l as [|s l IH]; intros k; cbn [sers_out]; [reflexivity|].
  f_equal.
  - f_equal. unfold uint16. apply Z.mod_mod. lia.
  - rewrite <- (IH (uint16 k + 1)), <- (IH (k + 1)).
    rewrite uint16_add_l. reflexivity.
Qed.

Lemma series_after_cons s l c :
  series_after l (series_after [s] c) = series_after (s :: l) c.
Proof.
  unfold series_after. destruct l as [|s' l]; [reflexivity|].
  destruct c. fields.
  rewrite uint16_add_l.
  replace (existsb has_categories (s :: s' :: l))
    with (has_categories s || existsb has_categories (s' :: l))
    by reflexivity.
  replace (existsb has_categories [s]) with (has_categories s)
    by (cbn; symmetry; apply orb_false_r).
  rewrite orb_assoc.
  replace (series_index0 + Z.of_nat (List.length (s :: s' :: l)))
    with (series_index0 + Z.of_nat (List.length [s])
          + Z.of_nat (List.length (s' :: l)))
    by (cbn [List.length]; lia).
  reflexivity.
Qed.

Lemma sers_run l : forall c,
  forallb series_defined l = true ->
  STAILQ_FOREACH l _chart_write_ser c
  = Some (tt, series_after l c,
          sers_out (has_markers c) (series_index c) l).
Proof.
  induction l as [|s l IH]; intros c Hl.
  - reflexivity.
  - cbn [forallb] in Hl. apply andb_true_iff in Hl as [Hs Hl].
    cbn [STAILQ_FOREACH sers_out]. unfold bind.
    rewrite (ser_run s c Hs), (IH _ Hl), series_after_cons.
    replace (has_markers (series_after [s] c)) with (has_markers c)
      by (destruct c; reflexivity).
    replace (series_index (series_after [s] c))
      with (uint16 (series_index c + 1)) by (destruct c; reflexivity).
    rewrite sers_out_uint16. reflexivity.
Qed.

Lemma axis_ids_run c :
  _chart_write_axis_ids c
  = Some (tt, axis_ids_after c, axis_ids_out (axis_ids_after c)).
Proof.
  unfold _chart_write_axis_ids, _chart_add_axis_ids, axis_ids_after,
    axis_ids_out.
  destruct c as [? ? ? ? ? ? a1 ? ? ? ? ? ? ? ? ? ?]. run.
  destruct (a1 =? 0); reflexivity.
Qed.

Lemma series_list_run c :
  chart_defined c ->
  _chart_write_series_list c
  = Some (tt, series_after (series_list c) c,
          sers_out (has_markers c) (series_index c) (series_list c)).
Proof.
  intros Hc. unfold _chart_write_series_list, bind, self.
  rewrite (sers_run _ c Hc). rewrite app_nil_l. reflexivity.
Qed.

Lemma overlap_run c :
  _chart_write_overlap_if_set c = Some (tt, c, overlap_out c).
Proof.
  unfold _chart_write_overlap_if_set, overlap_out, bind, self.
  destruct (has_overlap c); reflexivity.
Qed.

(** The series loop leaves every field but the counter and
    [cat_has_num_fmt]. *)
Lemma series_after_has_overlap l c :
  has_overlap (series_after l c) = has_overlap c.
Proof. destruct l; reflexivity. Qed.

Lemma series_after_series_overlap_1 l c :
  series_overlap_1 (series_after l c) = series_overlap_1 c.
Proof. destruct l; reflexivity. Qed.

Lemma overlap_out_series_after l c :
  overlap_out (series_after l c) = overlap_out c.
Proof.
  unfold overlap_out.
  rewrite series_after_has_overlap, series_after_series_overlap_1.
  reflexivity.
Qed.

Lemma chart_defined_series_list c c' :
  series_list c' = series_list c -> chart_defined c -> chart_defined c'.
Proof. unfold chart_defined. intros ->. trivial. Qed.

(** The part the chart writers share: series, overlap, axis ids. *)
Ltac run_series Hc :=
  run;
  rewrite series_list_run by exact Hc;
  rewrite ?overlap_run, axis_ids_run;
  unfold series_and_ids_out, written;
  rewrite ?overlap_out_series_after;
  run; rewrite <- ?app_assoc; reflexivity.

Lemma area_chart_run t c :
  chart_defined c ->
  _chart_write_area_chart t c
  = Some (tt, written (area_overrides t c),
          StartTag "c:areaChart" []
          :: EmptyTag "c:grouping" (val_str (grouping (area_overrides t c)))
          :: series_and_ids_out (area_overrides t c)
               (overlap_out (area_overrides t c))
             ++ [EndTag "c:areaChart"]).
Proof.
  intros Hc. unfold _chart_write_area_chart, area_overrides. destruct c.
  destruct (t =? LXW_CHART_AREA_STACKED);
    destruct (t =? LXW_CHART_AREA_STACKED_PERCENT); run_series Hc.
Qed.

Lemma bar_chart_run t c :
  chart_defined c ->
  _chart_write_bar_chart t c
  = Some (tt, written (bar_overrides t c),
          StartTag "c:barChart" []
          :: EmptyTag "c:barDir" (val_str "bar")
          :: EmptyTag "c:grouping" (val_str (grouping (bar_overrides t c)))
          :: series_and_ids_out (bar_overrides t c)
               (overlap_out (bar_overrides t c))
             ++ [EndTag "c:barChart"]).
Proof.
  intros Hc. unfold _chart_write_bar_chart, bar_overrides. destruct c.
  destruct (t =? LXW_CHART_BAR_STACKED);
    destruct (t =? LXW_CHART_BAR_STACKED_PERCENT); run_series Hc.
Qed.

Lemma column_chart_run t c :
  chart_defined c ->
  _chart_write_column_chart t c
  = Some (tt, written (column_overrides t c),
          StartTag "c:barChart" []
          :: EmptyTag "c:barDir" (val_str "col")
          :: EmptyTag "c:grouping" (val_str (grouping (column_overrides t c)))
          :: series_and_ids_out (column_overrides t c)
               (overlap_out (column_overrides t c))
             ++ [EndTag "c:barChart"]).
Proof.
  intros Hc. unfold _chart_write_column_chart, column_overrides.
  destruct c.
  destruct (t =? LXW_CHART_COLUMN_STACKED);
    destruct (t =? LXW_CHART_COLUMN_STACKED_PERCENT); run_series Hc.
Qed.

Lemma line_chart_run c :
  chart_defined c ->
  _chart_write_line_chart c
  = Some (tt, written (line_overrides c),
          StartTag "c:lineChart" []
          :: EmptyTag "c:grouping" (val_str (grouping (line_overrides c)))
          :: series_and_ids_out (line_overrides c)
               [EmptyTag "c:marker" (val_str "1")]
             ++ [EndTag "c:lineChart"]).
Proof.
  intros Hc. unfold _chart_write_line_chart, line_overrides. destruct c.
  run_series Hc.
Qed.

(** A chart of unrecognized type is written without reading a series. *)
Lemma chart_type_run_unrecognized c :
  recognized (type c) = false ->
  _chart_write_chart_type (type c) c = Some (tt, chart_after c, chart_type_out c).
Proof.
  unfold recognized, _chart_write_chart_type, chart_after, chart_type_out,
    recognized.
  intros Hr. apply orb_false_iff in Hr as [Hr Hl].
  apply orb_false_iff in Hr as [Hr Hcol].
  apply orb_false_iff in Hr as [Ha Hb].
  rewrite Ha, Hb, Hcol, Hl. reflexivity.
Qed.

Lemma chart_type_run c :
  chart_defined c ->
  _chart_write_chart_type (type c) c = Some (tt, chart_after c, chart_type_out c).
Proof.
  intros Hc. destruct (recognized (type c)) eqn:Hr;
    [|apply chart_type_run_unrecognized; exact Hr].
  unfold _chart_write_chart_type, chart_after, chart_type_out, overrides.
  rewrite Hr. unfold recognized in Hr.
  destruct (is_area (type c)); [apply area_chart_run; exact Hc|].
  destruct (is_bar (type c)); [apply bar_chart_run; exact Hc|].
  destruct (is_column (type c)); [apply column_chart_run; exact Hc|].
  destruct (is_line (type c)); [apply line_chart_run; exact Hc|].
  discriminate.
Qed.

(** Nothing after the chart-type element writes to the chart. *)
Lemma assemble_run_from c :
  _chart_write_chart_type (type c) c = Some (tt, chart_after c, chart_type_out c) ->
  lxw_chart_assemble_xml_file c = Some (tt, chart_after c, assemble_out c).
Proof.
  intros Ht.
  unfold lxw_chart_assemble_xml_file, _chart_write_chart,
    _chart_write_plot_area, _chart_write_cat_axis, _chart_write_val_axis,
    assemble_out, prologue_out, cat_axis_out, val_axis_out, epilogue_out,
    scaling_out.
  run_ops. rewrite Ht. run_ops.
  destruct (cat_has_num_fmt (chart_after c)); run_ops;
    rewrite <- ?app_assoc; reflexivity.
Qed.

Lemma assemble_run c :
  chart_defined c ->
  lxw_chart_assemble_xml_file c = Some (tt, chart_after c, assemble_out c).
Proof. intros Hc. apply assemble_run_from, chart_type_run, Hc. Qed.

Lemma assemble_run_unrecognized c :
  recognized (type c) = false ->
  lxw_chart_assemble_xml_file c = Some (tt, c, assemble_out c).
Proof.
  intros Hr. rewrite (assemble_run_from c (chart_type_run_unrecognized c Hr)).
  unfold chart_after. rewrite Hr. reflexivity.
Qed.

(** ** Readings of an output that the series do not contribute to *)

Lemma flat_map_map {A B C : Type} (g : A -> B) (h : B -> list C) l :
  flat_map h (map g l) = flat_map (fun x => h (g x)) l.
Proof.
  induction l as [|x l IH]; cbn [map flat_map]; [|rewrite IH]; reflexivity.
Qed.

Section Quiet.

Variables (X : Type) (f : output -> list X) (markers : bool).

Hypothesis f_end : forall t, f (EndTag t) = [].
Hypothesis f_pt : forall a, f (StartTag "c:pt" a) = [].
Hypothesis f_v : forall d, f (DataElement "c:v" d []) = [].
Hypothesis f_num_cache : f (StartTag "c:numCache" []) = [].
Hypothesis f_format_code : forall d, f (DataElement "c:formatCode" d []) = [].
Hypothesis f_pt_count : forall n, f (EmptyTag "c:ptCount" (val_int n)) = [].
Hypothesis f_num_ref : f (StartTag "c:numRef" []) = [].
Hypothesis f_f : forall d, f (DataElement "c:f" d []) = [].
Hypothesis f_cat : f (StartTag "c:cat" []) = [].
Hypothesis f_val : f (StartTag "c:val" []) = [].
Hypothesis f_ser : f (StartTag "c:ser" []) = [].
Hypothesis f_marker : markers = true -> f (StartTag "c:marker" []) = [].
Hypothesis f_symbol :
  markers = true -> f (EmptyTag "c:symbol" (val_str "none")) = [].

Lemma points_quiet points : forall index,
  flat_map f (points_out points index) = [].
Proof.
  induction points as [|p rest IH]; intros index; cbn [points_out flat_map].
  - reflexivity.
  - rewrite f_pt, f_v, f_end, IH. reflexivity.
Qed.

Lemma num_ref_quiet r : flat_map f (num_ref_out r) = [].
Proof.
  unfold num_ref_out, num_cache_out. cbn [flat_map].
  rewrite f_num_ref, f_f, flat_map_app. cbn [flat_map app].
  rewrite f_end.
  destruct (data_cache r) as [[|p rest]|]; try reflexivity.
  cbn [flat_map]. rewrite f_num_cache, f_format_code, f_pt_count, flat_map_app.
  rewrite (points_quiet (p :: rest)). cbn [flat_map app].
  rewrite f_end. reflexivity.
Qed.

Lemma cat_quiet s : flat_map f (cat_out s) = [].
Proof.
  unfold cat_out. destruct (formula (categories s)); [|reflexivity].
  cbn [flat_map]. rewrite f_cat, flat_map_app, num_ref_quiet.
  cbn [flat_map app]. rewrite f_end. reflexivity.
Qed.

Lemma marker_quiet : flat_map f (marker_out markers) = [].
Proof.
  unfold marker_out. destruct markers eqn:E; [|reflexivity].
  cbn [flat_map].
  rewrite (f_marker eq_refl), f_end, (f_symbol eq_refl). reflexivity.
Qed.

(** What a series contributes comes from its [c:idx] and [c:order]. *)
Lemma ser_reading index s :
  flat_map f (ser_out markers index s)
  = f (EmptyTag "c:idx" (val_int index))
    ++ f (EmptyTag "c:order" (val_int index)).
Proof.
  unfold ser_out. cbn [flat_map].
  rewrite f_ser, !flat_map_app, marker_quiet, cat_quiet.
  cbn [flat_map app]. rewrite f_val, flat_map_app, num_ref_quiet.
  cbn [flat_map app]. rewrite !f_end, !app_nil_r. reflexivity.
Qed.

Lemma sers_reading l : forall k,
  flat_map f (sers_out markers k l)
  = flat_map
      (fun i =>
         f (EmptyTag "c:idx" (val_int (uint16 (k + Z.of_nat i))))
         ++ f (EmptyTag "c:order" (val_int (uint16 (k + Z.of_nat i)))))
      (seq 0 (List.length l)).
Proof.
  induction l as [|s l IH]; intros k; [reflexivity|].
  cbn [sers_out List.length seq flat_map].
  rewrite flat_map_app, ser_reading, IH, Z.add_0_r.
  f_equal. rewrite <- seq_shift, flat_map_map.
  apply flat_map_ext. intros i.
  replace (k + 1 + Z.of_nat i) with (k + Z.of_nat (S i)) by lia.
  reflexivity.
Qed.

Hypothesis f_idx : forall n, f (EmptyTag "c:idx" (val_int n)) = [].
Hypothesis f_order : forall n, f (EmptyTag "c:order" (val_int n)) = [].

Lemma sers_quiet l k : flat_map f (sers_out markers k l) = [].
Proof.
  rewrite sers_reading. induction (seq 0 (List.length l)) as [|i r IH].
  - reflexivity.
  - cbn [flat_map]. rewrite f_idx, f_order, IH. reflexivity.
Qed.

End Quiet.

(** ** Runs that read through a [NULL] cache *)

Lemma num_ref_undefined r c :
  data_cache r = None -> _chart_write_num_ref r c = None.
Proof.
  intros Hr. unfold _chart_write_num_ref. rewrite Hr. reflexivity.
Qed.

Lemma ser_undefined s c :
  series_defined s = false -> _chart_write_ser s c = None.
Proof.
  unfold series_defined. intros Hs.
  unfold _chart_write_ser, _chart_write_marker, _chart_write_cat,
    _chart_write_val.
  destruct c as [? ? ? ? ? ? ? ? ? markers ? ? ? ? ? ? ?].
  destruct (formula (categories s)) as [f|] eqn:Ef.
  - destruct (data_cache (categories s)) as [pc|] eqn:Ec.
    + destruct (data_cache (values s)) as [pv|] eqn:Ev; [discriminate|].
      assert (Hc : data_cache (categories s) <> None) by congruence.
      run. destruct markers; run;
        rewrite (num_ref_run _ _ Hc), (num_ref_undefined _ _ Ev);
        reflexivity.
    + run. destruct markers; run;
        rewrite (num_ref_undefined _ _ Ec); reflexivity.
  - destruct (data_cache (values s)) as [pv|] eqn:Ev; [discriminate|].
    run. destruct markers; run;
      rewrite (num_ref_undefined _ _ Ev); reflexivity.
Qed.

Lemma sers_undefined l : forall c,
  forallb series_defined l = false ->
  STAILQ_FOREACH l _chart_write_ser c = None.
Proof.
  induction l as [|s l IH]; intros c Hl; [discriminate|].
  cbn [forallb] in Hl. cbn [STAILQ_FOREACH]. unfold bind.
  destruct (series_defined s) eqn:Hs.
  - rewrite (ser_run s c Hs), (IH _ Hl). reflexivity.
  - rewrite (ser_undefined s c Hs). reflexivity.
Qed.

Lemma series_list_undefined c :
  forallb series_defined (series_list c) = false ->
  _chart_write_series_list c = None.
Proof.
  intros Hc. unfold _chart_write_series_list, bind, self.
  rewrite (sers_undefined _ c Hc). reflexivity.
Qed.

Ltac run_undefined Hc :=
  run; rewrite series_list_undefined by exact Hc; reflexivity.

Lemma chart_type_undefined c :
  recognized (type c) = true ->
  forallb series_defined (series_list c) = false ->
  _chart_write_chart_type (type c) c = None.
Proof.
  intros Hr Hc. unfold _chart_write_chart_type. unfold recognized in Hr.
  destruct (is_area (type c)).
  { unfold _chart_write_area_chart.
    destruct (type c =? LXW_CHART_AREA_STACKED);
      destruct (type c =? LXW_CHART_AREA_STACKED_PERCENT);
      destruct c; run_undefined Hc. }
  destruct (is_bar (type c)).
  { unfold _chart_write_bar_chart.
    destruct (type c =? LXW_CHART_BAR_STACKED);
      destruct (type c =? LXW_CHART_BAR_STACKED_PERCENT);
      destruct c; run_undefined Hc. }
  destruct (is_column (type c)).
  { unfold _chart_write_column_chart.
    destruct (type c =? LXW_CHART_COLUMN_STACKED);
      destruct (type c =? LXW_CHART_COLUMN_STACKED_PERCENT);
      destruct c; run_undefined Hc. }
  destruct (is_line (type c)); [|discriminate].
  unfold _chart_write_line_chart. destruct c. run_undefined Hc.
Qed.

Lemma assemble_undefined c :
  recognized (type c) = true ->
  forallb series_defined (series_list c) = false ->
  lxw_chart_assemble_xml_file c = None.
Proof.
  intros Hr Hc.
  unfold lxw_chart_assemble_xml_file, _chart_write_chart,
    _chart_write_plot_area.
  run_ops. rewrite (chart_type_undefined c Hr Hc). reflexivity.
Qed.

(** A run has a result exactly when no series it writes has a [NULL] cache
    in the way, and the result is then [chart_after] and [assemble_out]. *)
Lemma assemble_inv c u c' out :
  lxw_chart_assemble_xml_file c = Some (u, c', out) ->
  c' = chart_after c /\ out = assemble_out c
  /\ (recognized (type c) = true -> chart_defined c).
Proof.
  intros Hrun.
  destruct (recognized (type c)) eqn:Hr.
  - destruct (forallb series_defined (series_list c)) eqn:Hc.
    + rewrite (assemble_run c Hc) in Hrun. inversion Hrun. auto.
    + rewrite (assemble_undefined c Hr Hc) in Hrun. discriminate.
  - rewrite (assemble_run_from c (chart_type_run_unrecognized c Hr)) in Hrun.
    inversion Hrun. repeat split. discriminate.
Qed.

(** ** The chart types are distinct *)

Lemma chart_types_nth_neq (i j : nat) :
  (i <? 10)%nat = true -> (j <? 10)%nat = true -> (i =? j)%nat = false ->
  nth i [LXW_CHART_AREA; LXW_CHART_AREA_STACKED;
         LXW_CHART_AREA_STACKED_PERCENT;
         LXW_CHART_BAR; LXW_CHART_BAR_STACKED;
         LXW_CHART_BAR_STACKED_PERCENT;
         LXW_CHART_COLUMN; LXW_CHART_COLUMN_STACKED;
         LXW_CHART_COLUMN_STACKED_PERCENT;
         LXW_CHART_LINE] 0
  <> nth j [LXW_CHART_AREA; LXW_CHART_AREA_STACKED;
            LXW_CHART_AREA_STACKED_PERCENT;
            LXW_CHART_BAR; LXW_CHART_BAR_STACKED;
            LXW_CHART_BAR_STACKED_PERCENT;
            LXW_CHART_COLUMN; LXW_CHART_COLUMN_STACKED;
            LXW_CHART_COLUMN_STACKED_PERCENT;
            LXW_CHART_LINE] 0.
Proof.
  intros Hi Hj Hij E.
  apply Nat.ltb_lt in Hi. apply Nat.ltb_lt in Hj. apply Nat.eqb_neq in Hij.
  apply (proj1 (NoDup_nth _ 0) chart_types_distinct) in E;
    [contradiction | exact Hi | exact Hj].
Qed.

(** Two different chart type constants are different numbers. *)
Ltac index_of k :=
  first [ k 0%nat | k 1%nat | k 2%nat | k 3%nat | k 4%nat
        | k 5%nat | k 6%nat | k 7%nat | k 8%nat | k 9%nat ].

Ltac types_neq :=
  index_of ltac:(fun i => index_of ltac:(fun j =>
    exact (chart_types_nth_neq i j eq_refl eq_refl eq_refl))).

Lemma chart_types_neq :
  LXW_CHART_AREA <> LXW_CHART_AREA_STACKED
  /\ LXW_CHART_AREA <> LXW_CHART_AREA_STACKED_PERCENT
  /\ LXW_CHART_AREA_STACKED <> LXW_CHART_AREA_STACKED_PERCENT
  /\ LXW_CHART_BAR <> LXW_CHART_BAR_STACKED
  /\ LXW_CHART_BAR <> LXW_CHART_BAR_STACKED_PERCENT
  /\ LXW_CHART_BAR_STACKED <> LXW_CHART_BAR_STACKED_PERCENT
  /\ LXW_CHART_COLUMN <> LXW_CHART_COLUMN_STACKED
  /\ LXW_CHART_COLUMN <> LXW_CHART_COLUMN_STACKED_PERCENT
  /\ LXW_CHART_COLUMN_STACKED <> LXW_CHART_COLUMN_STACKED_PERCENT
  /\ (forall t, is_area t = true ->
        is_bar t = false /\ is_column t = false /\ is_line t = false)
  /\ (forall t, is_bar t = true ->
        is_area t = false /\ is_column t = false /\ is_line t = false)
  /\ (forall t, is_column t = true ->
        is_area t = false /\ is_bar t = false /\ is_line t = false)
  /\ (forall t, is_line t = true ->
        is_area t = false /\ is_bar t = false /\ is_column t = false).
Proof.
  unfold is_area, is_bar, is_column, is_line.
  repeat match goal with |- _ /\ _ => split end; try types_neq;
    intros t Ht;
    repeat (apply orb_true_iff in Ht; destruct Ht as [Ht|Ht]);
    apply Z.eqb_eq in Ht; subst t;
    rewrite ?orb_false_iff;
    repeat match goal with |- _ /\ _ => split end;
    apply Z.eqb_neq; types_neq.
Qed.

(** ** What the series loop and the axis ids leave alone *)

Ltac frame :=
  intros; unfold written, axis_ids_after, series_after;
  match goal with c : lxw_chart |- _ => destruct c end; fields;
  repeat match goal with
         | |- context [match ?l with [] => _ | _ :: _ => _ end] =>
             destruct l; fields
         | |- context [if ?b then _ else _] => destruct b; fields
         end;
  reflexivity.

Lemma written_type c : type (written c) = type c.
Proof. frame. Qed.

Lemma written_subtype c : subtype (written c) = subtype c.
Proof. frame. Qed.

Lemma written_x_axis c : x_axis (written c) = x_axis c.
Proof. frame. Qed.

Lemma written_y_axis c : y_axis (written c) = y_axis c.
Proof. frame. Qed.

Lemma written_id c : id (written c) = id c.
Proof. frame. Qed.

Lemma written_has_markers c : has_markers (written c) = has_markers c.
Proof. frame. Qed.

Lemma written_has_overlap c : has_overlap (written c) = has_overlap c.
Proof. frame. Qed.

Lemma written_series_overlap_1 c : series_overlap_1 (written c) = series_overlap_1 c.
Proof. frame. Qed.

Lemma written_grouping c : grouping (written c) = grouping c.
Proof. frame. Qed.

Lemma written_cross_between c : cross_between (written c) = cross_between c.
Proof. frame. Qed.

Lemma written_cat_axis_position c : cat_axis_position (written c) = cat_axis_position c.
Proof. frame. Qed.

Lemma written_val_axis_position c : val_axis_position (written c) = val_axis_position c.
Proof. frame. Qed.

Lemma written_series_list c : series_list (written c) = series_list c.
Proof. frame. Qed.

Lemma written_defined c : chart_defined (written c) <-> chart_defined c.
Proof. unfold chart_defined. rewrite written_series_list. tauto. Qed.

Lemma overrides_type c : type (overrides c) = type c.
Proof.
  unfold overrides, area_overrides, bar_overrides, column_overrides,
    line_overrides.
  repeat match goal with
         | |- context [if ?b then _ else _] => destruct b
         end; reflexivity.
Qed.

Lemma overrides_series_list c : series_list (overrides c) = series_list c.
Proof.
  unfold overrides, area_overrides, bar_overrides, column_overrides,
    line_overrides.
  repeat match goal with
         | |- context [if ?b then _ else _] => destruct b
         end; reflexivity.
Qed.

Lemma chart_after_type c : type (chart_after c) = type c.
Proof.
  unfold chart_after. destruct (recognized (type c)); [|reflexivity].
  rewrite written_type. apply overrides_type.
Qed.

Lemma chart_after_series_list c :
  series_list (chart_after c) = series_list c.
Proof.
  unfold chart_after. destruct (recognized (type c)); [|reflexivity].
  rewrite written_series_list. apply overrides_series_list.
Qed.

Lemma chart_after_defined c :
  chart_defined (chart_after c) <-> chart_defined c.
Proof. unfold chart_defined. rewrite chart_after_series_list. tauto. Qed.

(** The dispatch, family by family. *)
Lemma overrides_area c :
  is_area (type c) = true ->
  recognized (type c) = true /\ overrides c = area_overrides (type c) c.
Proof.
  intros Ht. unfold recognized, overrides. rewrite Ht. auto.
Qed.

Lemma overrides_bar c :
  is_bar (type c) = true ->
  recognized (type c) = true /\ overrides c = bar_overrides (type c) c.
Proof.
  intros Ht. destruct chart_types_neq as (_&_&_&_&_&_&_&_&_&_&Hb&_).
  destruct (Hb _ Ht) as (Ha & _).
  unfold recognized, overrides. rewrite Ht, Ha. auto.
Qed.

Lemma overrides_column c :
  is_column (type c) = true ->
  recognized (type c) = true /\ overrides c = column_overrides (type c) c.
Proof.
  intros Ht. destruct chart_types_neq as (_&_&_&_&_&_&_&_&_&_&_&Hc&_).
  destruct (Hc _ Ht) as (Ha & Hb & _).
  unfold recognized, overrides. rewrite Ht, Ha, Hb. cbn.
  split; [apply orb_true_r || reflexivity | reflexivity].
Qed.

Lemma overrides_line c :
  is_line (type c) = true ->
  recognized (type c) = true /\ overrides c = line_overrides c.
Proof.
  intros Ht. destruct chart_types_neq as (_&_&_&_&_&_&_&_&_&_&_&_&Hl).
  destruct (Hl _ Ht) as (Ha & Hb & Hc).
  unfold recognized, overrides. rewrite Ht, Ha, Hb, Hc. auto.
Qed.

(** ** Construction *)

Lemma alloc_ok n o :
  ~ In false (firstn (S n) o) ->
  alloc o = (true, tl o) /\ ~ In false (firstn n (tl o)).
Proof.
  destruct o as [|[] o]; cbn [firstn In alloc tl]; intros Ho.
  - split; [reflexivity|]. destruct n; exact Ho.
  - split; [reflexivity|]. tauto.
  - exfalso. auto.
Qed.

(** C6. For every type argument, [lxw_chart_new] returns a chart of that
    type whose category axis position is "b", value axis position is "l",
    grouping is "clustered", [cross_between] is "between" and whose x and y
    axes have the default number format "General"; it returns [NULL] only
    when one of its two allocations fails. *)
Theorem lxw_chart_new_defaults (type_ : Z) (o : alloc_oracle) :
  match fst (lxw_chart_new type_ o) with
  | Some c =>
      type c = type_
      /\ cat_axis_position c = "b" /\ val_axis_position c = "l"
      /\ grouping c = "clustered" /\ cross_between c = "between"
      /\ default_num_format (x_axis c) = "General"
      /\ default_num_format (y_axis c) = "General"
  | None => In false (firstn 2 o)
  end.
Proof.
  unfold lxw_chart_new.
  destruct o as [|[] [|[] o]]; cbn; auto 10.
Qed.

Lemma stored_reference_formula reference o :
  alloc o = (true, tl o) ->
  exists stored,
    chart_add_series_formula (Some reference) o = (Some stored, tl o)
    /\ stored_reference reference (Some stored).
Proof.
  intros Ho. unfold chart_add_series_formula, lxw_strdup, stored_reference.
  destruct reference as [|first rest].
  - rewrite Ho. eexists. split; [reflexivity|].
    split; [discriminate | reflexivity].
  - destruct (Ascii.eqb_spec first "="%char) as [->|Hne]; rewrite Ho.
    + eexists. split; [reflexivity|]. split.
      * intros rest' E. inversion E. reflexivity.
      * intros Hno. exfalso. apply (Hno rest). reflexivity.
    + eexists. split; [reflexivity|]. split.
      * intros rest' E. inversion E. contradiction.
      * reflexivity.
Qed.

(** ** Readings of a whole output *)

(** Evaluate a reading on the elements written out in full. *)
Ltac reading :=
  rewrite ?flat_map_app;
  cbn [flat_map app int_val element has_tag String.eqb Ascii.eqb Bool.eqb
       andb val_int val_str List.length].

Lemma int_vals_sers_quiet tag markers k l :
  String.eqb "c:idx" tag = false -> String.eqb "c:order" tag = false ->
  String.eqb "c:ptCount" tag = false -> String.eqb "c:symbol" tag = false ->
  int_vals tag (sers_out markers k l) = [].
Proof.
  intros H1 H2 H3 H4. unfold int_vals.
  apply sers_quiet; intros; cbn [int_val val_int val_str];
    rewrite ?H1, ?H2, ?H3, ?H4; reflexivity.
Qed.

Lemma int_vals_idx markers k l :
  int_vals "c:idx" (sers_out markers k l)
  = map (fun i => uint16 (k + Z.of_nat i)) (seq 0 (List.length l)).
Proof.
  unfold int_vals. rewrite sers_reading by (intros; reflexivity).
  induction (seq 0 (List.length l)) as [|i r IH]; [reflexivity|].
  cbn [flat_map map]. rewrite IH. reflexivity.
Qed.

Lemma int_vals_order markers k l :
  int_vals "c:order" (sers_out markers k l)
  = map (fun i => uint16 (k + Z.of_nat i)) (seq 0 (List.length l)).
Proof.
  unfold int_vals. rewrite sers_reading by (intros; reflexivity).
  induction (seq 0 (List.length l)) as [|i r IH]; [reflexivity|].
  cbn [flat_map map]. rewrite IH. reflexivity.
Qed.

Lemma no_overlap_in_sers markers k l :
  flat_map (element "c:overlap") (sers_out markers k l) = [].
Proof. apply sers_quiet; intros; reflexivity. Qed.

Lemma no_marker_in_sers k l :
  flat_map (element "c:marker") (sers_out false k l) = [].
Proof. apply sers_quiet; intros; try discriminate; reflexivity. Qed.

(** The readings of the parts around the chart-type element. *)
Lemma assemble_reading {X : Type} (f : output -> list X) c :
  flat_map f (assemble_out c)
  = flat_map f prologue_out ++ flat_map f (chart_type_out c)
    ++ flat_map f (cat_axis_out (chart_after c))
    ++ flat_map f (val_axis_out (chart_after c))
    ++ flat_map f epilogue_out.
Proof. unfold assemble_out. rewrite !flat_map_app. reflexivity. Qed.

(** The chart-type element of a recognized type: what comes before the
    series, the series, what comes between them and the axis ids, the axis
    ids and the closing tag. *)
Lemma chart_type_out_recognized c :
  recognized (type c) = true ->
  exists head between tag,
    chart_type_out c
    = head
      ++ sers_out (has_markers (overrides c)) (series_index (overrides c))
           (series_list (overrides c))
      ++ between ++ axis_ids_out (chart_after c) ++ [EndTag tag]
    /\ (head = [StartTag "c:areaChart" [];
                EmptyTag "c:grouping" (val_str (grouping (overrides c)))]
        /\ between = overlap_out (overrides c) /\ is_area (type c) = true
        \/ head = [StartTag "c:barChart" [];
                   EmptyTag "c:barDir" (val_str "bar");
                   EmptyTag "c:grouping" (val_str (grouping (overrides c)))]
           /\ between = overlap_out (overrides c) /\ is_bar (type c) = true
        \/ head = [StartTag "c:barChart" [];
                   EmptyTag "c:barDir" (val_str "col");
                   EmptyTag "c:grouping" (val_str (grouping (overrides c)))]
           /\ between = overlap_out (overrides c)
           /\ is_column (type c) = true
        \/ head = [StartTag "c:lineChart" [];
                   EmptyTag "c:grouping" (val_str (grouping (overrides c)))]
           /\ between = [EmptyTag "c:marker" (val_str "1")]
           /\ is_line (type c) = true).
Proof.
  intros Hr. unfold chart_type_out, chart_after. rewrite Hr.
  unfold series_and_ids_out. unfold recognized in Hr.
  destruct (is_area (type c)) eqn:Ea.
  { do 3 eexists. split; [|left; repeat split].
    cbn [app]. rewrite <- !app_assoc. reflexivity. }
  destruct (is_bar (type c)) eqn:Eb.
  { do 3 eexists. split; [|right; left; repeat split].
    cbn [app]. rewrite <- !app_assoc. reflexivity. }
  destruct (is_column (type c)) eqn:Ec.
  { do 3 eexists. split; [|right; right; left; repeat split].
    cbn [app]. rewrite <- !app_assoc. reflexivity. }
  destruct (is_line (type c)) eqn:El; [|discriminate].
  do 3 eexists. split; [|right; right; right; repeat split].
  cbn [app]. rewrite <- !app_assoc. reflexivity.
Qed.

(** The parts of an output that are written out in full. *)
Ltac fixed_parts :=
  unfold prologue_out, epilogue_out, cat_axis_out, val_axis_out,
    scaling_out, axis_ids_out, overlap_out;
  repeat match goal with
         | |- context [if ?b then _ else _] => destruct b
         end;
  reading.

Lemma overrides_series_index c : series_index (overrides c) = series_index c.
Proof.
  unfold overrides, area_overrides, bar_overrides, column_overrides,
    line_overrides.
  repeat match goal with
         | |- context [if ?b then _ else _] => destruct b
         end; reflexivity.
Qed.

Lemma written_series_index c :
  uint16 (series_index (written c))
  = uint16 (series_index c + Z.of_nat (List.length (series_list c))).
Proof.
  unfold written, axis_ids_after, series_after. destruct c. fields.
  repeat match goal with
         | |- context [match ?l with [] => _ | _ :: _ => _ end] =>
             destruct l; fields
         | |- context [if ?b then _ else _] => destruct b; fields
         end;
    cbn [List.length Z.of_nat]; rewrite ?Z.add_0_r; try reflexivity;
    unfold uint16; rewrite Z.mod_mod by lia; reflexivity.
Qed.

Lemma int_vals_idx_assemble c :
  recognized (type c) = true ->
  int_vals "c:idx" (assemble_out c)
  = map (fun i => uint16 (series_index c + Z.of_nat i))
      (seq 0 (List.length (series_list c)))
  /\ int_vals "c:order" (assemble_out c)
     = map (fun i => uint16 (series_index c + Z.of_nat i))
         (seq 0 (List.length (series_list c))).
Proof.
  intros Hr. unfold int_vals. rewrite !assemble_reading.
  destruct (chart_type_out_recognized c Hr) as (head & between & tag & -> & Hs).
  rewrite !flat_map_app.
  fold (int_vals "c:idx"
          (sers_out (has_markers (overrides c)) (series_index (overrides c))
             (series_list (overrides c)))).
  fold (int_vals "c:order"
          (sers_out (has_markers (overrides c)) (series_index (overrides c))
             (series_list (overrides c)))).
  rewrite int_vals_idx, int_vals_order, overrides_series_index,
    overrides_series_list.
  destruct Hs as [(-> & -> & _)|[(-> & -> & _)|[(-> & -> & _)|(-> & -> & _)]]];
    split; fixed_parts; rewrite ?app_nil_r; reflexivity.
Qed.

(** C3, as the code has it. The [c:idx] and [c:order] of a series are the
    chart's stored counter [series_index] at the time the series is written:
    a serialization of a chart of recognized type that starts with the
    counter at [k] emits the i-th series with idx = order = (k + i) mod
    2^16 and leaves the counter advanced by the number of series, so that
    the first serialization of a new chart, whose counter is 0, emits
    idx = order = i. *)
Theorem series_idx_order_from_counter (c : lxw_chart) :
  recognized (type c) = true ->
  chart_defined c ->
  exists c' out,
    lxw_chart_assemble_xml_file c = Some (tt, c', out)
    /\ int_vals "c:idx" out
       = map (fun i => uint16 (series_index c + Z.of_nat i))
           (seq 0 (List.length (series_list c)))
    /\ int_vals "c:order" out = int_vals "c:idx" out
    /\ uint16 (series_index c')
       = uint16 (series_index c + Z.of_nat (List.length (series_list c)))
    /\ (series_index c = 0 ->
        Z.of_nat (List.length (series_list c)) <= 65536 ->
        int_vals "c:idx" out
        = map Z.of_nat (seq 0 (List.length (series_list c)))).
Proof.
  intros Hr Hc. exists (chart_after c), (assemble_out c).
  destruct (int_vals_idx_assemble c Hr) as [Hidx Hord].
  split; [apply assemble_run; exact Hc|].
  split; [exact Hidx|]. split; [rewrite Hidx; exact Hord|]. split.
  - unfold chart_after. rewrite Hr, written_series_index,
      overrides_series_index, overrides_series_list. reflexivity.
  - intros Hk Hn. rewrite Hidx, Hk. apply map_ext_in. intros i Hi.
    apply in_seq in Hi. apply uint16_small. lia.
Qed.

(** ** Axis ids *)

(** The two ids [_chart_add_axis_ids] computes for a chart numbered [n]. *)
Lemma add_axis_ids_values n :
  uint32 (uint32 (50010000 + n) + 1) = uint32 (50010000 + n + 1)
  /\ (0 <= n -> n + 50010002 < 2 ^ 32 ->
      uint32 (50010000 + n + 1) = 50010000 + n + 1
      /\ uint32 (uint32 (50010000 + n + 1) + 1) = 50010000 + n + 1 + 1).
Proof.
  split; [apply uint32_add_l|]. intros H0 H1.
  rewrite (uint32_small (50010000 + n + 1)) by lia.
  rewrite uint32_small by lia. auto.
Qed.

Ltac by_overrides :=
  unfold overrides, area_overrides, bar_overrides, column_overrides,
    line_overrides;
  repeat match goal with
         | |- context [if ?b then _ else _] => destruct b
         end; reflexivity.

Lemma overrides_id c : id (overrides c) = id c.
Proof. by_overrides. Qed.

Lemma overrides_axis_id_1 c : axis_id_1 (overrides c) = axis_id_1 c.
Proof. by_overrides. Qed.

Lemma overrides_axis_id_2 c : axis_id_2 (overrides c) = axis_id_2 c.
Proof. by_overrides. Qed.

Lemma written_axis_ids c :
  axis_id_1 (written c)
  = (if axis_id_1 c =? 0 then uint32 (50010000 + id c + 1) else axis_id_1 c)
  /\ axis_id_2 (written c)
     = (if axis_id_1 c =? 0 then uint32 (uint32 (50010000 + id c + 1) + 1)
        else axis_id_2 c).
Proof.
  unfold written, axis_ids_after, series_after.
  destruct c as [? ? ? ? ? n a1 a2 ? ? ? ? ? ? ? ? l]. fields.
  destruct l; fields; destruct (a1 =? 0); fields;
    rewrite ?(proj1 (add_axis_ids_values n)); auto.
Qed.

Lemma chart_after_axis_ids c :
  recognized (type c) = true ->
  id (chart_after c) = id c
  /\ axis_id_1 (chart_after c)
     = (if axis_id_1 c =? 0 then uint32 (50010000 + id c + 1)
        else axis_id_1 c)
  /\ axis_id_2 (chart_after c)
     = (if axis_id_1 c =? 0 then uint32 (uint32 (50010000 + id c + 1) + 1)
        else axis_id_2 c).
Proof.
  intros Hr. unfold chart_after. rewrite Hr.
  destruct (written_axis_ids (overrides c)) as [H1 H2].
  rewrite H1, H2, written_id, overrides_id, overrides_axis_id_1,
    overrides_axis_id_2. auto.
Qed.

(** The axis ids a serialization emits are those of the chart it leaves:
    twice in [c:axId], in the chart-type element and in the two axes, and
    crossed in [c:crossAx]. *)
Lemma axis_ids_emitted c :
  recognized (type c) = true ->
  int_vals "c:axId" (assemble_out c)
  = [axis_id_1 (chart_after c); axis_id_2 (chart_after c);
     axis_id_1 (chart_after c); axis_id_2 (chart_after c)]
  /\ int_vals "c:crossAx" (assemble_out c)
     = [axis_id_2 (chart_after c); axis_id_1 (chart_after c)].
Proof.
  intros Hr. unfold int_vals. rewrite !assemble_reading.
  destruct (chart_type_out_recognized c Hr) as (head & between & tag & -> & Hs).
  rewrite !flat_map_app.
  fold (int_vals "c:axId"
          (sers_out (has_markers (overrides c)) (series_index (overrides c))
             (series_list (overrides c)))).
  fold (int_vals "c:crossAx"
          (sers_out (has_markers (overrides c)) (series_index (overrides c))
             (series_list (overrides c)))).
  rewrite !int_vals_sers_quiet by reflexivity.
  destruct Hs as [(-> & -> & _)|[(-> & -> & _)|[(-> & -> & _)|(-> & -> & _)]]];
    split; fixed_parts; reflexivity.
Qed.

Lemma assemble_pass_axis_ids c a1 a2 :
  recognized (type c) = true ->
  chart_defined c ->
  a1 = uint32 (50010000 + id c + 1) ->
  a2 = uint32 (a1 + 1) ->
  axis_id_1 c = 0 \/ (axis_id_1 c = a1 /\ axis_id_2 c = a2) ->
  exists c' out,
    lxw_chart_assemble_xml_file c = Some (tt, c', out)
    /\ recognized (type c') = true /\ chart_defined c' /\ id c' = id c
    /\ axis_id_1 c' = a1 /\ axis_id_2 c' = a2
    /\ int_vals "c:axId" out = [a1; a2; a1; a2]
    /\ int_vals "c:crossAx" out = [a2; a1].
Proof.
  intros Hr Hc Ha1 Ha2 Hids.
  exists (chart_after c), (assemble_out c).
  destruct (chart_after_axis_ids c Hr) as (Hid & H1 & H2).
  destruct (axis_ids_emitted c Hr) as (Hax & Hcross).
  assert (E1 : axis_id_1 (chart_after c) = a1).
  { rewrite H1. destruct (Z.eqb_spec (axis_id_1 c) 0) as [E|E].
    - symmetry. exact Ha1.
    - destruct Hids as [E'|[E' _]]; [contradiction | exact E']. }
  assert (E2 : axis_id_2 (chart_after c) = a2).
  { rewrite H2. destruct (Z.eqb_spec (axis_id_1 c) 0) as [E|E].
    - rewrite Ha2, Ha1. reflexivity.
    - destruct Hids as [E'|[_ E']]; [contradiction | exact E']. }
  rewrite Hax, Hcross, E1, E2, chart_after_type.
  repeat split; try assumption.
  - apply assemble_run. exact Hc.
  - apply chart_after_defined. exact Hc.
Qed.

Lemma assemble_times_axis_ids n : forall c a1 a2,
  recognized (type c) = true ->
  chart_defined c ->
  a1 = uint32 (50010000 + id c + 1) ->
  a2 = uint32 (a1 + 1) ->
  axis_id_1 c = a1 -> axis_id_2 c = a2 ->
  exists c' outs,
    assemble_times n c = Some (c', outs)
    /\ List.length outs = n
    /\ axis_id_1 c' = a1 /\ axis_id_2 c' = a2
    /\ Forall (fun out => int_vals "c:axId" out = [a1; a2; a1; a2]
                          /\ int_vals "c:crossAx" out = [a2; a1]) outs.
Proof.
  induction n as [|n IH]; intros c a1 a2 Hr Hc Ha1 Ha2 H1 H2.
  - exists c, []. repeat split; auto.
  - destruct (assemble_pass_axis_ids c a1 a2 Hr Hc Ha1 Ha2 (or_intror (conj H1 H2)))
      as (c1 & out & Hrun & Hr1 & Hc1 & Hid & E1 & E2 & Hax & Hcross).
    rewrite <- Hid in Ha1.
    destruct (IH c1 a1 a2 Hr1 Hc1 Ha1 Ha2 E1 E2)
      as (c' & outs & Htimes & Hlen & F1 & F2 & Hall).
    exists c', (out :: outs). cbn [assemble_times].
    rewrite Hrun, Htimes. cbn [List.length]. rewrite Hlen.
    repeat split; auto.
Qed.

(** C1, as the code has it. For a chart of recognized type whose axis ids
    are unset, the first serialization stores
    axis_id_1 = (50010000 + id + 1) mod 2^32 and
    axis_id_2 = (axis_id_1 + 1) mod 2^32, which are 50010000 + id + 1 and
    axis_id_1 + 1 when these fit in 32 bits, and that serialization and
    every later one emit exactly these two ids and leave them stored. *)
Theorem axis_ids_allocated_once (c : lxw_chart) (n : nat) :
  recognized (type c) = true ->
  chart_defined c ->
  axis_id_1 c = 0 ->
  exists a1 a2 c' outs,
    a1 = uint32 (50010000 + id c + 1) /\ a2 = uint32 (a1 + 1)
    /\ (0 <= id c -> id c + 50010002 < 2 ^ 32 ->
        a1 = 50010000 + id c + 1 /\ a2 = a1 + 1)
    /\ assemble_times (S n) c = Some (c', outs)
    /\ List.length outs = S n
    /\ axis_id_1 c' = a1 /\ axis_id_2 c' = a2
    /\ Forall (fun out => int_vals "c:axId" out = [a1; a2; a1; a2]
                          /\ int_vals "c:crossAx" out = [a2; a1]) outs.
Proof.
  intros Hr Hc H0.
  exists (uint32 (50010000 + id c + 1)),
    (uint32 (uint32 (50010000 + id c + 1) + 1)).
  destruct (assemble_pass_axis_ids c _ _ Hr Hc eq_refl eq_refl (or_introl H0))
    as (c1 & out & Hrun & Hr1 & Hc1 & Hid & E1 & E2 & Hax & Hcross).
  assert (Ha1 : uint32 (50010000 + id c + 1) = uint32 (50010000 + id c1 + 1))
    by (rewrite Hid; reflexivity).
  destruct (assemble_times_axis_ids n c1 _ _ Hr1 Hc1 Ha1 eq_refl E1 E2)
    as (c' & outs & Htimes & Hlen & F1 & F2 & Hall).
  exists c', (out :: outs). cbn [assemble_times].
  rewrite Hrun, Htimes. cbn [List.length]. rewrite Hlen.
  split; [reflexivity|]. split; [reflexivity|]. split.
  { intros Hlo Hhi.
    destruct (proj2 (add_axis_ids_values (id c)) Hlo Hhi) as [V1 V2].
    rewrite V2, V1. auto. }
  repeat split; auto.
Qed.

(** ** The overrides of the dispatch *)

Lemma is_bar_stacked_percent : is_bar LXW_CHART_BAR_STACKED_PERCENT = true.
Proof. unfold is_bar. rewrite Z.eqb_refl, !orb_true_r. reflexivity. Qed.

Lemma is_line_line : is_line LXW_CHART_LINE = true.
Proof. unfold is_line. apply Z.eqb_refl. Qed.

(** C5. Serializing a chart of type Bar-Stacked-Percent sets its grouping
    to "percentStacked", [has_overlap] to true and the default number
    format of the y axis to "0%"; serializing a chart of type Line sets
    [has_markers] to true and the grouping to "standard". *)
Theorem bar_stacked_percent_and_line_overrides (c : lxw_chart) :
  chart_defined c ->
  (type c = LXW_CHART_BAR_STACKED_PERCENT ->
   exists c' out,
     lxw_chart_assemble_xml_file c = Some (tt, c', out)
     /\ grouping c' = "percentStacked"
     /\ has_overlap c' = true
     /\ default_num_format (y_axis c') = "0%")
  /\ (type c = LXW_CHART_LINE ->
      exists c' out,
        lxw_chart_assemble_xml_file c = Some (tt, c', out)
        /\ has_markers c' = true
        /\ grouping c' = "standard").
Proof.
  intros Hc. split; intros Ht; exists (chart_after c), (assemble_out c);
    (split; [apply assemble_run; exact Hc|]).
  - assert (Hb : is_bar (type c) = true)
      by (rewrite Ht; apply is_bar_stacked_percent).
    destruct (overrides_bar c Hb) as [Hr Ho].
    unfold chart_after. rewrite Hr, Ho, written_grouping,
      written_has_overlap, written_y_axis.
    unfold bar_overrides. rewrite Ht, Z.eqb_refl.
    destruct (LXW_CHART_BAR_STACKED_PERCENT =? LXW_CHART_BAR_STACKED);
      repeat split.
  - assert (Hl : is_line (type c) = true) by (rewrite Ht; apply is_line_line).
    destruct (overrides_line c Hl) as [Hr Ho].
    unfold chart_after. rewrite Hr, Ho, written_grouping, written_has_markers.
    repeat split.
Qed.

(** ** A chart of unrecognized type *)

Lemma chart_type_out_unrecognized c :
  recognized (type c) = false ->
  chart_type_out c
  = [Warn "workbook_add_chart(): unhandled chart type '%d'" (type c)].
Proof.
  unfold recognized, chart_type_out. intros Hr.
  apply orb_false_iff in Hr as [Hr Hl].
  apply orb_false_iff in Hr as [Hr Hcol].
  apply orb_false_iff in Hr as [Ha Hb].
  rewrite Ha, Hb, Hcol, Hl. reflexivity.
Qed.

(** C8. Serializing a chart whose type is none of the Area, Bar, Column and
    Line constants reads no series and runs to the closing tag of the
    document: it leaves the chart as it was, gives one warning that names
    the type, and emits the fixed parts and the two axes with matching
    start and end tags and no [c:areaChart], [c:barChart] or [c:lineChart]
    element between them. *)
Theorem unrecognized_type_degraded_output (c : lxw_chart) :
  recognized (type c) = false ->
  exists out,
    lxw_chart_assemble_xml_file c = Some (tt, c, out)
    /\ out = prologue_out
             ++ [Warn "workbook_add_chart(): unhandled chart type '%d'"
                   (type c)]
             ++ cat_axis_out c ++ val_axis_out c ++ epilogue_out
    /\ filter is_warning out
       = [Warn "workbook_add_chart(): unhandled chart type '%d'" (type c)]
    /\ balanced [] out = true
    /\ last out XmlDeclaration = EndTag "c:chartSpace"
    /\ count_tag "c:areaChart" out = 0%nat
    /\ count_tag "c:barChart" out = 0%nat
    /\ count_tag "c:lineChart" out = 0%nat
    /\ count_tag "c:ser" out = 0%nat.
Proof.
  intros Hr. exists (assemble_out c).
  split; [apply assemble_run_unrecognized; exact Hr|].
  unfold assemble_out, chart_after.
  rewrite Hr, (chart_type_out_unrecognized c Hr).
  split; [reflexivity|].
  unfold prologue_out, epilogue_out, cat_axis_out, val_axis_out, scaling_out,
    count_tag.
  destruct (cat_has_num_fmt c); repeat split; reflexivity.
Qed.

(** ** What a serialization changes *)

Lemma overrides_x_axis c : x_axis (overrides c) = x_axis c.
Proof. by_overrides. Qed.

Lemma overrides_series_overlap_1 c :
  series_overlap_1 (overrides c) = series_overlap_1 c.
Proof. by_overrides. Qed.

Ltac by_cases :=
  repeat match goal with
         | |- context [match ?l with [] => _ | _ :: _ => _ end] =>
             destruct l; fields
         | |- context [if ?b then _ else _] => destruct b; fields
         end.

Lemma overrides_cases c :
  (is_area (type c) = true /\ overrides c = area_overrides (type c) c)
  \/ (is_bar (type c) = true /\ overrides c = bar_overrides (type c) c)
  \/ (is_column (type c) = true
      /\ overrides c = column_overrides (type c) c)
  \/ (is_line (type c) = true /\ overrides c = line_overrides c)
  \/ (recognized (type c) = false /\ overrides c = c).
Proof.
  destruct (is_area (type c)) eqn:Ea.
  { left. split; [reflexivity | apply overrides_area, Ea]. }
  destruct (is_bar (type c)) eqn:Eb.
  { right; left. split; [reflexivity | apply overrides_bar, Eb]. }
  destruct (is_column (type c)) eqn:Ec.
  { right; right; left. split; [reflexivity | apply overrides_column, Ec]. }
  destruct (is_line (type c)) eqn:El.
  { right; right; right; left.
    split; [reflexivity | apply overrides_line, El]. }
  right; right; right; right. unfold recognized, overrides.
  rewrite Ea, Eb, Ec, El. auto.
Qed.

(** Each family's overrides, applied to a chart given field by field. *)
Ltac by_family :=
  intros; unfold area_overrides, bar_overrides, column_overrides,
    line_overrides;
  repeat match goal with
         | |- context [if (?t =? ?k) then _ else _] => destruct (t =? k)
         end;
  match goal with c : lxw_chart |- _ => destruct c end;
  unfold written, axis_ids_after, series_after; fields; by_cases;
  reflexivity.

Lemma area_overrides_idempotent t c :
  area_overrides t (area_overrides t c) = area_overrides t c.
Proof. by_family. Qed.

Lemma bar_overrides_idempotent t c :
  bar_overrides t (bar_overrides t c) = bar_overrides t c.
Proof. by_family. Qed.

Lemma column_overrides_idempotent t c :
  column_overrides t (column_overrides t c) = column_overrides t c.
Proof. by_family. Qed.

Lemma line_overrides_idempotent c :
  line_overrides (line_overrides c) = line_overrides c.
Proof. by_family. Qed.

Lemma area_overrides_written t c :
  area_overrides t (written c) = written (area_overrides t c).
Proof. by_family. Qed.

Lemma bar_overrides_written t c :
  bar_overrides t (written c) = written (bar_overrides t c).
Proof. by_family. Qed.

Lemma column_overrides_written t c :
  column_overrides t (written c) = written (column_overrides t c).
Proof. by_family. Qed.

Lemma line_overrides_written c :
  line_overrides (written c) = written (line_overrides c).
Proof. by_family. Qed.

(** The overrides applied again, to the chart a first serialization
    leaves, change nothing. *)
Lemma overrides_after_written c :
  overrides (written (overrides c)) = written (overrides c).
Proof.
  pose proof (overrides_type c) as Ht.
  destruct (overrides_cases c) as
    [[E Ho]|[[E Ho]|[[E Ho]|[[E Ho]|[E Ho]]]]]; rewrite Ho in Ht |- *.
  - assert (E' : is_area (type (written (area_overrides (type c) c))) = true)
      by (rewrite written_type, Ht; exact E).
    rewrite (proj2 (overrides_area _ E')), written_type, Ht,
      area_overrides_written, area_overrides_idempotent. reflexivity.
  - assert (E' : is_bar (type (written (bar_overrides (type c) c))) = true)
      by (rewrite written_type, Ht; exact E).
    rewrite (proj2 (overrides_bar _ E')), written_type, Ht,
      bar_overrides_written, bar_overrides_idempotent. reflexivity.
  - assert (E' : is_column (type (written (column_overrides (type c) c)))
                 = true)
      by (rewrite written_type, Ht; exact E).
    rewrite (proj2 (overrides_column _ E')), written_type, Ht,
      column_overrides_written, column_overrides_idempotent. reflexivity.
  - assert (E' : is_line (type (written (line_overrides c))) = true)
      by (rewrite written_type, Ht; exact E).
    rewrite (proj2 (overrides_line _ E')),
      line_overrides_written, line_overrides_idempotent. reflexivity.
  - assert (E' : recognized (type (written c)) = false)
      by (rewrite written_type; exact E).
    destruct (overrides_cases (written c)) as
      [[F _]|[[F _]|[[F _]|[[F _]|[_ Hw]]]]]; [..|exact Hw];
      unfold recognized in E'; rewrite F in E';
      rewrite ?orb_true_r in E'; discriminate.
Qed.

(** A second run of the series loop and of the axis ids moves the counter
    and nothing else. *)
Lemma written_twice c :
  written (written c)
  = set_series_index (series_index (written (written c))) (written c).
Proof.
  unfold written, axis_ids_after, series_after.
  destruct c as [? ? ? ? ? n a1 a2 cat ? ? ? ? ? ? ? l]. fields.
  destruct l as [|s l]; fields; destruct (a1 =? 0) eqn:E1; fields;
    rewrite ?E1; fields;
    try destruct (uint32 (uint32 (50010000 + n) + 1) =? 0) eqn:E2; fields;
    rewrite ?E1, ?E2; fields;
    rewrite <- ?orb_assoc, ?orb_diag; reflexivity.
Qed.

Lemma chart_after_twice c :
  chart_after (chart_after c)
  = set_series_index (series_index (chart_after (chart_after c)))
      (chart_after c).
Proof.
  unfold chart_after at 1 3. rewrite chart_after_type.
  destruct (recognized (type c)) eqn:Hr.
  - unfold chart_after. rewrite Hr.
    rewrite overrides_after_written. apply written_twice.
  - destruct (chart_after c). reflexivity.
Qed.


(** ** What holds of every chart a client can build *)

Ltac by_tests :=
  intros; unfold area_overrides, bar_overrides, column_overrides,
    line_overrides;
  repeat match goal with
         | |- context [if (?t =? ?k) then _ else _] => destruct (t =? k)
         end;
  repeat split.

Lemma area_overrides_fields t c :
  has_overlap (area_overrides t c) = has_overlap c
  /\ has_markers (area_overrides t c) = has_markers c
  /\ series_overlap_1 (area_overrides t c) = series_overlap_1 c
  /\ cat_axis_position (area_overrides t c) = cat_axis_position c
  /\ val_axis_position (area_overrides t c) = val_axis_position c
  /\ cross_between (area_overrides t c) = "midCat".
Proof. by_tests. Qed.

Lemma bar_overrides_fields t c :
  has_overlap (bar_overrides t c)
  = (t =? LXW_CHART_BAR_STACKED) || (t =? LXW_CHART_BAR_STACKED_PERCENT)
    || has_overlap c
  /\ has_markers (bar_overrides t c) = has_markers c
  /\ series_overlap_1 (bar_overrides t c) = series_overlap_1 c
  /\ cat_axis_position (bar_overrides t c) = "l"
  /\ val_axis_position (bar_overrides t c) = "b".
Proof. by_tests. Qed.

Lemma column_overrides_fields t c :
  has_overlap (column_overrides t c)
  = (t =? LXW_CHART_COLUMN_STACKED)
    || (t =? LXW_CHART_COLUMN_STACKED_PERCENT) || has_overlap c
  /\ has_markers (column_overrides t c) = has_markers c
  /\ series_overlap_1 (column_overrides t c) = series_overlap_1 c
  /\ cat_axis_position (column_overrides t c) = cat_axis_position c
  /\ val_axis_position (column_overrides t c) = val_axis_position c.
Proof. by_tests. Qed.

Lemma stacked_bar_or_column_family t :
  stacked_bar_or_column t
  = (is_bar t && ((t =? LXW_CHART_BAR_STACKED)
                  || (t =? LXW_CHART_BAR_STACKED_PERCENT)))
    || (is_column t && ((t =? LXW_CHART_COLUMN_STACKED)
                        || (t =? LXW_CHART_COLUMN_STACKED_PERCENT))).
Proof.
  unfold stacked_bar_or_column, is_bar, is_column.
  destruct (t =? LXW_CHART_BAR), (t =? LXW_CHART_BAR_STACKED),
    (t =? LXW_CHART_BAR_STACKED_PERCENT), (t =? LXW_CHART_COLUMN),
    (t =? LXW_CHART_COLUMN_STACKED), (t =? LXW_CHART_COLUMN_STACKED_PERCENT);
    reflexivity.
Qed.

(** The invariant in terms of the chart's family. *)
Lemma chart_after_keeps c :
  series_overlap_1 c = 100
  /\ (has_overlap c = true -> stacked_bar_or_column (type c) = true)
  /\ (has_markers c = true -> is_line (type c) = true)
  /\ (is_bar (type c) = false ->
      cat_axis_position c = "b" /\ val_axis_position c = "l") ->
  series_overlap_1 (chart_after c) = 100
  /\ has_overlap (chart_after c) = stacked_bar_or_column (type c)
  /\ (has_markers (chart_after c) = true -> is_line (type c) = true)
  /\ (is_bar (type c) = false ->
      cat_axis_position (chart_after c) = "b"
      /\ val_axis_position (chart_after c) = "l").
Proof.
  intros (I1 & I2 & I3 & I4).
  destruct chart_types_neq as (_&_&_&_&_&_&_&_&_& Na & Nb & Nc & Nl).
  rewrite stacked_bar_or_column_family in I2 |- *.
  unfold chart_after.
  destruct (overrides_cases c) as
    [[E Ho]|[[E Ho]|[[E Ho]|[[E Ho]|[E Ho]]]]].
  - destruct (overrides_area c E) as [Hr _]. rewrite Hr, Ho.
    rewrite written_series_overlap_1, written_has_overlap,
      written_has_markers, written_cat_axis_position,
      written_val_axis_position.
    destruct (area_overrides_fields (type c) c) as (-> & -> & -> & -> & -> & _).
    destruct (Na _ E) as (Eb & Ec & El). rewrite Eb, Ec in I2 |- *.
    cbn [andb orb] in I2 |- *.
    repeat split; auto;
      try (destruct (I4 ltac:(assumption)); assumption).
    destruct (has_overlap c); [discriminate I2; reflexivity | reflexivity].
  - destruct (overrides_bar c E) as [Hr _]. rewrite Hr, Ho.
    rewrite written_series_overlap_1, written_has_overlap,
      written_has_markers, written_cat_axis_position,
      written_val_axis_position.
    destruct (bar_overrides_fields (type c) c) as (-> & -> & -> & -> & ->).
    destruct (Nb _ E) as (Ea & Ec & El). rewrite E, Ec in I2 |- *.
    cbn [andb orb] in I2 |- *. rewrite orb_false_r in I2 |- *.
    repeat split; auto;
      try (destruct (I4 ltac:(assumption)); assumption).
    + destruct (has_overlap c); [|apply orb_false_r].
      rewrite I2 by reflexivity. reflexivity.
    + discriminate.
    + discriminate.
  - destruct (overrides_column c E) as [Hr _]. rewrite Hr, Ho.
    rewrite written_series_overlap_1, written_has_overlap,
      written_has_markers, written_cat_axis_position,
      written_val_axis_position.
    destruct (column_overrides_fields (type c) c) as (-> & -> & -> & -> & ->).
    destruct (Nc _ E) as (Ea & Eb & El). rewrite E, Eb in I2 |- *.
    cbn [andb orb] in I2 |- *.
    repeat split; auto;
      try (destruct (I4 ltac:(assumption)); assumption).
    destruct (has_overlap c); [|apply orb_false_r].
    rewrite I2 by reflexivity. reflexivity.
  - destruct (overrides_line c E) as [Hr _]. rewrite Hr, Ho.
    rewrite written_series_overlap_1, written_has_overlap,
      written_has_markers, written_cat_axis_position,
      written_val_axis_position.
    destruct (Nl _ E) as (Ea & Eb & Ec). rewrite Eb, Ec in I2 |- *.
    cbn [andb orb] in I2 |- *. unfold line_overrides.
    repeat split; auto;
      try (destruct (I4 ltac:(assumption)); assumption).
    destruct (has_overlap c) eqn:Eo; [discriminate I2; reflexivity|].
    exact Eo.
  - rewrite E. unfold recognized in E.
    apply orb_false_iff in E as [E El].
    apply orb_false_iff in E as [E Ec].
    apply orb_false_iff in E as [Ea Eb].
    rewrite Eb, Ec in I2 |- *. cbn [andb orb] in I2 |- *.
    repeat split; auto;
      try (destruct (I4 ltac:(assumption)); assumption).
    destruct (has_overlap c); [discriminate I2; reflexivity | reflexivity].
Qed.

Lemma chart_add_series_frame c cats vals o r c' o' :
  chart_add_series c cats vals o = Some (r, c', o') ->
  c' = c \/ exists l, c' = set_series_list l c.
Proof.
  unfold chart_add_series, chart_add_series_mem_error,
    lxw_chart_series_free, lxw_chart_free_range, zeroed_range.
  cbn [data_cache].
  repeat match goal with
         | |- context [match ?x with (_, _) => _ end] => destruct x
         | |- context [if ?b then _ else _] => destruct b
         end;
    intros E; inversion E; subst; eauto.
Qed.

Lemma reachable_invariant c :
  reachable c ->
  series_overlap_1 c = 100
  /\ (has_overlap c = true -> stacked_bar_or_column (type c) = true)
  /\ (has_markers c = true -> is_line (type c) = true)
  /\ (is_bar (type c) = false ->
      cat_axis_position c = "b" /\ val_axis_position c = "l").
Proof.
  induction 1 as
    [t o c o' Hnew
    |c n _ IH
    |c cats vals o r c' o' _ IH Hadd
    |c i s data rows cols col o r o' _ IH _ _
    |c i s data rows cols col o r o' _ IH _ _
    |c c' out _ IH Hrun].
  - unfold lxw_chart_new in Hnew.
    destruct (alloc o) as [[] o1]; [|discriminate].
    destruct (alloc o1) as [[] o2]; [|discriminate].
    inversion Hnew. subst. cbn. repeat split; auto; discriminate.
  - exact IH.
  - destruct (chart_add_series_frame _ _ _ _ _ _ _ Hadd) as [->|[l ->]];
      exact IH.
  - exact IH.
  - exact IH.
  - destruct (assemble_inv _ _ _ _ Hrun) as (-> & _ & _).
    destruct (chart_after_keeps c IH) as (K1 & K2 & K3 & K4).
    rewrite chart_after_type.
    split; [exact K1|]. split; [intros Ho; rewrite <- K2; exact Ho|].
    split; [exact K3 | exact K4].
Qed.

(** ** The [c:overlap] element *)

Lemma overlap_elements c :
  flat_map (element "c:overlap") (assemble_out c)
  = flat_map (element "c:overlap") (chart_type_out c)
  /\ (is_line (type c) = false ->
      flat_map (element "c:overlap") (chart_type_out c)
      = if recognized (type c) then overlap_out (overrides c) else []).
Proof.
  split.
  - rewrite assemble_reading.
    replace (flat_map (element "c:overlap") prologue_out) with (@nil output)
      by reflexivity.
    replace (flat_map (element "c:overlap") epilogue_out) with (@nil output)
      by reflexivity.
    replace (flat_map (element "c:overlap") (cat_axis_out (chart_after c)))
      with (@nil output)
      by (unfold cat_axis_out; destruct (cat_has_num_fmt (chart_after c));
          reflexivity).
    replace (flat_map (element "c:overlap") (val_axis_out (chart_after c)))
      with (@nil output) by reflexivity.
    rewrite !app_nil_r. reflexivity.
  - intros El. destruct (recognized (type c)) eqn:Hr.
    + destruct (chart_type_out_recognized c Hr)
        as (head & between & tag & -> & Hs).
      rewrite !flat_map_app, no_overlap_in_sers.
      destruct Hs as
        [(-> & -> & _)|[(-> & -> & _)|[(-> & -> & _)|(_ & _ & El')]]];
        [| | |congruence];
        unfold overlap_out, axis_ids_out;
        destruct (has_overlap (overrides c)); reflexivity.
    + rewrite (chart_type_out_unrecognized c Hr). reflexivity.
Qed.

(** C10. For every chart a client can build, a serialization leaves
    [has_overlap] set exactly for the stacked and percent-stacked Bar and
    Column types; the chart-type element then holds exactly one [c:overlap]
    element, its value the 100 that [lxw_chart_new] stored in
    [series_overlap_1] and that nothing changes, and the rest of the output
    holds none; when [has_overlap] is not set the output has no [c:overlap]
    element. *)
Theorem overlap_element_is_100 (c : lxw_chart) :
  reachable c ->
  chart_defined c ->
  exists c' out,
    lxw_chart_assemble_xml_file c = Some (tt, c', out)
    /\ series_overlap_1 c = 100 /\ series_overlap_1 c' = 100
    /\ has_overlap c' = stacked_bar_or_column (type c)
    /\ flat_map (element "c:overlap") (chart_type_out c)
       = (if has_overlap c' then [EmptyTag "c:overlap" (val_int 100)]
          else [])
    /\ flat_map (element "c:overlap") out
       = flat_map (element "c:overlap") (chart_type_out c)
    /\ count_tag "c:overlap" out = (if has_overlap c' then 1 else 0)%nat.
Proof.
  intros Hreach Hc.
  pose proof (reachable_invariant c Hreach) as I.
  destruct (chart_after_keeps c I) as (K1 & K2 & K3 & K4).
  destruct I as (I1 & I2 & I3 & I4).
  destruct (overlap_elements c) as (Hall & Htype).
  exists (chart_after c), (assemble_out c).
  split; [apply assemble_run; exact Hc|].
  split; [exact I1|]. split; [exact K1|]. split; [exact K2|].
  assert (Hel : flat_map (element "c:overlap") (chart_type_out c)
                = if has_overlap (chart_after c)
                  then [EmptyTag "c:overlap" (val_int 100)] else []).
  { destruct (is_line (type c)) eqn:El.
    - destruct chart_types_neq as (_&_&_&_&_&_&_&_&_&_&_&_& Nl).
      destruct (Nl _ El) as (Ea & Eb & Ec).
      rewrite K2, stacked_bar_or_column_family, Eb, Ec. cbn [andb orb].
      destruct (overrides_line c El) as [Hr _].
      destruct (chart_type_out_recognized c Hr)
        as (head & between & tag & -> & Hs).
      rewrite !flat_map_app, no_overlap_in_sers.
      destruct Hs as
        [(_ & _ & F)|[(_ & _ & F)|[(_ & _ & F)|(-> & -> & _)]]];
        [congruence..|].
      reflexivity.
    - rewrite (Htype eq_refl). unfold chart_after.
      destruct (recognized (type c)) eqn:Hr.
      + rewrite written_has_overlap. unfold overlap_out.
        rewrite overrides_series_overlap_1, I1. reflexivity.
      + destruct (has_overlap c) eqn:Eo; [|reflexivity].
        exfalso. unfold chart_after in K2. rewrite Hr, Eo in K2.
        rewrite stacked_bar_or_column_family in K2.
        unfold recognized in Hr.
        apply orb_false_iff in Hr as [Hr _].
        apply orb_false_iff in Hr as [Hr Ecol].
        apply orb_false_iff in Hr as [_ Eb].
        rewrite Eb, Ecol in K2. discriminate. }
  split; [exact Hel|]. split; [exact Hall|].
  unfold count_tag. rewrite Hall, Hel.
  destruct (has_overlap (chart_after c)); reflexivity.
Qed.

(** ** Area charts *)

Lemma area_overrides_grouping t c :
  grouping (area_overrides t c)
  = (if t =? LXW_CHART_AREA_STACKED_PERCENT then "percentStacked"
     else if t =? LXW_CHART_AREA_STACKED then "stacked" else "standard")
  /\ default_num_format (y_axis (area_overrides t c))
     = (if t =? LXW_CHART_AREA_STACKED_PERCENT then "0%"
        else default_num_format (y_axis c)).
Proof. by_tests. Qed.

(** C4, as the code has it. For every Area-family chart a client can
    build, a serialization sets [cross_between] to "midCat", keeps the
    default axis positions "b" and "l", and emits no [c:overlap] and no
    [c:marker] element; it sets the grouping to "standard" for Area,
    "stacked" for Area-Stacked and "percentStacked" for
    Area-Stacked-Percent, and sets the y-axis default number format to "0%"
    for Area-Stacked-Percent only, leaving it as it was for the other
    two. *)
Theorem area_chart_overrides_by_variant (c : lxw_chart) :
  reachable c ->
  chart_defined c ->
  is_area (type c) = true ->
  exists c' out,
    lxw_chart_assemble_xml_file c = Some (tt, c', out)
    /\ cross_between c' = "midCat"
    /\ cat_axis_position c' = "b" /\ val_axis_position c' = "l"
    /\ has_overlap c' = false /\ has_markers c' = false
    /\ count_tag "c:overlap" out = 0%nat
    /\ count_tag "c:marker" out = 0%nat
    /\ grouping c'
       = (if type c =? LXW_CHART_AREA_STACKED_PERCENT then "percentStacked"
          else if type c =? LXW_CHART_AREA_STACKED then "stacked"
          else "standard")
    /\ default_num_format (y_axis c')
       = (if type c =? LXW_CHART_AREA_STACKED_PERCENT then "0%"
          else default_num_format (y_axis c)).
Proof.
  intros Hreach Hc Ea.
  pose proof (reachable_invariant c Hreach) as (I1 & I2 & I3 & I4).
  destruct chart_types_neq as (_&_&_&_&_&_&_&_&_& Na &_).
  destruct (Na _ Ea) as (Eb & Ec & El).
  destruct (overrides_area c Ea) as [Hr Ho].
  destruct (area_overrides_fields (type c) c)
    as (F1 & F2 & F3 & F4 & F5 & F6).
  destruct (area_overrides_grouping (type c) c) as (G1 & G2).
  destruct (I4 Eb) as (P1 & P2).
  assert (Hov : has_overlap c = false).
  { destruct (has_overlap c); [|reflexivity].
    specialize (I2 eq_refl). rewrite stacked_bar_or_column_family in I2.
    rewrite Eb, Ec in I2. discriminate. }
  assert (Hmk : has_markers c = false).
  { destruct (has_markers c); [|reflexivity].
    specialize (I3 eq_refl). congruence. }
  exists (chart_after c), (assemble_out c).
  split; [apply assemble_run; exact Hc|].
  assert (Hafter : chart_after c = written (area_overrides (type c) c))
    by (unfold chart_after; rewrite Hr, Ho; reflexivity).
  rewrite Hafter at 1 2 3 4 5 6 7.
  rewrite written_cross_between, written_cat_axis_position,
    written_val_axis_position, written_has_overlap, written_has_markers,
    written_grouping, written_y_axis.
  rewrite F1, F2, F4, F5, F6, G1, G2.
  repeat (split; [assumption || reflexivity|]).
  split; [|split; [|split; reflexivity]].
  - unfold count_tag.
    destruct (overlap_elements c) as (-> & Htype). rewrite (Htype El), Hr.
    unfold overlap_out. rewrite Ho, F1, Hov. reflexivity.
  - unfold count_tag. rewrite assemble_reading.
    destruct (chart_type_out_recognized c Hr)
      as (head & between & tag & -> & Hs).
    rewrite !flat_map_app, Ho, F2, Hmk, no_marker_in_sers.
    destruct Hs as
      [(-> & -> & _)|[(_ & _ & F)|[(_ & _ & F)|(_ & _ & F)]]];
      [|congruence..].
    rewrite Ho. unfold overlap_out. rewrite F1, Hov.
    unfold cat_axis_out. destruct (cat_has_num_fmt (chart_after c));
      reflexivity.
Qed.

(** ** When a serialization has a result *)

Lemma series_defined_false s :
  series_defined s = false <->
  data_cache (values s) = None
  \/ (formula (categories s) <> None /\ data_cache (categories s) = None).
Proof.
  unfold series_defined.
  destruct (data_cache (values s)), (formula (categories s)),
    (data_cache (categories s)); split; intros Hs;
    try discriminate; try reflexivity; auto;
    try (right; split; [discriminate | reflexivity]);
    destruct Hs as [Hs|[Hs1 Hs2]]; congruence.
Qed.

(** X1. A serialization has no defined result exactly when the chart is of
    a recognized type and one of its series has a [NULL] values cache, or
    a categories formula with a [NULL] categories cache: these are the
    list heads [_chart_write_num_ref] reads through. *)
Theorem assemble_undefined_iff (c : lxw_chart) :
  lxw_chart_assemble_xml_file c = None <->
  recognized (type c) = true
  /\ exists s,
       In s (series_list c)
       /\ (data_cache (values s) = None
           \/ (formula (categories s) <> None
               /\ data_cache (categories s) = None)).
Proof.
  split.
  - intros Hnone. destruct (recognized (type c)) eqn:Hr.
    + split; [reflexivity|].
      destruct (forallb series_defined (series_list c)) eqn:Hc.
      * rewrite (assemble_run c Hc) in Hnone. discriminate.
      * assert (Hex : existsb (fun s => negb (series_defined s))
                        (series_list c) = true).
        { clear -Hc. induction (series_list c) as [|s l IH];
            [discriminate|].
          cbn [forallb existsb] in *. destruct (series_defined s);
            [apply IH; exact Hc | reflexivity]. }
        apply existsb_exists in Hex as (s & Hin & Hs).
        exists s. split; [exact Hin|]. apply series_defined_false.
        destruct (series_defined s); [discriminate | reflexivity].
    + rewrite (assemble_run_unrecognized c Hr) in Hnone. discriminate.
  - intros (Hr & s & Hin & Hs). apply assemble_undefined; [exact Hr|].
    apply series_defined_false in Hs.
    destruct (forallb series_defined (series_list c)) eqn:Hc;
      [|reflexivity].
    rewrite forallb_forall in Hc. rewrite (Hc s Hin) in Hs. discriminate.
Qed.

(** ** Matching tags *)

Lemma nested_nil : nested [].
Proof. intros stack rest. reflexivity. Qed.

Lemma nested_app a b : nested a -> nested b -> nested (a ++ b).
Proof.
  intros Ha Hb stack rest. rewrite <- app_assoc, Ha, Hb. reflexivity.
Qed.

Lemma nested_wrap t a o :
  nested o -> nested (StartTag t a :: o ++ [EndTag t]).
Proof.
  intros Ho stack rest. cbn [app balanced].
  rewrite <- app_assoc, Ho. cbn [app balanced].
  rewrite String.eqb_refl. reflexivity.
Qed.

Lemma nested_empty_tag t a o : nested o -> nested (EmptyTag t a :: o).
Proof. intros Ho stack rest. cbn [app balanced]. apply Ho. Qed.

Lemma nested_data t d a o : nested o -> nested (DataElement t d a :: o).
Proof. intros Ho stack rest. cbn [app balanced]. apply Ho. Qed.

Lemma points_nested points : forall index, nested (points_out points index).
Proof.
  induction points as [|p rest IH]; intros index; cbn [points_out].
  - apply nested_nil.
  - apply (nested_app [StartTag "c:pt" [("idx", AttrInt index)];
                       DataElement "c:v" (DataG16 (number p)) [];
                       EndTag "c:pt"]); [|apply IH].
    apply (nested_wrap "c:pt" _ [DataElement "c:v" _ []]).
    apply nested_data, nested_nil.
Qed.

Lemma num_ref_nested r : nested (num_ref_out r).
Proof.
  unfold num_ref_out.
  apply (nested_wrap "c:numRef" []
           (DataElement "c:f" (DataStr (formula r)) [] :: num_cache_out r)).
  apply nested_data. unfold num_cache_out.
  destruct (data_cache r) as [[|p rest]|]; try apply nested_nil.
  apply (nested_wrap "c:numCache" []
           (DataElement "c:formatCode" (DataStr (Some "General")) []
            :: EmptyTag "c:ptCount" (val_int (num_data_points r))
            :: points_out (p :: rest) 0)).
  apply nested_data, nested_empty_tag, points_nested.
Qed.

Lemma ser_nested markers index s : nested (ser_out markers index s).
Proof.
  unfold ser_out.
  replace (StartTag "c:ser" []
           :: EmptyTag "c:idx" (val_int index)
           :: EmptyTag "c:order" (val_int index)
           :: marker_out markers ++ cat_out s
              ++ StartTag "c:val" [] :: num_ref_out (values s)
              ++ [EndTag "c:val"; EndTag "c:ser"])
    with (StartTag "c:ser" []
          :: (EmptyTag "c:idx" (val_int index)
              :: EmptyTag "c:order" (val_int index)
              :: marker_out markers ++ cat_out s
                 ++ (StartTag "c:val" [] :: num_ref_out (values s)
                     ++ [EndTag "c:val"]))
             ++ [EndTag "c:ser"])
    by (cbn [app]; rewrite <- !app_assoc; cbn [app]; rewrite <- !app_assoc;
        reflexivity).
  apply nested_wrap. do 2 apply nested_empty_tag.
  apply nested_app; [|apply nested_app].
  - unfold marker_out. destruct markers; [|apply nested_nil].
    apply (nested_wrap "c:marker" [] [EmptyTag "c:symbol" _]).
    apply nested_empty_tag, nested_nil.
  - unfold cat_out. destruct (formula (categories s)); [|apply nested_nil].
    apply nested_wrap, num_ref_nested.
  - apply nested_wrap, num_ref_nested.
Qed.

Lemma sers_nested markers l : forall k, nested (sers_out markers k l).
Proof.
  induction l as [|s l IH]; intros k; cbn [sers_out].
  - apply nested_nil.
  - apply nested_app; [apply ser_nested | apply IH].
Qed.

Lemma series_and_ids_nested c1 between :
  nested between -> nested (series_and_ids_out c1 between).
Proof.
  intros Hb. unfold series_and_ids_out.
  apply nested_app; [apply sers_nested|].
  apply nested_app; [exact Hb|].
  unfold axis_ids_out. do 2 apply nested_empty_tag. apply nested_nil.
Qed.

Lemma overlap_nested c1 : nested (overlap_out c1).
Proof.
  unfold overlap_out.
  destruct (has_overlap c1); [apply nested_empty_tag|]; apply nested_nil.
Qed.

Lemma chart_type_nested c : nested (chart_type_out c).
Proof.
  unfold chart_type_out.
  destruct (is_area (type c)).
  { apply (nested_wrap "c:areaChart" [] (_ :: _)), nested_empty_tag,
      series_and_ids_nested, overlap_nested. }
  destruct (is_bar (type c)).
  { apply (nested_wrap "c:barChart" [] (_ :: _ :: _)).
    do 2 apply nested_empty_tag.
    apply series_and_ids_nested, overlap_nested. }
  destruct (is_column (type c)).
  { apply (nested_wrap "c:barChart" [] (_ :: _ :: _)).
    do 2 apply nested_empty_tag.
    apply series_and_ids_nested, overlap_nested. }
  destruct (is_line (type c)).
  { apply (nested_wrap "c:lineChart" [] (_ :: _)), nested_empty_tag,
      series_and_ids_nested, nested_empty_tag, nested_nil. }
  intros stack rest. reflexivity.
Qed.

Lemma axes_nested c : nested (cat_axis_out c ++ val_axis_out c).
Proof.
  intros stack rest. unfold cat_axis_out, val_axis_out, scaling_out.
  destruct (cat_has_num_fmt c); reflexivity.
Qed.

Lemma assemble_out_balanced c : balanced [] (assemble_out c) = true.
Proof.
  unfold assemble_out, prologue_out. cbn [app balanced].
  rewrite chart_type_nested.
  rewrite app_assoc, axes_nested. reflexivity.
Qed.

(** X2. Whenever a serialization has a result, the start and end tags of
    its output match, innermost first, and none is left open. *)
Theorem assemble_balanced (c c' : lxw_chart) (u : unit) (out : list output) :
  lxw_chart_assemble_xml_file c = Some (u, c', out) ->
  balanced [] out = true.
Proof.
  intros Hrun. apply assemble_inv in Hrun as (_ & -> & _).
  apply assemble_out_balanced.
Qed.

(** ** What the series contribute to an output *)

Section BySeries.

Variables (X : Type) (f : output -> list X).

Hypothesis f_idx : forall n, f (EmptyTag "c:idx" (val_int n)) = [].
Hypothesis f_order : forall n, f (EmptyTag "c:order" (val_int n)) = [].

Lemma ser_index_free markers index s :
  flat_map f (ser_out markers index s) = flat_map f (ser_out markers 0 s).
Proof.
  unfold ser_out. cbn [flat_map]. rewrite !f_idx, !f_order. reflexivity.
Qed.

Lemma sers_by_series markers l : forall k,
  flat_map f (sers_out markers k l)
  = flat_map (fun s => flat_map f (ser_out markers 0 s)) l.
Proof.
  induction l as [|s l IH]; intros k; cbn [sers_out flat_map].
  - reflexivity.
  - rewrite flat_map_app, IH, ser_index_free. reflexivity.
Qed.

End BySeries.

(** Evaluate a reading on elements written out in full. *)
Ltac read_out :=
  repeat progress
    (rewrite ?flat_map_app;
     cbn [flat_map app data_val str_val pt_idx int_val element has_tag
          String.eqb Ascii.eqb Bool.eqb andb val_int val_str List.length
          map]).

(** Split the output of a chart of recognized type [Hr] into its parts,
    one goal for each chart family, [Hfam] telling which. *)
Ltac by_parts c Hr :=
  rewrite assemble_reading;
  let head := fresh "head" in
  let between := fresh "between" in
  let tag := fresh "tag" in
  let Hs := fresh "Hs" in
  destruct (chart_type_out_recognized c Hr)
    as (head & between & tag & -> & Hs);
  rewrite (overrides_series_list c);
  unfold cat_axis_out, val_axis_out, scaling_out, prologue_out,
    epilogue_out, axis_ids_out;
  destruct Hs as
    [(-> & -> & Hfam)|[(-> & -> & Hfam)|[(-> & -> & Hfam)
    |(-> & -> & Hfam)]]];
  unfold overlap_out;
  rewrite !flat_map_app.

Lemma num_ref_formula r :
  flat_map (data_val "c:f") (num_ref_out r) = [DataStr (formula r)].
Proof.
  unfold num_ref_out, num_cache_out. read_out.
  destruct (data_cache r) as [[|p rest]|]; try reflexivity.
  read_out. rewrite points_quiet by reflexivity. reflexivity.
Qed.

Lemma ser_formulas markers s :
  flat_map (data_val "c:f") (ser_out markers 0 s) = series_formulas s.
Proof.
  unfold ser_out, series_formulas, cat_out, marker_out. read_out.
  rewrite num_ref_formula.
  destruct markers, (formula (categories s)) eqn:Ef; read_out;
    rewrite ?num_ref_formula, ?Ef; reflexivity.
Qed.

Lemma ser_elements markers s :
  flat_map (element "c:ser") (ser_out markers 0 s) = [StartTag "c:ser" []].
Proof.
  unfold ser_out. read_out.
  rewrite marker_quiet, cat_quiet, num_ref_quiet
    by (intros; try reflexivity). reflexivity.
Qed.

(** X3. The output of a chart of recognized type has one [c:ser] element
    for each series of the list, and its [c:f] elements hold, series by
    series and in list order, the categories formula when there is one and
    then the values formula. *)
Theorem series_written (c c' : lxw_chart) (u : unit) (out : list output) :
  recognized (type c) = true ->
  lxw_chart_assemble_xml_file c = Some (u, c', out) ->
  count_tag "c:ser" out = List.length (series_list c)
  /\ data_vals "c:f" out = flat_map series_formulas (series_list c).
Proof.
  intros Hr Hrun. apply assemble_inv in Hrun as (_ & -> & _).
  unfold count_tag, data_vals. split.
  - by_parts c Hr;
      rewrite sers_by_series by reflexivity;
      rewrite (flat_map_ext _ _ (ser_elements _));
      destruct (has_overlap (overrides c)), (cat_has_num_fmt (chart_after c));
      read_out; rewrite !app_nil_r;
      induction (series_list c) as [|s l IH]; try reflexivity;
      cbn [flat_map app List.length]; rewrite IH; reflexivity.
  - by_parts c Hr;
      rewrite sers_by_series by reflexivity;
      rewrite (flat_map_ext _ _ (ser_formulas _));
      destruct (has_overlap (overrides c)), (cat_has_num_fmt (chart_after c));
      read_out; rewrite !app_nil_r; reflexivity.
Qed.

(** ** The cached points *)

Lemma flat_map_nest {A B C : Type} (g : B -> list C) (h : A -> list B) l :
  flat_map (fun x => flat_map g (h x)) l = flat_map g (flat_map h l).
Proof.
  induction l as [|x l IH]; cbn [flat_map]; [reflexivity|].
  rewrite flat_map_app, IH. reflexivity.
Qed.

Lemma points_values points : forall index,
  flat_map (data_val "c:v") (points_out points index)
  = map (fun p => DataG16 (number p)) points.
Proof.
  induction points as [|p rest IH]; intros index;
    cbn [points_out flat_map map]; [reflexivity|].
  read_out. rewrite IH. reflexivity.
Qed.

Lemma num_ref_values r :
  flat_map (data_val "c:v") (num_ref_out r) = cached_values r.
Proof.
  unfold num_ref_out, num_cache_out, cached_values, cached_points. read_out.
  destruct (data_cache r) as [[|p rest]|]; try reflexivity.
  read_out. rewrite points_values, !app_nil_r. reflexivity.
Qed.

Lemma points_numbers points : forall index,
  flat_map pt_idx (points_out points (uint16 index))
  = map (fun i => uint16 (index + Z.of_nat i)) (seq 0 (List.length points)).
Proof.
  induction points as [|p rest IH]; intros index;
    cbn [points_out flat_map map List.length seq]; [reflexivity|].
  read_out. rewrite uint16_add_l, IH, Z.add_0_r, <- seq_shift, map_map.
  f_equal. apply map_ext. intros i. f_equal. lia.
Qed.

Lemma num_ref_numbers r :
  flat_map pt_idx (num_ref_out r)
  = map (fun i => uint16 (Z.of_nat i))
      (seq 0 (List.length (cached_points r))).
Proof.
  unfold num_ref_out, num_cache_out, cached_points. read_out.
  destruct (data_cache r) as [[|p rest]|]; try reflexivity.
  read_out. change 0 with (uint16 0) at 1.
  rewrite points_numbers, !app_nil_r. reflexivity.
Qed.

Lemma num_ref_count r :
  flat_map (int_val "c:ptCount") (num_ref_out r)
  = if has_points r then [num_data_points r] else [].
Proof.
  unfold num_ref_out, num_cache_out, has_points. read_out.
  destruct (data_cache r) as [[|p rest]|]; try reflexivity.
  read_out. rewrite points_quiet by reflexivity. reflexivity.
Qed.

(** What a reading of the two references of a series gives, when it finds
    nothing in the elements around them. *)
Lemma ser_ranges {X : Type} (f : output -> list X) markers s :
  (forall t, f (EndTag t) = []) ->
  (forall t a, String.eqb t "c:pt" = false -> f (StartTag t a) = []) ->
  (forall t a, String.eqb t "c:ptCount" = false -> f (EmptyTag t a) = []) ->
  flat_map f (ser_out markers 0 s)
  = flat_map (fun r => flat_map f (num_ref_out r)) (series_ranges s).
Proof.
  intros f_end f_start f_empty.
  unfold ser_out, series_ranges, cat_out, marker_out.
  destruct markers, (formula (categories s));
    repeat progress (rewrite ?flat_map_app; cbn [flat_map app]);
    rewrite ?f_end, ?f_start, ?f_empty, ?app_nil_r by reflexivity;
    reflexivity.
Qed.

(** The same for a whole output. *)
Lemma assemble_ranges {X : Type} (f : output -> list X) c :
  recognized (type c) = true ->
  f XmlDeclaration = [] ->
  (forall t, f (EndTag t) = []) ->
  (forall t a, String.eqb t "c:pt" = false -> f (StartTag t a) = []) ->
  (forall t a, String.eqb t "c:ptCount" = false -> f (EmptyTag t a) = []) ->
  flat_map f (assemble_out c)
  = flat_map (fun r => flat_map f (num_ref_out r))
      (flat_map series_ranges (series_list c)).
Proof.
  intros Hr f_decl f_end f_start f_empty.
  rewrite <- flat_map_nest.
  by_parts c Hr;
    rewrite sers_by_series by (intros; apply f_empty; reflexivity);
    rewrite (flat_map_ext _ _
               (fun s => ser_ranges f _ s f_end f_start f_empty));
    destruct (has_overlap (overrides c)), (cat_has_num_fmt (chart_after c));
    cbn [flat_map app];
    rewrite ?f_decl, ?f_end, ?f_start, ?f_empty, ?app_nil_r by reflexivity;
    reflexivity.
Qed.

(** X4. The [c:v] elements of the output of a chart of recognized type
    hold the cached numbers of the references written, in order: for each
    series the points of its categories, when it has a categories formula,
    then those of its values. *)
Theorem cached_values_written (c c' : lxw_chart) (u : unit)
    (out : list output) :
  recognized (type c) = true ->
  lxw_chart_assemble_xml_file c = Some (u, c', out) ->
  data_vals "c:v" out
  = flat_map cached_values (flat_map series_ranges (series_list c)).
Proof.
  intros Hr Hrun. apply assemble_inv in Hrun as (_ & -> & _).
  unfold data_vals. rewrite (assemble_ranges _ c Hr) by reflexivity.
  apply flat_map_ext. intros r. apply num_ref_values.
Qed.

(** X5. In the output of a chart of recognized type the [c:pt] elements
    of each reference written are numbered from 0 in a 16-bit counter, and
    a reference has a [c:ptCount] only when its cache has a point: it then
    holds [num_data_points], whatever the number of points. *)
Theorem cached_points_numbered (c c' : lxw_chart) (u : unit)
    (out : list output) :
  recognized (type c) = true ->
  lxw_chart_assemble_xml_file c = Some (u, c', out) ->
  flat_map pt_idx out
  = flat_map
      (fun r => map (fun i => uint16 (Z.of_nat i))
                  (seq 0 (List.length (cached_points r))))
      (flat_map series_ranges (series_list c))
  /\ int_vals "c:ptCount" out
     = flat_map (fun r => if has_points r then [num_data_points r] else [])
         (flat_map series_ranges (series_list c)).
Proof.
  intros Hr Hrun. apply assemble_inv in Hrun as (_ & -> & _). split.
  - rewrite (assemble_ranges _ c Hr).
    + apply flat_map_ext. intros r. apply num_ref_numbers.
    + reflexivity.
    + reflexivity.
    + intros t a Ht. destruct a as [|[k [n|v]] [|a' l]]; try reflexivity.
      cbn [pt_idx]. rewrite Ht. reflexivity.
    + reflexivity.
  - unfold int_vals. rewrite (assemble_ranges _ c Hr).
    + apply flat_map_ext. intros r. apply num_ref_count.
    + reflexivity.
    + reflexivity.
    + reflexivity.
    + intros t a Ht. destruct a as [|[k [n|v]] [|a' l]]; try reflexivity.
      cbn [int_val]. rewrite Ht. reflexivity.
Qed.

(** ** Filling a data cache *)

Lemma add_data_cache_loop_run data cols col n : forall i cache o,
  0 <= i -> 0 <= cols -> 0 <= col ->
  (forall k, (k < n)%nat ->
     (i + Z.of_nat k) * cols + col < Z.of_nat (List.length data)) ->
  ~ In false (firstn n o) ->
  lxw_chart_add_data_cache_loop data cols col n i cache o
  = (Some (cache
           ++ map (fun k =>
                     {| number :=
                          double_of_uint8
                            (nth (Z.to_nat ((i + Z.of_nat k) * cols + col))
                               data 0) |})
                (seq 0 n)),
     skipn n o).
Proof.
  induction n as [|n IH]; intros i cache o Hi Hcols Hcol Hdata Ho.
  - cbn [lxw_chart_add_data_cache_loop seq map skipn].
    rewrite app_nil_r. reflexivity.
  - cbn [lxw_chart_add_data_cache_loop].
    destruct (alloc_ok n o Ho) as [-> Ho']. cbn [negb].
    assert (Hin : 0 <= i * cols + col < Z.of_nat (List.length data)).
    { specialize (Hdata O ltac:(lia)). cbn [Z.of_nat] in Hdata.
      rewrite Z.add_0_r in Hdata. nia. }
    destruct (Z.ltb_spec (i * cols + col) 0) as [Hneg|_]; [lia|].
    destruct (nth_error data (Z.to_nat (i * cols + col))) as [byte|] eqn:E.
    + rewrite IH; try lia; try assumption.
      * rewrite <- app_assoc. cbn [app seq map].
        rewrite <- seq_shift, map_map, Z.add_0_r.
        rewrite (nth_error_nth _ _ 0 E).
        f_equal; [|destruct o; cbn [tl skipn]; rewrite ?skipn_nil; reflexivity].
        do 3 f_equal. apply map_ext. intros k.
        replace (i + 1 + Z.of_nat k) with (i + Z.of_nat (S k)) by lia.
        reflexivity.
      * intros k Hk. specialize (Hdata (S k) ltac:(lia)).
        replace (i + 1 + Z.of_nat k) with (i + Z.of_nat (S k)) by lia.
        exact Hdata.
    + apply nth_error_None in E. lia.
Qed.

Lemma add_data_cache_loop_fails data cols col n : forall i cache o,
  In false (firstn n o) ->
  fst (lxw_chart_add_data_cache_loop data cols col n i cache o) = None.
Proof.
  induction n as [|n IH]; intros i cache o Ho; [destruct Ho|].
  cbn [lxw_chart_add_data_cache_loop].
  destruct o as [|[] o]; cbn [firstn In alloc negb] in *.
  - destruct Ho.
  - destruct Ho as [Ho|Ho]; [discriminate|].
    destruct (i * cols + col <? 0); [reflexivity|].
    destruct (nth_error data (Z.to_nat (i * cols + col)));
      [apply IH; exact Ho | reflexivity].
  - reflexivity.
Qed.

Lemma add_data_cache_run range cache data rows cols col o :
  data_cache range = Some cache ->
  0 <= rows -> 0 <= col < cols ->
  rows * cols <= Z.of_nat (List.length data) ->
  ~ In false (firstn (Z.to_nat rows) o) ->
  lxw_chart_add_data_cache range data rows cols col o
  = (Some {| formula := formula range; sheetname := sheetname range;
             ignore_cache := true; num_data_points := rows;
             data_cache := Some (cache ++ column data rows cols col) |},
     skipn (Z.to_nat rows) o).
Proof.
  intros Hcache Hrows Hcol Hdata Ho. unfold lxw_chart_add_data_cache, column.
  rewrite Hcache, add_data_cache_loop_run; try lia; try assumption.
  - reflexivity.
  - intros k Hk. nia.
Qed.

(** X6. When the range has a cache, the table has the entries read and
    none of the [rows] allocations fails, [lxw_chart_add_data_cache]
    appends column [col] of the table to the cache, one point for each
    row, sets [num_data_points] to [rows] and [ignore_cache], and leaves
    the formula and the sheet name as they are. *)
Theorem add_data_cache_appends_column (range : lxw_series_range)
    (cache : list lxw_series_data_point) (data : list Z)
    (rows cols col : Z) (o : alloc_oracle) :
  data_cache range = Some cache ->
  0 <= rows -> 0 <= col < cols ->
  rows * cols <= Z.of_nat (List.length data) ->
  ~ In false (firstn (Z.to_nat rows) o) ->
  lxw_chart_add_data_cache range data rows cols col o
  = (Some {| formula := formula range; sheetname := sheetname range;
             ignore_cache := true; num_data_points := rows;
             data_cache := Some (cache ++ column data rows cols col) |},
     skipn (Z.to_nat rows) o).
Proof.
  intros Hcache Hrows Hcol Hdata Ho.
  rewrite (add_data_cache_run range cache) by assumption.
  reflexivity.
Qed.

(** X7. [lxw_chart_add_data_cache] has no defined result when it is to add
    a row to a range whose cache is [NULL], or when one of its [rows]
    allocations fails: the list and the new point are used unchecked. *)
Theorem add_data_cache_undefined (range : lxw_series_range) (data : list Z)
    (rows cols col : Z) (o : alloc_oracle) :
  (data_cache range = None /\ rows <> 0)
  \/ In false (firstn (Z.to_nat rows) o) ->
  fst (lxw_chart_add_data_cache range data rows cols col o) = None.
Proof.
  unfold lxw_chart_add_data_cache. intros [[Hcache Hrows]|Ho].
  - rewrite Hcache. destruct (Z.eqb_spec rows 0); [contradiction|].
    reflexivity.
  - destruct (data_cache range) as [cache|].
    + pose proof (add_data_cache_loop_fails data cols col _ 0 cache o Ho)
        as Hloop.
      destruct (lxw_chart_add_data_cache_loop data cols col
                  (Z.to_nat rows) 0 cache o) as [[cache'|] o'];
        [discriminate | reflexivity].
    + destruct (Z.eqb_spec rows 0) as [->|_]; [destruct Ho | reflexivity].
Qed.

Lemma column_length data rows cols col :
  List.length (column data rows cols col) = Z.to_nat rows.
Proof. unfold column. rewrite length_map, length_seq. reflexivity. Qed.

(** X8. A column added to an empty cache is what [_chart_write_num_ref]
    then writes: the [c:v] elements hold the column, one [c:pt] for each
    row, and [c:ptCount] holds [rows]; for no row there is no [c:numCache]
    at all. The chart is left as it is. *)
Theorem data_cache_round_trip (range : lxw_series_range) (data : list Z)
    (rows cols col : Z) (o : alloc_oracle) (c : lxw_chart) :
  data_cache range = Some [] ->
  0 <= rows -> 0 <= col < cols ->
  rows * cols <= Z.of_nat (List.length data) ->
  ~ In false (firstn (Z.to_nat rows) o) ->
  exists range' o' out,
    lxw_chart_add_data_cache range data rows cols col o = (Some range', o')
    /\ _chart_write_num_ref range' c = Some (tt, c, out)
    /\ data_vals "c:v" out
       = map (fun p => DataG16 (number p)) (column data rows cols col)
    /\ List.length (flat_map pt_idx out) = Z.to_nat rows
    /\ int_vals "c:ptCount" out = (if rows =? 0 then [] else [rows])
    /\ count_tag "c:numCache" out = (if rows =? 0 then 0%nat else 1%nat).
Proof.
  intros Hcache Hrows Hcol Hdata Ho.
  rewrite (add_data_cache_run range [] data rows cols col o)
    by assumption.
  do 3 eexists. split; [reflexivity|].
  split; [apply num_ref_run; discriminate|].
  unfold data_vals, int_vals, count_tag.
  rewrite num_ref_values, num_ref_numbers, num_ref_count.
  unfold cached_values, cached_points, has_points. cbn [data_cache app].
  rewrite length_map, length_seq, column_length.
  split; [reflexivity|]. split; [reflexivity|].
  unfold num_ref_out, num_cache_out. cbn [data_cache app].
  pose proof (column_length data rows cols col) as Hlen.
  destruct (column data rows cols col) as [|p rest];
    cbn [List.length] in Hlen;
    destruct (Z.eqb_spec rows 0) as [->|Hne]; try lia.
  - split; reflexivity.
  - split; [reflexivity|]. read_out.
    rewrite points_quiet by reflexivity. reflexivity.
Qed.

(** ** Charts built with no failing allocation *)

Lemma no_failure_fewer n : forall o : alloc_oracle,
  ~ In false (firstn (S n) o) -> ~ In false (firstn n o).
Proof.
  induction n as [|n IH]; intros o Ho; [intros []|].
  destruct o as [|b o]; [exact Ho|].
  cbn [firstn In] in *. intros [Hb|Hin]; [tauto|].
  apply (IH o); [|exact Hin]. intros Hin'. apply Ho. right. exact Hin'.
Qed.

Lemma formula_allocation reference n o :
  ~ In false (firstn (S n) o) ->
  exists f o',
    chart_add_series_formula reference o = (f, o')
    /\ ~ In false (firstn n o').
Proof.
  intros Ho. destruct (alloc_ok n o Ho) as [E Ho'].
  unfold chart_add_series_formula, lxw_strdup.
  destruct reference as [[|first rest]|].
  - rewrite E. eauto.
  - destruct (Ascii.eqb first "="%char); rewrite E; eauto.
  - exists None, o. split; [reflexivity|]. apply no_failure_fewer, Ho.
Qed.

Lemma chart_add_series_succeeds c cats vals o r c' o' :
  ~ In false (firstn 7 o) ->
  chart_add_series c cats vals o = Some (r, c', o') ->
  exists s,
    r = Some s /\ series_defined s = true
    /\ c' = set_series_list (series_list c ++ [s]) c.
Proof.
  intros Ho. unfold chart_add_series.
  destruct (alloc_ok _ _ Ho) as [E1 Ho1]. rewrite E1. cbn [negb].
  destruct (alloc_ok _ _ Ho1) as [E2 Ho2]. rewrite E2. cbn [negb].
  destruct (alloc_ok _ _ Ho2) as [E3 Ho3]. rewrite E3. cbn [negb].
  destruct (formula_allocation cats _ _ Ho3) as (fc & o4 & -> & Ho4).
  destruct (formula_allocation vals _ _ Ho4) as (fv & o5 & -> & Ho5).
  destruct (alloc_ok _ _ Ho5) as [E6 Ho6].
  destruct (alloc_ok 0 _ Ho6) as [E7 _].
  unfold lxw_chart_init_data_cache. rewrite E6, E7.
  intros E. inversion E. subst. eexists. split; [reflexivity|].
  split; [|reflexivity]. unfold series_defined.
  cbn [categories values formula data_cache]. destruct fc; reflexivity.
Qed.

Lemma add_data_cache_keeps range data rows cols col o r o' :
  lxw_chart_add_data_cache range data rows cols col o = (Some r, o') ->
  formula r = formula range
  /\ (data_cache range <> None -> data_cache r <> None).
Proof.
  unfold lxw_chart_add_data_cache.
  destruct (data_cache range) as [cache|].
  - destruct (lxw_chart_add_data_cache_loop data cols col (Z.to_nat rows) 0
                cache o) as [[cache'|] o1]; [|discriminate].
    intros E. inversion E. split; [reflexivity | discriminate].
  - destruct (rows =? 0); [|discriminate].
    intros E. inversion E. split; [reflexivity | congruence].
Qed.

Lemma replace_nth_defined s' l : forall i,
  series_defined s' = true ->
  forallb series_defined l = true ->
  forallb series_defined (replace_nth i s' l) = true.
Proof.
  induction l as [|s l IH]; intros i Hs' Hl; [destruct i; reflexivity|].
  cbn [forallb] in Hl. apply andb_true_iff in Hl as [Hs Hl].
  destruct i as [|i]; cbn [replace_nth forallb].
  - rewrite Hs', Hl. reflexivity.
  - rewrite Hs, (IH i Hs' Hl). reflexivity.
Qed.

Lemma series_list_set l c : series_list (set_series_list l c) = l.
Proof. destruct c. reflexivity. Qed.

Lemma built_defined c : built c -> chart_defined c.
Proof.
  induction 1 as
    [t o c o' Hnew
    |c n _ IH
    |c cats vals o r c' o' _ IH Ho Hadd
    |c i s data rows cols col o r o' _ IH Hnth Hcache
    |c i s data rows cols col o r o' _ IH Hnth Hcache
    |c c' out _ IH Hrun]; unfold chart_defined in *.
  - unfold lxw_chart_new in Hnew.
    destruct (alloc o) as [[] o1]; [|discriminate].
    destruct (alloc o1) as [[] o2]; [|discriminate].
    inversion Hnew. reflexivity.
  - destruct c. exact IH.
  - destruct (chart_add_series_succeeds _ _ _ _ _ _ _ Ho Hadd)
      as (s & _ & Hs & ->).
    rewrite series_list_set, forallb_app, IH. cbn [forallb].
    rewrite Hs. reflexivity.
  - rewrite series_list_set. apply replace_nth_defined; [|exact IH].
    assert (Hs : series_defined s = true).
    { rewrite forallb_forall in IH. apply IH.
      apply nth_error_In with i. exact Hnth. }
    destruct (add_data_cache_keeps _ _ _ _ _ _ _ _ Hcache) as [Hf Hc].
    revert Hs. unfold series_defined. cbn [categories values].
    rewrite Hf.
    destruct (data_cache (values s)); [|discriminate].
    destruct (formula (categories s)); [|reflexivity].
    destruct (data_cache (categories s)); [|discriminate].
    destruct (data_cache r); [reflexivity|].
    exfalso. apply Hc; [discriminate | reflexivity].
  - rewrite series_list_set. apply replace_nth_defined; [|exact IH].
    assert (Hs : series_defined s = true).
    { rewrite forallb_forall in IH. apply IH.
      apply nth_error_In with i. exact Hnth. }
    destruct (add_data_cache_keeps _ _ _ _ _ _ _ _ Hcache) as [Hf Hc].
    revert Hs. unfold series_defined. cbn [categories values].
    destruct (data_cache (values s)); [|discriminate].
    destruct (data_cache r); [tauto|].
    exfalso. apply Hc; [discriminate | reflexivity].
  - destruct (assemble_inv _ _ _ _ Hrun) as (-> & _ & _).
    apply chart_after_defined. exact IH.
Qed.

(** X9. A chart made by [lxw_chart_new], numbered, given series by calls
    of [chart_add_series] in which no allocation fails, its caches filled
    by [lxw_chart_add_data_cache] and serialized, in any order and any
    number of times, can be serialized again: the serializer reads through
    no [NULL] cache, and the result has matching tags. *)
Theorem built_serializable (c : lxw_chart) :
  built c ->
  exists c' out,
    lxw_chart_assemble_xml_file c = Some (tt, c', out)
    /\ built c' /\ balanced [] out = true.
Proof.
  intros Hc. exists (chart_after c), (assemble_out c).
  pose proof (assemble_run c (built_defined c Hc)) as Hrun.
  split; [exact Hrun|].
  split; [exact (built_assemble c _ _ Hc Hrun)|].
  apply assemble_out_balanced.
Qed.

(** ** Markers, axis positions and number formats *)

Lemma overrides_has_markers c :
  (has_markers c = true -> is_line (type c) = true) ->
  has_markers (overrides c) = is_line (type c).
Proof.
  intros I3.
  destruct chart_types_neq as (_&_&_&_&_&_&_&_&_& Na & Nb & Nc & _).
  assert (Hmk : is_line (type c) = false -> has_markers c = false).
  { intros El. destruct (has_markers c); [|reflexivity].
    rewrite I3 in El by reflexivity. discriminate. }
  destruct (overrides_cases c) as
    [[E ->]|[[E ->]|[[E ->]|[[E ->]|[E ->]]]]].
  - destruct (area_overrides_fields (type c) c) as (_ & -> & _).
    destruct (Na _ E) as (_ & _ & El). rewrite El. apply Hmk, El.
  - destruct (bar_overrides_fields (type c) c) as (_ & -> & _).
    destruct (Nb _ E) as (_ & _ & El). rewrite El. apply Hmk, El.
  - destruct (column_overrides_fields (type c) c) as (_ & -> & _).
    destruct (Nc _ E) as (_ & _ & El). rewrite El. apply Hmk, El.
  - rewrite E. reflexivity.
  - unfold recognized in E. apply orb_false_iff in E as [_ El].
    rewrite El. apply Hmk, El.
Qed.

Lemma ser_marker_elements s :
  flat_map (element "c:marker") (ser_out true 0 s)
  = [StartTag "c:marker" []].
Proof.
  unfold ser_out, marker_out. read_out.
  rewrite cat_quiet, num_ref_quiet by (intros; reflexivity). reflexivity.
Qed.

Lemma length_flat_map_singletons {A B : Type} (g : A -> list B) (x : B) l :
  (forall a, g a = [x]) -> List.length (flat_map g l) = List.length l.
Proof.
  intros Hg. induction l as [|a l IH]; [reflexivity|].
  cbn [flat_map]. rewrite Hg. cbn [app List.length]. rewrite IH.
  reflexivity.
Qed.

(** X10. Of the charts a client can build only those of type Line have
    markers: the output of a Line chart has one [c:marker] element in each
    series and one after the series, the output of any other chart has
    none, and after a serialization [has_markers] tells whether the type
    is Line. *)
Theorem markers_only_for_line (c c' : lxw_chart) (u : unit)
    (out : list output) :
  reachable c ->
  lxw_chart_assemble_xml_file c = Some (u, c', out) ->
  count_tag "c:marker" out
  = (if is_line (type c) then S (List.length (series_list c)) else 0%nat)
  /\ has_markers c' = is_line (type c).
Proof.
  intros Hreach Hrun.
  destruct (reachable_invariant c Hreach) as (_ & _ & I3 & _).
  pose proof (overrides_has_markers c I3) as Hm.
  apply assemble_inv in Hrun as (-> & -> & _).
  destruct chart_types_neq as (_&_&_&_&_&_&_&_&_& Na & Nb & Nc & _).
  destruct (recognized (type c)) eqn:Hr.
  - split.
    + unfold count_tag.
      by_parts c Hr; rewrite Hm;
        try (destruct (Na _ Hfam) as (_ & _ & ->));
        try (destruct (Nb _ Hfam) as (_ & _ & ->));
        try (destruct (Nc _ Hfam) as (_ & _ & ->));
        rewrite ?Hfam, ?no_marker_in_sers;
        destruct (has_overlap (overrides c)),
          (cat_has_num_fmt (chart_after c));
        try reflexivity;
        rewrite sers_by_series by reflexivity;
        read_out; rewrite !length_app;
        rewrite (length_flat_map_singletons _ _ _ ser_marker_elements);
        cbn [List.length]; lia.
    + unfold chart_after. rewrite Hr, written_has_markers. exact Hm.
  - assert (Ho : overrides c = c).
    { destruct (overrides_cases c) as
        [[E _]|[[E _]|[[E _]|[[E _]|[_ Ho]]]]]; [..|exact Ho];
        unfold recognized in Hr; rewrite E, ?orb_true_r in Hr;
        discriminate. }
    rewrite Ho in Hm. split.
    + unfold count_tag. rewrite assemble_reading.
      rewrite (chart_type_out_unrecognized c Hr).
      assert (El : is_line (type c) = false).
      { unfold recognized in Hr. apply orb_false_iff in Hr as [_ El].
        exact El. }
      rewrite El. unfold cat_axis_out.
      destruct (cat_has_num_fmt _); reflexivity.
    + unfold chart_after. rewrite Hr. exact Hm.
Qed.

Lemma chart_after_bar_positions c :
  is_bar (type c) = true ->
  cat_axis_position (chart_after c) = "l"
  /\ val_axis_position (chart_after c) = "b".
Proof.
  intros Eb. destruct (overrides_bar c Eb) as [Hr Ho].
  unfold chart_after.
  rewrite Hr, Ho, written_cat_axis_position, written_val_axis_position.
  destruct (bar_overrides_fields (type c) c) as (_ & _ & _ & -> & ->).
  split; reflexivity.
Qed.

(** X11. In the output of every chart a client can build the category
    axis is at the bottom and the value axis on the left, except for the
    Bar types, where the category axis is on the left and the value axis
    at the bottom; [c:barDir] is "bar" for the Bar types, "col" for the
    Column types, and absent otherwise. *)
Theorem axis_positions_by_family (c c' : lxw_chart) (u : unit)
    (out : list output) :
  reachable c ->
  lxw_chart_assemble_xml_file c = Some (u, c', out) ->
  str_vals "c:axPos" out
  = (if is_bar (type c) then ["l"; "b"] else ["b"; "l"])
  /\ str_vals "c:barDir" out
     = (if is_bar (type c) then ["bar"]
        else if is_column (type c) then ["col"] else []).
Proof.
  intros Hreach Hrun.
  pose proof (reachable_invariant c Hreach) as I.
  destruct (chart_after_keeps c I) as (_ & _ & _ & K4).
  apply assemble_inv in Hrun as (_ & -> & _).
  destruct chart_types_neq as (_&_&_&_&_&_&_&_&_& Na & Nb & Nc & Nl).
  assert (Hpos : cat_axis_position (chart_after c)
                 = (if is_bar (type c) then "l" else "b")
                 /\ val_axis_position (chart_after c)
                    = (if is_bar (type c) then "b" else "l")).
  { destruct (is_bar (type c)) eqn:Eb.
    - apply chart_after_bar_positions, Eb.
    - apply K4. reflexivity. }
  destruct Hpos as [Hcat Hval].
  unfold str_vals.
  destruct (recognized (type c)) eqn:Hr.
  - split.
    + by_parts c Hr;
        rewrite sers_quiet by (intros; reflexivity);
        rewrite Hcat, Hval;
        try (destruct (Na _ Hfam) as (-> & _ & _));
        try (destruct (Nc _ Hfam) as (_ & -> & _));
        try (destruct (Nl _ Hfam) as (_ & -> & _));
        rewrite ?Hfam;
        destruct (has_overlap (overrides c)),
          (cat_has_num_fmt (chart_after c));
        reflexivity.
    + by_parts c Hr;
        rewrite sers_quiet by (intros; reflexivity);
        try (destruct (Na _ Hfam) as (-> & -> & _));
        try (destruct (Nc _ Hfam) as (_ & -> & _));
        try (destruct (Nl _ Hfam) as (_ & -> & ->));
        rewrite ?Hfam;
        destruct (has_overlap (overrides c)),
          (cat_has_num_fmt (chart_after c));
        reflexivity.
  - assert (E : is_bar (type c) = false /\ is_column (type c) = false).
    { unfold recognized in Hr. apply orb_false_iff in Hr as [Hr _].
      apply orb_false_iff in Hr as [Hr Ec].
      apply orb_false_iff in Hr as [_ Eb]. auto. }
    destruct E as [Eb Ec]. rewrite Eb, Ec in *.
    rewrite !assemble_reading, (chart_type_out_unrecognized c Hr).
    unfold cat_axis_out, val_axis_out. rewrite Hcat, Hval.
    destruct (cat_has_num_fmt (chart_after c)); split; reflexivity.
Qed.

Lemma chart_after_cat_has_num_fmt c :
  cat_has_num_fmt (chart_after c)
  = cat_has_num_fmt c
    || (recognized (type c) && existsb has_categories (series_list c)).
Proof.
  unfold chart_after. destruct (recognized (type c)) eqn:Hr.
  - cbn [andb]. rewrite <- (overrides_series_list c).
    assert (Ho : cat_has_num_fmt (overrides c) = cat_has_num_fmt c)
      by by_overrides.
    rewrite <- Ho. generalize (overrides c). intros c1.
    unfold written, axis_ids_after, series_after. destruct c1. fields.
    by_cases; cbn [existsb]; rewrite ?orb_false_r; reflexivity.
  - cbn [andb]. rewrite orb_false_r. reflexivity.
Qed.

(** X12. The value axis always has a [c:numFmt] element; the category
    axis has one exactly when the flag [cat_has_num_fmt] was already set
    or the chart is of a recognized type and one of its series has a
    categories formula. The flag is left set, so that it also holds for
    the serializations that follow. *)
Theorem category_axis_number_format (c c' : lxw_chart) (u : unit)
    (out : list output) :
  lxw_chart_assemble_xml_file c = Some (u, c', out) ->
  cat_has_num_fmt c'
  = cat_has_num_fmt c
    || (recognized (type c) && existsb has_categories (series_list c))
  /\ count_tag "c:numFmt" out = (if cat_has_num_fmt c' then 2 else 1)%nat.
Proof.
  intros Hrun. apply assemble_inv in Hrun as (-> & -> & _).
  split; [apply chart_after_cat_has_num_fmt|].
  unfold count_tag. destruct (recognized (type c)) eqn:Hr.
  - by_parts c Hr;
      rewrite sers_quiet by (intros; reflexivity);
      destruct (has_overlap (overrides c)),
        (cat_has_num_fmt (chart_after c));
      reflexivity.
  - rewrite assemble_reading, (chart_type_out_unrecognized c Hr).
    unfold cat_axis_out, val_axis_out.
    destruct (cat_has_num_fmt (chart_after c)); reflexivity.
Qed.

(** ** The grouping of each chart type *)

Lemma bar_overrides_grouping t c :
  grouping (bar_overrides t c)
  = (if t =? LXW_CHART_BAR_STACKED_PERCENT then "percentStacked"
     else if t =? LXW_CHART_BAR_STACKED then "stacked" else grouping c)
  /\ default_num_format (y_axis (bar_overrides t c))
     = (if t =? LXW_CHART_BAR_STACKED_PERCENT then "0%"
        else default_num_format (y_axis c)).
Proof. by_tests. Qed.

Lemma column_overrides_grouping t c :
  grouping (column_overrides t c)
  = (if t =? LXW_CHART_COLUMN_STACKED_PERCENT then "percentStacked"
     else if t =? LXW_CHART_COLUMN_STACKED then "stacked" else grouping c)
  /\ default_num_format (y_axis (column_overrides t c))
     = (if t =? LXW_CHART_COLUMN_STACKED_PERCENT then "0%"
        else default_num_format (y_axis c)).
Proof. by_tests. Qed.

(** The grouping the overrides leave for a chart whose grouping is still
    the "clustered" of [lxw_chart_new] when its type is plain Bar or
    Column. *)
Lemma overrides_grouping c :
  (type c = LXW_CHART_BAR \/ type c = LXW_CHART_COLUMN ->
   grouping c = "clustered") ->
  recognized (type c) = true ->
  grouping (overrides c)
  = (if is_area (type c) then
       if type c =? LXW_CHART_AREA_STACKED_PERCENT then "percentStacked"
       else if type c =? LXW_CHART_AREA_STACKED then "stacked"
       else "standard"
     else if is_bar (type c) then
       if type c =? LXW_CHART_BAR_STACKED_PERCENT then "percentStacked"
       else if type c =? LXW_CHART_BAR_STACKED then "stacked"
       else "clustered"
     else if is_column (type c) then
       if type c =? LXW_CHART_COLUMN_STACKED_PERCENT then "percentStacked"
       else if type c =? LXW_CHART_COLUMN_STACKED then "stacked"
       else "clustered"
     else "standard").
Proof.
  intros J Hr.
  destruct chart_types_neq as (_&_&_&_&_&_&_&_&_& Na & Nb & Nc & Nl).
  destruct (overrides_cases c) as
    [[E ->]|[[E ->]|[[E ->]|[[E ->]|[E _]]]]]; [| | | |congruence].
  - rewrite E. apply area_overrides_grouping.
  - destruct (Nb _ E) as (-> & _ & _). rewrite E.
    destruct (bar_overrides_grouping (type c) c) as [-> _].
    unfold is_bar in E.
    destruct (type c =? LXW_CHART_BAR_STACKED_PERCENT); [reflexivity|].
    destruct (type c =? LXW_CHART_BAR_STACKED); [reflexivity|].
    rewrite !orb_false_r in E. apply Z.eqb_eq in E. auto.
  - destruct (Nc _ E) as (-> & -> & _). rewrite E.
    destruct (column_overrides_grouping (type c) c) as [-> _].
    unfold is_column in E.
    destruct (type c =? LXW_CHART_COLUMN_STACKED_PERCENT); [reflexivity|].
    destruct (type c =? LXW_CHART_COLUMN_STACKED); [reflexivity|].
    rewrite !orb_false_r in E. apply Z.eqb_eq in E. auto.
  - destruct (Nl _ E) as (-> & -> & ->). reflexivity.
Qed.

Lemma chart_after_grouping c :
  (type c = LXW_CHART_BAR \/ type c = LXW_CHART_COLUMN ->
   grouping c = "clustered") ->
  type c = LXW_CHART_BAR \/ type c = LXW_CHART_COLUMN ->
  grouping (chart_after c) = "clustered".
Proof.
  intros J Ht. unfold chart_after.
  assert (Hr : recognized (type c) = true).
  { unfold recognized, is_bar, is_column.
    destruct Ht as [-> | ->]; rewrite Z.eqb_refl, ?orb_true_r; reflexivity. }
  rewrite Hr, written_grouping, (overrides_grouping c J Hr).
  destruct chart_types_neq as (B1 & B2 & B3 & B4 & B5 & B6 & B7 & B8 & B9
                               & Na & Nb & Nc & Nl).
  destruct Ht as [Ht|Ht]; rewrite Ht.
  - assert (Eb : is_bar LXW_CHART_BAR = true)
      by (unfold is_bar; rewrite Z.eqb_refl; reflexivity).
    destruct (Nb _ Eb) as (-> & _ & _). rewrite Eb.
    destruct (Z.eqb_spec LXW_CHART_BAR LXW_CHART_BAR_STACKED_PERCENT);
      [contradiction|].
    destruct (Z.eqb_spec LXW_CHART_BAR LXW_CHART_BAR_STACKED);
      [contradiction | reflexivity].
  - assert (Ec : is_column LXW_CHART_COLUMN = true)
      by (unfold is_column; rewrite Z.eqb_refl; reflexivity).
    destruct (Nc _ Ec) as (-> & -> & _). rewrite Ec.
    destruct (Z.eqb_spec LXW_CHART_COLUMN LXW_CHART_COLUMN_STACKED_PERCENT);
      [contradiction|].
    destruct (Z.eqb_spec LXW_CHART_COLUMN LXW_CHART_COLUMN_STACKED);
      [contradiction | reflexivity].
Qed.

Lemma reachable_grouping c :
  reachable c ->
  type c = LXW_CHART_BAR \/ type c = LXW_CHART_COLUMN ->
  grouping c = "clustered".
Proof.
  induction 1 as
    [t o c o' Hnew
    |c n _ IH
    |c cats vals o r c' o' _ IH Hadd
    |c i s data rows cols col o r o' _ IH _ _
    |c i s data rows cols col o r o' _ IH _ _
    |c c' out _ IH Hrun].
  - unfold lxw_chart_new in Hnew.
    destruct (alloc o) as [[] o1]; [|discriminate].
    destruct (alloc o1) as [[] o2]; [|discriminate].
    inversion Hnew. reflexivity.
  - destruct c. exact IH.
  - destruct (chart_add_series_frame _ _ _ _ _ _ _ Hadd) as [->|[l ->]];
      [exact IH | destruct c; exact IH].
  - destruct c. exact IH.
  - destruct c. exact IH.
  - destruct (assemble_inv _ _ _ _ Hrun) as (-> & _ & _).
    rewrite chart_after_type. apply chart_after_grouping, IH.
Qed.

(** X13. The output of every chart of recognized type a client can build
    has one [c:grouping] element: "percentStacked" for the three
    percent-stacked types, "stacked" for the three stacked types,
    "standard" for Area and Line and "clustered" for Bar and Column. The
    chart keeps that grouping. *)
Theorem grouping_by_type (c c' : lxw_chart) (u : unit) (out : list output) :
  reachable c ->
  recognized (type c) = true ->
  lxw_chart_assemble_xml_file c = Some (u, c', out) ->
  str_vals "c:grouping" out = [grouping c']
  /\ grouping c'
     = (if is_area (type c) then
          if type c =? LXW_CHART_AREA_STACKED_PERCENT then "percentStacked"
          else if type c =? LXW_CHART_AREA_STACKED then "stacked"
          else "standard"
        else if is_bar (type c) then
          if type c =? LXW_CHART_BAR_STACKED_PERCENT then "percentStacked"
          else if type c =? LXW_CHART_BAR_STACKED then "stacked"
          else "clustered"
        else if is_column (type c) then
          if type c =? LXW_CHART_COLUMN_STACKED_PERCENT
          then "percentStacked"
          else if type c =? LXW_CHART_COLUMN_STACKED then "stacked"
          else "clustered"
        else "standard").
Proof.
  intros Hreach Hr Hrun.
  pose proof (reachable_grouping c Hreach) as J.
  apply assemble_inv in Hrun as (-> & -> & _).
  assert (Hg : grouping (chart_after c) = grouping (overrides c)).
  { unfold chart_after. rewrite Hr. apply written_grouping. }
  split; [|rewrite Hg; apply (overrides_grouping c J Hr)].
  rewrite Hg. unfold str_vals.
  by_parts c Hr;
    rewrite sers_quiet by (intros; reflexivity);
    destruct (has_overlap (overrides c)), (cat_has_num_fmt (chart_after c));
    reflexivity.
Qed.

(** ** A series whose cache could not be allocated *)

Lemma type_set_series_list l c : type (set_series_list l c) = type c.
Proof. destruct c. reflexivity. Qed.

(** X14. When the allocation of the values cache is the one that fails,
    [chart_add_series] still returns the series and appends it to the
    list, its values cache [NULL]; the serialization of the chart, if of
    a recognized type, then has no defined result. *)
Theorem chart_add_series_unchecked_cache (c : lxw_chart) (cats vals : string)
    (o : alloc_oracle) :
  ~ In false (firstn 6 o) ->
  nth 6 o true = false ->
  exists s c' o',
    chart_add_series c (Some cats) (Some vals) o
    = Some (Some s, c', o')
    /\ series_list c' = series_list c ++ [s]
    /\ data_cache (categories s) = Some []
    /\ data_cache (values s) = None
    /\ (recognized (type c) = true ->
        lxw_chart_assemble_xml_file c' = None).
Proof.
  intros Ho H6.
  destruct o as [|b0 [|b1 [|b2 [|b3 [|b4 [|b5 [|b6 o]]]]]]];
    try discriminate H6.
  cbn [nth] in H6. subst b6. cbn [firstn In] in Ho.
  destruct b0; [|exfalso; tauto]. destruct b1; [|exfalso; tauto].
  destruct b2; [|exfalso; tauto]. destruct b3; [|exfalso; tauto].
  destruct b4; [|exfalso; tauto]. destruct b5; [|exfalso; tauto].
  unfold chart_add_series, chart_add_series_formula, lxw_strdup,
    lxw_chart_init_data_cache.
  assert (Hnone : forall s l,
            data_cache (values s) = None ->
            recognized (type c) = true ->
            lxw_chart_assemble_xml_file
              (set_series_list (l ++ [s]) c) = None).
  { intros s l Hs Hr. apply assemble_undefined.
    - rewrite type_set_series_list. exact Hr.
    - rewrite series_list_set, forallb_app. cbn [forallb].
      unfold series_defined at 2. rewrite Hs. apply andb_false_r. }
  destruct cats as [|a r], vals as [|a' r'];
    try destruct (Ascii.eqb a "="%char);
    try destruct (Ascii.eqb a' "="%char);
    cbn [alloc negb];
    do 3 eexists; (split; [reflexivity|]);
    rewrite series_list_set;
    (split; [reflexivity|]); (split; [reflexivity|]);
    (split; [reflexivity|]); apply Hnone; reflexivity.
Qed.

(** ** Filling a cache twice *)

Lemma no_failure_firstn n (o : alloc_oracle) :
  ~ In false o -> ~ In false (firstn n o).
Proof.
  intros Ho Hin. apply Ho. rewrite <- (firstn_skipn n o).
  apply in_or_app. left. exact Hin.
Qed.

Lemma no_failure_skipn n (o : alloc_oracle) :
  ~ In false o -> ~ In false (skipn n o).
Proof.
  intros Ho Hin. apply Ho. rewrite <- (firstn_skipn n o).
  apply in_or_app. right. exact Hin.
Qed.


End ChartFacts.

(** ** Concrete runs

    Charts built with [lxw_chart_new] and [chart_add_series] under the
    header [chart_h_numbered], no allocation failing. *)

(** C1 fails for a chart of unrecognized type: its axis ids are unset, the
    serialization leaves them unset and emits 0 for both. *)
Lemma axis_ids_unrecognized_counterexample :
  exists c c' out,
    lxw_chart_new 0 [] = (Some c, [])
    /\ axis_id_1 c = 0 /\ axis_id_2 c = 0
    /\ lxw_chart_assemble_xml_file c = Some (tt, c', out)
    /\ axis_id_1 c' <> 50010000 + id c + 1
    /\ axis_id_1 c' = 0 /\ axis_id_2 c' = 0
    /\ int_vals "c:axId" out = [0; 0].
Proof.
  do 3 eexists. split; [reflexivity|].
  split; [reflexivity|]. split; [reflexivity|].
  split; [vm_compute; reflexivity|].
  split; [cbn; discriminate|].
  split; [reflexivity|]. split; [reflexivity|].
  vm_compute. reflexivity.
Qed.

Lemma axis_ids_allocated_once_witness :
  exists c0 s c,
    lxw_chart_new 10 [] = (Some c0, [])
    /\ chart_add_series c0 (Some "=Sheet1!$A$1:$A$5")
         (Some "=Sheet1!$B$1:$B$5") [] = Some (Some s, c, [])
    /\ recognized (type c) = true /\ chart_defined c /\ axis_id_1 c = 0
    /\ exists a1 a2 c' outs,
         a1 = 50010001 /\ a2 = 50010002
         /\ assemble_times 3 c = Some (c', outs)
         /\ List.length outs = 3%nat
         /\ axis_id_1 c' = a1 /\ axis_id_2 c' = a2
         /\ Forall (fun out => int_vals "c:axId" out = [a1; a2; a1; a2]
                               /\ int_vals "c:crossAx" out = [a2; a1]) outs.
Proof.
  do 3 eexists. split; [reflexivity|]. split; [reflexivity|].
  match goal with
  | |- ?R /\ ?D /\ ?A /\ _ =>
      assert (Hr : R) by (vm_compute; reflexivity);
      assert (Hd : D) by (vm_compute; reflexivity);
      assert (Ha : A) by reflexivity
  end.
  split; [exact Hr|]. split; [exact Hd|]. split; [exact Ha|].
  destruct (axis_ids_allocated_once _ 2 Hr Hd Ha)
    as (a1 & a2 & c' & outs & E1 & E2 & _ & Hrest).
  exists a1, a2, c', outs.
  split; [rewrite E1; reflexivity|].
  split; [rewrite E2, E1; reflexivity|].
  exact Hrest.
Defined.

(** Take the hypotheses of a goal [H1 /\ ... /\ Hn /\ _] one at a time,
    each proved by computation, and keep them. *)
Ltac by_computation H :=
  match goal with
  | |- ?P /\ _ =>
      assert (H : P) by (vm_compute; reflexivity); split; [exact H|]
  end.

(** Run the left-hand side of the first equation of the goal, name its
    result and keep the equation. *)
Ltac keep H :=
  match goal with
  | |- ?lhs = ?rhs /\ _ =>
      let v := eval vm_compute in lhs in
      unify rhs v;
      assert (H : lhs = rhs) by (vm_compute; reflexivity);
      split; [exact H|]
  end.



(** C3 fails on the second serialization of a chart with one series: the
    first pass emits idx = order = 0 for it, the second idx = order = 1. *)
Lemma second_pass_idx_counterexample :
  exists c0 s c c1 out1 c2 out2,
    lxw_chart_new 10 [] = (Some c0, [])
    /\ chart_add_series c0 (Some "=Sheet1!$A$1:$A$5")
         (Some "=Sheet1!$B$1:$B$5") [] = Some (Some s, c, [])
    /\ lxw_chart_assemble_xml_file c = Some (tt, c1, out1)
    /\ lxw_chart_assemble_xml_file c1 = Some (tt, c2, out2)
    /\ int_vals "c:idx" out1 = [0] /\ int_vals "c:order" out1 = [0]
    /\ int_vals "c:idx" out2 = [1] /\ int_vals "c:order" out2 = [1]
    /\ int_vals "c:idx" out2 <> [0].
Proof.
  do 7 eexists. split; [reflexivity|]. split; [reflexivity|].
  split; [vm_compute; reflexivity|]. split; [vm_compute; reflexivity|].
  repeat split; try (vm_compute; reflexivity). vm_compute. discriminate.
Qed.

Lemma series_idx_order_from_counter_witness :
  exists c0 s1 c1 s2 c,
    lxw_chart_new 7 [] = (Some c0, [])
    /\ chart_add_series c0 (Some "=Sheet1!$A$1:$A$5")
         (Some "=Sheet1!$B$1:$B$5") [] = Some (Some s1, c1, [])
    /\ chart_add_series c1 None (Some "Sheet1!$C$1:$C$5") []
       = Some (Some s2, c, [])
    /\ recognized (type c) = true /\ chart_defined c
    /\ exists c' out,
         lxw_chart_assemble_xml_file c = Some (tt, c', out)
         /\ int_vals "c:idx" out = [0; 1]
         /\ int_vals "c:order" out = [0; 1]
         /\ uint16 (series_index c') = 2.
Proof.
  do 5 eexists. split; [reflexivity|]. split; [reflexivity|].
  split; [reflexivity|].
  by_computation Hr. by_computation Hd.
  destruct (series_idx_order_from_counter _ Hr Hd)
    as (c' & out & Hrun & Hidx & Hord & Hk & _).
  exists c', out. split; [exact Hrun|].
  split; [rewrite Hidx; reflexivity|].
  split; [rewrite Hord, Hidx; reflexivity|].
  rewrite Hk. reflexivity.
Defined.

(** C4 fails on a stacked Area chart: its grouping is set to "stacked", not
    "standard", and the y-axis default number format stays "General". *)
Lemma area_stacked_counterexample :
  exists c c' out,
    lxw_chart_new LXW_CHART_AREA_STACKED [] = (Some c, [])
    /\ lxw_chart_assemble_xml_file c = Some (tt, c', out)
    /\ default_num_format (y_axis c') = "General"
    /\ default_num_format (y_axis c') <> "0%"
    /\ grouping c' = "stacked"
    /\ grouping c' <> "standard".
Proof.
  do 3 eexists. split; [reflexivity|].
  split; [vm_compute; reflexivity|].
  repeat split; try reflexivity; discriminate.
Qed.

Lemma area_chart_overrides_by_variant_witness :
  exists c0 s c,
    lxw_chart_new LXW_CHART_AREA_STACKED_PERCENT [] = (Some c0, [])
    /\ chart_add_series c0 (Some "=Sheet1!$A$1:$A$5")
         (Some "=Sheet1!$B$1:$B$5") [] = Some (Some s, c, [])
    /\ reachable c /\ chart_defined c /\ is_area (type c) = true
    /\ exists c' out,
         lxw_chart_assemble_xml_file c = Some (tt, c', out)
         /\ cross_between c' = "midCat"
         /\ cat_axis_position c' = "b" /\ val_axis_position c' = "l"
         /\ count_tag "c:overlap" out = 0%nat
         /\ count_tag "c:marker" out = 0%nat
         /\ grouping c' = "percentStacked"
         /\ default_num_format (y_axis c') = "0%".
Proof.
  do 3 eexists. keep Hnew. keep Hadd.
  pose proof (reach_add_series _ _ _ _ _ _ _ (reach_new _ _ _ _ Hnew) Hadd)
    as Hreach.
  split; [exact Hreach|].
  by_computation Hd. by_computation Ha.
  destruct (area_chart_overrides_by_variant _ Hreach Hd Ha)
    as (c' & out & Hrun & H1 & H2 & H3 & _ & _ & H4 & H5 & H6 & H7).
  exists c', out. repeat split; assumption.
Defined.

Lemma bar_stacked_percent_and_line_overrides_witness :
  (exists c,
     lxw_chart_new LXW_CHART_BAR_STACKED_PERCENT [] = (Some c, [])
     /\ chart_defined c /\ type c = LXW_CHART_BAR_STACKED_PERCENT
     /\ exists c' out,
          lxw_chart_assemble_xml_file c = Some (tt, c', out)
          /\ grouping c' = "percentStacked"
          /\ has_overlap c' = true
          /\ default_num_format (y_axis c') = "0%")
  /\ (exists c,
        lxw_chart_new LXW_CHART_LINE [] = (Some c, [])
        /\ chart_defined c /\ type c = LXW_CHART_LINE
        /\ exists c' out,
             lxw_chart_assemble_xml_file c = Some (tt, c', out)
             /\ has_markers c' = true
             /\ grouping c' = "standard").
Proof.
  split; eexists; (split; [reflexivity|]); by_computation Hd;
    by_computation Ht.
  - exact (proj1 (bar_stacked_percent_and_line_overrides _ Hd) Ht).
  - exact (proj2 (bar_stacked_percent_and_line_overrides _ Hd) Ht).
Defined.

Lemma unrecognized_type_degraded_output_witness :
  exists c0 s c,
    lxw_chart_new 200 [] = (Some c0, [])
    /\ chart_add_series c0 (Some "=Sheet1!$A$1:$A$5")
         (Some "=Sheet1!$B$1:$B$5") [] = Some (Some s, c, [])
    /\ recognized (type c) = false
    /\ exists out,
         lxw_chart_assemble_xml_file c = Some (tt, c, out)
         /\ filter is_warning out
            = [Warn "workbook_add_chart(): unhandled chart type '%d'" 200]
         /\ balanced [] out = true
         /\ count_tag "c:ser" out = 0%nat.
Proof.
  do 3 eexists. split; [reflexivity|]. split; [reflexivity|].
  by_computation Hr.
  destruct (unrecognized_type_degraded_output _ Hr)
    as (out & Hrun & _ & Hw & Hb & _ & _ & _ & _ & Hs).
  exists out. auto.
Defined.

Lemma overlap_element_is_100_witness :
  exists c0 s c,
    lxw_chart_new LXW_CHART_COLUMN_STACKED [] = (Some c0, [])
    /\ chart_add_series c0 (Some "=Sheet1!$A$1:$A$5")
         (Some "=Sheet1!$B$1:$B$5") [] = Some (Some s, c, [])
    /\ reachable c /\ chart_defined c
    /\ exists c' out,
         lxw_chart_assemble_xml_file c = Some (tt, c', out)
         /\ has_overlap c' = true
         /\ flat_map (element "c:overlap") out
            = [EmptyTag "c:overlap" (val_int 100)]
         /\ count_tag "c:overlap" out = 1%nat.
Proof.
  do 3 eexists. keep Hnew. keep Hadd.
  pose proof (reach_add_series _ _ _ _ _ _ _ (reach_new _ _ _ _ Hnew) Hadd)
    as Hreach.
  split; [exact Hreach|].
  by_computation Hd.
  destruct (overlap_element_is_100 _ Hreach Hd)
    as (c' & out & Hrun & _ & _ & Ho & Ht & Hall & Hn).
  assert (Ho' : has_overlap c' = true) by (rewrite Ho; reflexivity).
  rewrite Ho' in Ht, Hn. rewrite <- Hall in Ht.
  exists c', out. auto.
Defined.

(** ** Concrete runs with filled caches *)

Lemma assemble_balanced_witness :
  exists c0 s c c' out,
    lxw_chart_new 10 [] = (Some c0, [])
    /\ chart_add_series c0 (Some "=Sheet1!$A$1:$A$5")
         (Some "=Sheet1!$B$1:$B$5") [] = Some (Some s, c, [])
    /\ lxw_chart_assemble_xml_file c = Some (tt, c', out)
    /\ balanced [] out = true.
Proof.
  do 5 eexists. keep Hnew. keep Hadd. keep Hrun.
  exact (assemble_balanced _ _ _ _ Hrun).
Defined.

Lemma series_written_witness :
  exists c0 s1 c1 s2 c c' out,
    lxw_chart_new 7 [] = (Some c0, [])
    /\ chart_add_series c0 (Some "=Sheet1!$A$1:$A$5")
         (Some "=Sheet1!$B$1:$B$5") [] = Some (Some s1, c1, [])
    /\ chart_add_series c1 None (Some "Sheet1!$C$1:$C$5") []
       = Some (Some s2, c, [])
    /\ recognized (type c) = true
    /\ lxw_chart_assemble_xml_file c = Some (tt, c', out)
    /\ count_tag "c:ser" out = 2%nat
    /\ data_vals "c:f" out
       = [DataStr (Some "Sheet1!$A$1:$A$5");
          DataStr (Some "Sheet1!$B$1:$B$5");
          DataStr (Some "Sheet1!$C$1:$C$5")].
Proof.
  do 7 eexists. keep Hnew. keep Hadd1. keep Hadd2. by_computation Hr.
  keep Hrun.
  destruct (series_written _ _ _ _ Hr Hrun) as [Hn Hf].
  split; [rewrite Hn | rewrite Hf]; reflexivity.
Defined.

Lemma cached_values_written_witness :
  exists c0 s c1 r c c' out,
    lxw_chart_new 4 [] = (Some c0, [])
    /\ chart_add_series c0 None (Some "=Sheet1!$B$1:$B$3") []
       = Some (Some s, c1, [])
    /\ lxw_chart_add_data_cache (values s) [1; 10; 2; 20; 3; 30] 3 2 1 []
       = (Some r, [])
    /\ c = set_series_list
             (replace_nth 0 {| categories := categories s; values := r |}
                (series_list c1)) c1
    /\ recognized (type c) = true
    /\ lxw_chart_assemble_xml_file c = Some (tt, c', out)
    /\ data_vals "c:v" out
       = [DataG16 (double_of_uint8 10); DataG16 (double_of_uint8 20);
          DataG16 (double_of_uint8 30)].
Proof.
  do 7 eexists. keep Hnew. keep Hadd. keep Hcache.
  split; [reflexivity|]. by_computation Hr. keep Hrun.
  rewrite (cached_values_written _ _ _ _ Hr Hrun). reflexivity.
Defined.

Lemma cached_points_numbered_witness :
  exists c0 s c1 r c c' out,
    lxw_chart_new 4 [] = (Some c0, [])
    /\ chart_add_series c0 None (Some "=Sheet1!$B$1:$B$3") []
       = Some (Some s, c1, [])
    /\ lxw_chart_add_data_cache (values s) [1; 10; 2; 20; 3; 30] 3 2 1 []
       = (Some r, [])
    /\ c = set_series_list
             (replace_nth 0 {| categories := categories s; values := r |}
                (series_list c1)) c1
    /\ recognized (type c) = true
    /\ lxw_chart_assemble_xml_file c = Some (tt, c', out)
    /\ flat_map pt_idx out = [0; 1; 2]
    /\ int_vals "c:ptCount" out = [3].
Proof.
  do 7 eexists. keep Hnew. keep Hadd. keep Hcache.
  split; [reflexivity|]. by_computation Hr. keep Hrun.
  destruct (cached_points_numbered _ _ _ _ Hr Hrun) as [Hi Hn].
  split; [rewrite Hi | rewrite Hn]; reflexivity.
Defined.

Lemma add_data_cache_appends_column_witness :
  exists range,
    range = {| formula := Some "Sheet1!$B$1:$B$3"; sheetname := None;
               ignore_cache := false; num_data_points := 0;
               data_cache := Some [] |}
    /\ data_cache range = Some []
    /\ 0 <= 3 /\ 0 <= 1 < 2
    /\ 3 * 2 <= Z.of_nat (List.length [1; 10; 2; 20; 3; 30])
    /\ ~ In false (firstn (Z.to_nat 3) [true; true; true; false])
    /\ lxw_chart_add_data_cache range [1; 10; 2; 20; 3; 30] 3 2 1
         [true; true; true; false]
       = (Some {| formula := Some "Sheet1!$B$1:$B$3"; sheetname := None;
                  ignore_cache := true; num_data_points := 3;
                  data_cache :=
                    Some [{| number := double_of_uint8 10 |};
                          {| number := double_of_uint8 20 |};
                          {| number := double_of_uint8 30 |}] |},
          [false]).
Proof.
  eexists. split; [reflexivity|].
  assert (H1 : 0 <= 3) by lia. assert (H2 : 0 <= 1 < 2) by lia.
  assert (H3 : 3 * 2 <= Z.of_nat (List.length [1; 10; 2; 20; 3; 30]))
    by (cbn; lia).
  assert (H4 : ~ In false (firstn (Z.to_nat 3) [true; true; true; false]))
    by (vm_compute; intuition discriminate).
  split; [reflexivity|]. split; [exact H1|]. split; [exact H2|].
  split; [exact H3|]. split; [exact H4|].
  match goal with
  | |- lxw_chart_add_data_cache ?r ?d _ _ _ ?o = _ =>
      exact (add_data_cache_appends_column r [] d 3 2 1 o eq_refl
               H1 H2 H3 H4)
  end.
Defined.

Lemma add_data_cache_undefined_witness :
  exists range,
    range = {| formula := Some "Sheet1!$B$1:$B$3"; sheetname := None;
               ignore_cache := false; num_data_points := 0;
               data_cache := Some [] |}
    /\ ((data_cache range = None /\ 3 <> 0)
        \/ In false (firstn (Z.to_nat 3) [true; false]))
    /\ fst (lxw_chart_add_data_cache range [1; 10; 2; 20; 3; 30] 3 2 1
              [true; false]) = None.
Proof.
  eexists. split; [reflexivity|].
  match goal with
  | |- ?P /\ _ =>
      assert (H1 : P) by (right; vm_compute; auto); split; [exact H1|]
  end.
  exact (add_data_cache_undefined _ _ 3 2 1 _ H1).
Defined.

Lemma data_cache_round_trip_witness :
  exists c range,
    lxw_chart_new 1 [] = (Some c, [])
    /\ range = {| formula := Some "Sheet1!$B$1:$B$3"; sheetname := None;
                  ignore_cache := false; num_data_points := 0;
                  data_cache := Some [] |}
    /\ data_cache range = Some []
    /\ 0 <= 3 /\ 0 <= 1 < 2
    /\ 3 * 2 <= Z.of_nat (List.length [1; 10; 2; 20; 3; 30])
    /\ ~ In false (firstn (Z.to_nat 3) [])
    /\ exists range' o' out,
         lxw_chart_add_data_cache range [1; 10; 2; 20; 3; 30] 3 2 1 []
         = (Some range', o')
         /\ _chart_write_num_ref range' c = Some (tt, c, out)
         /\ data_vals "c:v" out
            = [DataG16 (double_of_uint8 10); DataG16 (double_of_uint8 20);
               DataG16 (double_of_uint8 30)]
         /\ List.length (flat_map pt_idx out) = 3%nat
         /\ int_vals "c:ptCount" out = [3]
         /\ count_tag "c:numCache" out = 1%nat.
Proof.
  do 2 eexists. keep Hnew. split; [reflexivity|].
  assert (H1 : 0 <= 3) by lia. assert (H2 : 0 <= 1 < 2) by lia.
  assert (H3 : 3 * 2 <= Z.of_nat (List.length [1; 10; 2; 20; 3; 30]))
    by (cbn; lia).
  assert (H4 : ~ In false (firstn (Z.to_nat 3) (@nil bool)))
    by (vm_compute; intuition discriminate).
  split; [reflexivity|]. split; [exact H1|]. split; [exact H2|].
  split; [exact H3|]. split; [exact H4|].
  match goal with
  | |- exists _ _ _, lxw_chart_add_data_cache ?r ?d _ _ _ _ = _ /\
                     _chart_write_num_ref _ ?c = _ /\ _ =>
      destruct (data_cache_round_trip r d 3 2 1 [] c eq_refl H1 H2 H3 H4)
        as (range' & o' & out & Hc & Hw & Hv & Hp & Hn & Hk)
  end.
  exists range', o', out.
  split; [exact Hc|]. split; [exact Hw|].
  split; [rewrite Hv; reflexivity|]. split; [rewrite Hp; reflexivity|].
  split; [rewrite Hn | rewrite Hk]; reflexivity.
Defined.

Lemma built_serializable_witness :
  exists c0 s c1 r c,
    lxw_chart_new 10 [] = (Some c0, [])
    /\ chart_add_series c0 (Some "=Sheet1!$A$1:$A$3")
         (Some "=Sheet1!$B$1:$B$3") [] = Some (Some s, c1, [])
    /\ lxw_chart_add_data_cache (values s) [1; 10; 2; 20; 3; 30] 3 2 1 []
       = (Some r, [])
    /\ c = set_series_list
             (replace_nth 0 {| categories := categories s; values := r |}
                (series_list c1)) c1
    /\ built c
    /\ exists c' out,
         lxw_chart_assemble_xml_file c = Some (tt, c', out)
         /\ built c' /\ balanced [] out = true.
Proof.
  do 5 eexists. keep Hnew. keep Hadd. keep Hcache.
  split; [reflexivity|].
  assert (Ho : ~ In false (firstn 7 (@nil bool)))
    by (vm_compute; intuition discriminate).
  pose proof (built_cache_values _ 0 _ _ _ _ _ _ _ _
                (built_add_series _ _ _ _ _ _ _
                   (built_new _ _ _ _ Hnew) Ho Hadd)
                eq_refl Hcache) as Hbuilt.
  split; [exact Hbuilt|].
  exact (built_serializable _ Hbuilt).
Defined.

Lemma markers_only_for_line_witness :
  exists c0 s1 c1 s2 c c' out,
    lxw_chart_new LXW_CHART_LINE [] = (Some c0, [])
    /\ chart_add_series c0 (Some "=Sheet1!$A$1:$A$5")
         (Some "=Sheet1!$B$1:$B$5") [] = Some (Some s1, c1, [])
    /\ chart_add_series c1 None (Some "Sheet1!$C$1:$C$5") []
       = Some (Some s2, c, [])
    /\ reachable c
    /\ lxw_chart_assemble_xml_file c = Some (tt, c', out)
    /\ count_tag "c:marker" out = 3%nat
    /\ has_markers c' = true.
Proof.
  do 7 eexists. keep Hnew. keep Hadd1. keep Hadd2.
  pose proof (reach_add_series _ _ _ _ _ _ _
                (reach_add_series _ _ _ _ _ _ _
                   (reach_new _ _ _ _ Hnew) Hadd1) Hadd2) as Hreach.
  split; [exact Hreach|]. keep Hrun.
  destruct (markers_only_for_line _ _ _ _ Hreach Hrun) as [Hn Hm].
  split; [rewrite Hn | rewrite Hm]; reflexivity.
Defined.

Lemma axis_positions_by_family_witness :
  exists c0 s c c' out,
    lxw_chart_new LXW_CHART_BAR_STACKED [] = (Some c0, [])
    /\ chart_add_series c0 (Some "=Sheet1!$A$1:$A$5")
         (Some "=Sheet1!$B$1:$B$5") [] = Some (Some s, c, [])
    /\ reachable c
    /\ lxw_chart_assemble_xml_file c = Some (tt, c', out)
    /\ str_vals "c:axPos" out = ["l"; "b"]
    /\ str_vals "c:barDir" out = ["bar"].
Proof.
  do 5 eexists. keep Hnew. keep Hadd.
  pose proof (reach_add_series _ _ _ _ _ _ _
                (reach_new _ _ _ _ Hnew) Hadd) as Hreach.
  split; [exact Hreach|]. keep Hrun.
  destruct (axis_positions_by_family _ _ _ _ Hreach Hrun) as [Hp Hd].
  split; [rewrite Hp | rewrite Hd]; reflexivity.
Defined.

Lemma category_axis_number_format_witness :
  exists c0 s c c1 out1 c2 out2,
    lxw_chart_new LXW_CHART_COLUMN [] = (Some c0, [])
    /\ chart_add_series c0 (Some "=Sheet1!$A$1:$A$5")
         (Some "=Sheet1!$B$1:$B$5") [] = Some (Some s, c, [])
    /\ lxw_chart_assemble_xml_file c = Some (tt, c1, out1)
    /\ lxw_chart_assemble_xml_file c1 = Some (tt, c2, out2)
    /\ cat_has_num_fmt c = false
    /\ cat_has_num_fmt c1 = true /\ count_tag "c:numFmt" out1 = 2%nat
    /\ cat_has_num_fmt c2 = true /\ count_tag "c:numFmt" out2 = 2%nat.
Proof.
  do 7 eexists. keep Hnew. keep Hadd. keep Hrun1. keep Hrun2.
  destruct (category_axis_number_format _ _ _ _ Hrun1) as [Hf1 Hn1].
  destruct (category_axis_number_format _ _ _ _ Hrun2) as [Hf2 Hn2].
  split; [reflexivity|].
  split; [rewrite Hf1; reflexivity|].
  split; [rewrite Hn1; reflexivity|].
  split; [rewrite Hf2; reflexivity|].
  rewrite Hn2. reflexivity.
Defined.

Lemma grouping_by_type_witness :
  exists c0 s c c' out,
    lxw_chart_new LXW_CHART_COLUMN_STACKED [] = (Some c0, [])
    /\ chart_add_series c0 (Some "=Sheet1!$A$1:$A$5")
         (Some "=Sheet1!$B$1:$B$5") [] = Some (Some s, c, [])
    /\ reachable c /\ recognized (type c) = true
    /\ lxw_chart_assemble_xml_file c = Some (tt, c', out)
    /\ str_vals "c:grouping" out = ["stacked"]
    /\ grouping c' = "stacked".
Proof.
  do 5 eexists. keep Hnew. keep Hadd.
  pose proof (reach_add_series _ _ _ _ _ _ _
                (reach_new _ _ _ _ Hnew) Hadd) as Hreach.
  split; [exact Hreach|]. by_computation Hr. keep Hrun.
  destruct (grouping_by_type _ _ _ _ Hreach Hr Hrun) as [Hout Hg].
  split; [rewrite Hout, Hg | rewrite Hg]; reflexivity.
Defined.

Lemma chart_add_series_unchecked_cache_witness :
  exists c,
    lxw_chart_new LXW_CHART_LINE [] = (Some c, [])
    /\ ~ In false (firstn 6 [true; true; true; true; true; true; false])
    /\ nth 6 [true; true; true; true; true; true; false] true = false
    /\ exists s c' o',
         chart_add_series c (Some "=Sheet1!$A$1:$A$5")
           (Some "=Sheet1!$B$1:$B$5")
           [true; true; true; true; true; true; false]
         = Some (Some s, c', o')
         /\ series_list c' = series_list c ++ [s]
         /\ data_cache (values s) = None
         /\ lxw_chart_assemble_xml_file c' = None.
Proof.
  eexists. keep Hnew.
  assert (H1 : ~ In false
                   (firstn 6 [true; true; true; true; true; true; false]))
    by (vm_compute; intuition discriminate).
  split; [exact H1|]. split; [reflexivity|].
  match goal with
  | |- exists _ _ _, chart_add_series ?c (Some ?cats) (Some ?vals) ?o = _
                     /\ _ =>
      destruct (chart_add_series_unchecked_cache c cats vals o H1 eq_refl)
        as (s & c' & o' & Hadd & Hl & _ & Hv & Hnone)
  end.
  exists s, c', o'.
  split; [exact Hadd|]. split; [exact Hl|]. split; [exact Hv|].
  apply Hnone. reflexivity.
Defined.


(** * The worksheet cell store *)

Module WorksheetFacts.

Import Worksheet.

Lemma insert_cell_lookup col v f l :
  lookup_cell col (insert_cell col v f l) = Some (v, f).
Proof.
  unfold lookup_cell. induction l as [|cell rest IH]; cbn [insert_cell find].
  - cbn. rewrite Z.eqb_refl. reflexivity.
  - destruct (Z.ltb_spec col (col_num cell)) as [Hlt|Hge].
    + cbn. rewrite Z.eqb_refl. reflexivity.
    + destruct (Z.eqb_spec col (col_num cell)) as [->|Hne].
      * cbn. rewrite Z.eqb_refl. reflexivity.
      * cbn [find]. destruct (Z.eqb_spec (col_num cell) col) as [E|_];
          [congruence | exact IH].
Qed.

Lemma insert_cell_other col v f l col' :
  col' <> col ->
  lookup_cell col' (insert_cell col v f l) = lookup_cell col' l.
Proof.
  intros Hne. unfold lookup_cell.
  induction l as [|cell rest IH]; cbn [insert_cell find].
  - cbn. destruct (Z.eqb_spec col col'); [congruence | reflexivity].
  - destruct (Z.ltb_spec col (col_num cell)) as [Hlt|Hge].
    + cbn [find col_num]. destruct (Z.eqb_spec col col');
        [congruence | reflexivity].
    + destruct (Z.eqb_spec col (col_num cell)) as [E|Hne'].
      * cbn [find col_num]. rewrite <- E.
        destruct (Z.eqb_spec col col'); [congruence | reflexivity].
      * cbn [find]. destruct (col_num cell =? col'); [reflexivity | exact IH].
Qed.

Lemma insert_cell_cols col v f l :
  forall k, In k (map col_num (insert_cell col v f l)) ->
            k = col \/ In k (map col_num l).
Proof.
  induction l as [|cell rest IH]; intros k; cbn [insert_cell].
  - cbn. intuition auto.
  - destruct (col <? col_num cell); [cbn; intuition auto|].
    destruct (col =? col_num cell); [cbn; intuition auto|].
    cbn [map In]. intros [E|Hin]; [auto|].
    destruct (IH k Hin); auto.
Qed.

Lemma insert_cell_sorted col v f l :
  sorted_cells l -> sorted_cells (insert_cell col v f l).
Proof.
  unfold sorted_cells. induction l as [|cell rest IH]; intros Hs.
  - cbn. constructor; constructor.
  - cbn [insert_cell]. inversion Hs as [|x xs Hrest Hall]. subst.
    destruct (Z.ltb_spec col (col_num cell)) as [Hlt|Hge].
    + cbn [map col_num]. constructor; [exact Hs|].
      constructor; [exact Hlt|].
      eapply Forall_impl; [|exact Hall]. cbn. intros k Hk. lia.
    + destruct (Z.eqb_spec col (col_num cell)) as [E|Hne].
      * cbn [map col_num]. constructor; assumption.
      * cbn [map]. constructor; [apply IH; exact Hrest|].
        apply Forall_forall. intros k Hk.
        destruct (insert_cell_cols _ _ _ _ _ Hk) as [->|Hin]; [lia|].
        rewrite Forall_forall in Hall. apply Hall. exact Hin.
Qed.

Lemma sorted_cells_below col cell rest :
  sorted_cells (cell :: rest) -> col < col_num cell ->
  lookup_cell col (cell :: rest) = None.
Proof.
  unfold sorted_cells, lookup_cell. intros Hs Hlt.
  inversion Hs as [|x xs _ Hall]. subst.
  assert (Hnone : forall l, Forall (Z.lt col) (map col_num l) ->
                  find (fun c => col_num c =? col) l = None).
  { induction l as [|c l IH]; intros Hl; [reflexivity|].
    inversion Hl. subst. cbn [find].
    destruct (Z.eqb_spec (col_num c) col); [lia | auto]. }
  rewrite (Hnone (cell :: rest)); [reflexivity|].
  cbn [map]. constructor; [exact Hlt|].
  eapply Forall_impl; [|exact Hall]. cbn. intros k Hk. lia.
Qed.

Lemma insert_cell_length col v f l :
  sorted_cells l ->
  List.length (insert_cell col v f l)
  = match lookup_cell col l with
    | Some _ => List.length l
    | None => S (List.length l)
    end.
Proof.
  induction l as [|cell rest IH]; intros Hs.
  - reflexivity.
  - cbn [insert_cell].
    destruct (Z.ltb_spec col (col_num cell)) as [Hlt|Hge].
    + rewrite (sorted_cells_below _ _ _ Hs Hlt). reflexivity.
    + destruct (Z.eqb_spec col (col_num cell)) as [E|Hne].
      * unfold lookup_cell. cbn [find]. rewrite E, Z.eqb_refl. reflexivity.
      * assert (Hrest : sorted_cells rest)
          by (unfold sorted_cells in *; inversion Hs; assumption).
        cbn [List.length]. rewrite (IH Hrest).
        unfold lookup_cell. cbn [find].
        destruct (Z.eqb_spec (col_num cell) col); [congruence|].
        destruct (find _ rest); reflexivity.
Qed.

Lemma rows_below row r rest :
  StronglySorted Z.lt (map row_num (r :: rest)) -> row < row_num r ->
  find (fun r' => row_num r' =? row) (r :: rest) = None.
Proof.
  intros Hs Hlt. inversion Hs as [|x xs _ Hall]. subst.
  assert (Hnone : forall l, Forall (Z.lt row) (map row_num l) ->
                  find (fun r' => row_num r' =? row) l = None).
  { induction l as [|c l IH]; intros Hl; [reflexivity|].
    inversion Hl. subst. cbn [find].
    destruct (Z.eqb_spec (row_num c) row); [lia | auto]. }
  apply Hnone. cbn [map]. constructor; [exact Hlt|].
  eapply Forall_impl; [|exact Hall]. cbn. intros k Hk. lia.
Qed.

Lemma insert_row_cell_lookup row col v f l :
  lookup_rows row col (insert_row_cell row col v f l) = Some (v, f).
Proof.
  unfold lookup_rows. induction l as [|r rest IH]; cbn [insert_row_cell].
  - cbn [find row_num cells]. rewrite Z.eqb_refl.
    apply insert_cell_lookup.
  - destruct (Z.ltb_spec row (row_num r)) as [Hlt|Hge].
    + cbn [find row_num cells]. rewrite Z.eqb_refl.
      apply insert_cell_lookup.
    + destruct (Z.eqb_spec row (row_num r)) as [E|Hne].
      * cbn [find row_num cells]. rewrite <- E, Z.eqb_refl.
        apply insert_cell_lookup.
      * cbn [find]. destruct (Z.eqb_spec (row_num r) row) as [E|_];
          [congruence | exact IH].
Qed.

Lemma insert_row_cell_other row col v f l row' col' :
  StronglySorted Z.lt (map row_num l) ->
  (row', col') <> (row, col) ->
  lookup_rows row' col' (insert_row_cell row col v f l)
  = lookup_rows row' col' l.
Proof.
  unfold lookup_rows. intros Hs Hne.
  induction l as [|r rest IH]; cbn [insert_row_cell].
  - cbn [find row_num cells].
    destruct (Z.eqb_spec row row') as [E|_]; [|reflexivity].
    apply insert_cell_other. congruence.
  - destruct (Z.ltb_spec row (row_num r)) as [Hlt|Hge].
    + cbn [find row_num cells].
      destruct (Z.eqb_spec row row') as [E|_]; [|reflexivity].
      subst row'. cbn [cells].
      rewrite insert_cell_other by congruence.
      pose proof (rows_below _ _ _ Hs Hlt) as Hnone.
      cbn [find] in Hnone. rewrite Hnone. reflexivity.
    + destruct (Z.eqb_spec row (row_num r)) as [E|Hne'].
      * cbn [find row_num cells].
        destruct (Z.eqb_spec (row_num r) row') as [E'|_]; [|reflexivity].
        apply insert_cell_other. congruence.
      * cbn [find]. destruct (row_num r =? row'); [reflexivity|].
        apply IH. inversion Hs. assumption.
Qed.

Lemma insert_row_cell_rows row col v f l :
  forall k, In k (map row_num (insert_row_cell row col v f l)) ->
            k = row \/ In k (map row_num l).
Proof.
  induction l as [|r rest IH]; intros k; cbn [insert_row_cell].
  - cbn. intuition auto.
  - destruct (row <? row_num r); [cbn; intuition auto|].
    destruct (row =? row_num r); [cbn; intuition auto|].
    cbn [map In]. intros [E|Hin]; [auto|].
    destruct (IH k Hin); auto.
Qed.

Lemma insert_row_cell_sorted row col v f l :
  sorted_rows l -> sorted_rows (insert_row_cell row col v f l).
Proof.
  unfold sorted_rows. induction l as [|r rest IH]; intros [Hs Hc].
  - cbn. split.
    + constructor; constructor.
    + constructor; [|constructor]. apply (insert_cell_sorted col v f []).
      constructor.
  - cbn [insert_row_cell]. inversion Hs as [|x xs Hrest Hall]. subst.
    inversion Hc as [|y ys Hr Hcrest]. subst.
    destruct (Z.ltb_spec row (row_num r)) as [Hlt|Hge].
    + split.
      * cbn [map row_num]. constructor; [exact Hs|].
        constructor; [exact Hlt|].
        eapply Forall_impl; [|exact Hall]. cbn. intros k Hk. lia.
      * constructor; [|exact Hc]. apply (insert_cell_sorted col v f []).
        constructor.
    + destruct (Z.eqb_spec row (row_num r)) as [E|Hne].
      * split.
        -- cbn [map row_num]. constructor; assumption.
        -- constructor; [|exact Hcrest]. cbn [cells].
           apply insert_cell_sorted. exact Hr.
      * destruct (IH (conj Hrest Hcrest)) as [IHs IHc]. split.
        -- cbn [map]. constructor; [exact IHs|].
           apply Forall_forall. intros k Hk.
           destruct (insert_row_cell_rows _ _ _ _ _ _ Hk) as [->|Hin];
             [lia|].
           rewrite Forall_forall in Hall. apply Hall. exact Hin.
        -- constructor; assumption.
Qed.

Lemma insert_row_cell_count row col v f l :
  sorted_rows l ->
  List.length (flat_map cells (insert_row_cell row col v f l))
  = match lookup_rows row col l with
    | Some _ => List.length (flat_map cells l)
    | None => S (List.length (flat_map cells l))
    end.
Proof.
  unfold sorted_rows, lookup_rows.
  induction l as [|r rest IH]; intros [Hs Hc].
  - reflexivity.
  - cbn [insert_row_cell].
    destruct (Z.ltb_spec row (row_num r)) as [Hlt|Hge].
    + rewrite (rows_below _ _ _ Hs Hlt). reflexivity.
    + inversion Hs as [|x xs Hrest Hall]. subst.
      inversion Hc as [|y ys Hr Hcrest]. subst.
      destruct (Z.eqb_spec row (row_num r)) as [E|Hne].
      * cbn [find flat_map cells]. rewrite E, Z.eqb_refl.
        rewrite !length_app, (insert_cell_length _ _ _ _ Hr).
        destruct (lookup_cell (row_num r) (cells r)) eqn:El;
          rewrite <- E in El.
        -- destruct (lookup_cell col (cells r)); reflexivity.
        -- destruct (lookup_cell col (cells r)); reflexivity.
      * cbn [find flat_map].
        destruct (Z.eqb_spec (row_num r) row); [congruence|].
        rewrite !length_app, (IH (conj Hrest Hcrest)).
        destruct (find _ rest) as [r'|]; [|lia].
        destruct (lookup_cell col (cells r')); lia.
Qed.

(** C9. A write with [row >= 1,048,576] or [col >= 16,384] fails with
    [LXW_RANGE_ERROR] and leaves the worksheet, its dimension bounds
    included, as it was: so do [write (1048576, 0)] and [write (0, 16384)].
    A write inside the limits succeeds on a sorted store, keeps it sorted,
    makes the cell read back with the value and format written, leaves
    every other cell as it was, and adds one cell when there was none at
    that place and none when there was one. *)
Theorem write_contract (ws : lxw_worksheet) (row col : Z) (v : cell_value)
    (f : option lxw_format) :
  (1048576 <= row \/ 16384 <= col ->
   write ws row col v f = (LXW_RANGE_ERROR, ws))
  /\ write ws 1048576 0 v f = (LXW_RANGE_ERROR, ws)
  /\ write ws 0 16384 v f = (LXW_RANGE_ERROR, ws)
  /\ (row < 1048576 -> col < 16384 -> sorted ws ->
      exists ws',
        write ws row col v f = (LXW_WRITE_ERROR_NONE, ws')
        /\ sorted ws'
        /\ lookup ws' row col = Some (v, f)
        /\ (forall row' col', (row', col') <> (row, col) ->
            lookup ws' row' col' = lookup ws row' col')
        /\ cell_count ws'
           = match lookup ws row col with
             | Some _ => cell_count ws
             | None => S (cell_count ws)
             end
        /\ dim_rowmin ws' = Z.min row (dim_rowmin ws)
        /\ dim_rowmax ws' = Z.max row (dim_rowmax ws)
        /\ dim_colmin ws' = Z.min col (dim_colmin ws)
        /\ dim_colmax ws' = Z.max col (dim_colmax ws)).
Proof.
  split; [|split; [reflexivity|split; [reflexivity|]]].
  - intros Hout. unfold write, LXW_ROW_MAX, LXW_COL_MAX.
    destruct (Z.geb_spec row 1048576), (Z.geb_spec col 16384);
      try reflexivity; lia.
  - intros Hrow Hcol [Hs Hc]. unfold write, LXW_ROW_MAX, LXW_COL_MAX.
    destruct (Z.geb_spec row 1048576); [lia|].
    destruct (Z.geb_spec col 16384); [lia|].
    cbn [orb]. eexists. split; [reflexivity|].
    unfold sorted, lookup, cell_count. cbn [table dim_rowmin dim_rowmax
      dim_colmin dim_colmax].
    split; [apply insert_row_cell_sorted; split; assumption|].
    split; [apply insert_row_cell_lookup|].
    split; [intros row' col' Hne; apply insert_row_cell_other; assumption|].
    split; [apply insert_row_cell_count; split; assumption|].
    auto.
Qed.

Lemma write_contract_witness :
  (1048576 <= 2000000 \/ 16384 <= 3)
  /\ write empty_worksheet 2000000 3 (STRING_CELL 0) None
     = (LXW_RANGE_ERROR, empty_worksheet)
  /\ 2 < 1048576 /\ 3 < 16384 /\ sorted empty_worksheet
  /\ exists ws',
       write empty_worksheet 2 3 (STRING_CELL 0) None
       = (LXW_WRITE_ERROR_NONE, ws')
       /\ sorted ws'
       /\ lookup ws' 2 3 = Some (STRING_CELL 0, None)
       /\ cell_count ws' = 1%nat
       /\ dim_rowmin ws' = 2 /\ dim_rowmax ws' = 2
       /\ dim_colmin ws' = 3 /\ dim_colmax ws' = 3.
Proof.
  assert (Hout : 1048576 <= 2000000 \/ 16384 <= 3) by (left; lia).
  assert (Hrow : 2 < 1048576) by lia.
  assert (Hcol : 3 < 16384) by lia.
  assert (Hs : sorted empty_worksheet)
    by (split; cbn; constructor).
  split; [exact Hout|].
  split;
    [exact (proj1 (write_contract empty_worksheet 2000000 3 (STRING_CELL 0)
                     None) Hout)|].
  split; [exact Hrow|]. split; [exact Hcol|]. split; [exact Hs|].
  destruct (write_contract empty_worksheet 2 3 (STRING_CELL 0) None)
    as (_ & _ & _ & Hin).
  destruct (Hin Hrow Hcol Hs)
    as (ws' & Hw & Hs' & Hl & _ & Hn & D1 & D2 & D3 & D4).
  exists ws'.
  split; [exact Hw|]. split; [exact Hs'|]. split; [exact Hl|].
  split; [exact Hn|]. split; [exact D1|]. split; [exact D2|].
  split; [exact D3 | exact D4].
Defined.

End WorksheetFacts.
